(** * The pretraining driver [self_supervised/main_pretrain.py]

    A shallow embedding of the orchestration script: the configuration
    is a record, the external libraries are an environment of oracles,
    and [main] runs in a small trace-and-exception monad.  The trace
    lists, in order, the calls the script makes into the training
    libraries from [seed_everything] on.  What comes before that and
    leaves no mark on the run is not in the trace: the print of
    [torch.cuda.device_count()] (line 73), like all console output, and
    [OmegaConf.set_struct] (line 77); [parse_cfg] and the expansion of
    the name template are steps whose failure ends the run. *)

From Stdlib Require Import ZArith QArith Ascii String.
From stdpp Require Import base option list strings gmap fin_maps.

Local Open Scope Z_scope.
Local Open Scope string_scope.
Local Open Scope list_scope.

(** ** Python values *)

(** Leaves and containers of an OmegaConf configuration once it has been
    turned into plain Python objects. *)
#[warnings="-register-all"]
Inductive value : Type :=
| VNone
| VBool (b : bool)
| VInt (z : Z)
| VFloat (q : Q)
| VStr (s : string)
| VList (l : list value)
| VDict (d : list (string * value)).

(** [v is None] *)
Definition is_none (v : value) : bool :=
  match v with VNone => true | _ => false end.

(** [v == s] for a string literal [s]: only a string compares equal to a
    string. *)
Definition eq_str (v : value) (s : string) : bool :=
  match v with VStr s' => String.eqb s' s | _ => false end.

Definition of_opt_str (o : option string) : value :=
  match o with None => VNone | Some s => VStr s end.

(** ** [os.path.join] on two components (posixpath) *)

Definition sep : Ascii.ascii := "/"%char.

Definition startswith_sep (s : string) : bool :=
  match s with
  | String c _ => Ascii.eqb c sep
  | EmptyString => false
  end.

Fixpoint endswith_sep (s : string) : bool :=
  match s with
  | EmptyString => false
  | String c EmptyString => Ascii.eqb c sep
  | String _ rest => endswith_sep rest
  end.

(** [b] absolute: the result is [b]; [a] empty or ending in the
    separator: plain concatenation; otherwise a separator is put in
    between. *)
Definition path_join (a b : string) : string :=
  if startswith_sep b then b
  else if (String.eqb a "" || endswith_sep a)%bool then a +:+ b
  else a +:+ String sep b.

(** A path lies in the tree rooted at [root] (what a recursive walk from
    [root] visits) when it is [root] or extends [root] by a separator. *)
Definition with_trailing_sep (p : string) : string :=
  if endswith_sep p then p else p +:+ String sep "".

Definition in_tree (root p : string) : bool :=
  (String.eqb p root || String.prefix (with_trailing_sep root) p)%bool.

(** ** The configuration *)

Record DataCfg := {
  dataset : string;
  custom_dataset_name : string;
  train_path : string;
  val_path : option string;
  format : string;
  num_large_crops : Z;
  num_small_crops : Z;
  num_workers : Z;
  no_labels : bool;
  fraction : value;
}.

Record BackboneCfg := {
  backbone_name : string;
  kwargs : gmap string value;
}.

Record AugCfg := {
  num_crops : Z;
  aug_params : list (string * value);
}.

Record OptimizerCfg := { batch_size : Z }.
Record PerformanceCfg := { disable_channel_last : bool }.
Record CheckpointCfg := {
  checkpoint_enabled : bool;
  checkpoint_dir : string;
  checkpoint_frequency : Z;
  keep_prev : bool;
}.
Record AutoResumeCfg := {
  auto_resume_enabled : bool;
  max_hours : Z;
}.
Record AutoUmapCfg := {
  auto_umap_enabled : bool;
  auto_umap_dir : string;
  auto_umap_frequency : Z;
}.
Record WandbCfg := {
  wandb_enabled : bool;
  project : string;
  entity : option string;
  offline : bool;
}.
Record DaliCfg := {
  dali_device : string;
  encode_indexes_into_labels : bool;
}.

(** The keys [main] reads, as [parse_cfg] leaves them.  The key
    [resume_from_checkpoint] is the one key [main] deletes, so its field
    says whether the key is there ([None]: deleted) and, if it is, its
    value ([Some None]: Python's [None]).  [extra] holds every other
    top-level key of the run (user keys and the engine's own settings such
    as [max_epochs] or [devices]). *)
Record Cfg := {
  name : string;
  seed : Z;
  method : string;
  backbone : BackboneCfg;
  data : DataCfg;
  augmentations : list AugCfg;
  optimizer : OptimizerCfg;
  performance : PerformanceCfg;
  debug_augmentations : bool;
  checkpoint : CheckpointCfg;
  auto_resume : AutoResumeCfg;
  resume_from_checkpoint : option (option string);
  auto_umap : AutoUmapCfg;
  wandb : WandbCfg;
  dali : DaliCfg;
  strategy : value;
  extra : list (string * value);
}.

Definition set_name (cfg : Cfg) (n : string) : Cfg :=
  {| name := n; seed := seed cfg; method := method cfg;
     backbone := backbone cfg; data := data cfg;
     augmentations := augmentations cfg; optimizer := optimizer cfg;
     performance := performance cfg;
     debug_augmentations := debug_augmentations cfg;
     checkpoint := checkpoint cfg; auto_resume := auto_resume cfg;
     resume_from_checkpoint := resume_from_checkpoint cfg;
     auto_umap := auto_umap cfg; wandb := wandb cfg; dali := dali cfg;
     strategy := strategy cfg; extra := extra cfg |}.

Definition set_backbone_kwargs (cfg : Cfg) (kw : gmap string value) : Cfg :=
  {| name := name cfg; seed := seed cfg; method := method cfg;
     backbone := {| backbone_name := backbone_name (backbone cfg);
                    kwargs := kw |};
     data := data cfg;
     augmentations := augmentations cfg; optimizer := optimizer cfg;
     performance := performance cfg;
     debug_augmentations := debug_augmentations cfg;
     checkpoint := checkpoint cfg; auto_resume := auto_resume cfg;
     resume_from_checkpoint := resume_from_checkpoint cfg;
     auto_umap := auto_umap cfg; wandb := wandb cfg; dali := dali cfg;
     strategy := strategy cfg; extra := extra cfg |}.

(** [del cfg.resume_from_checkpoint] *)
Definition del_resume_from_checkpoint (cfg : Cfg) : Cfg :=
  {| name := name cfg; seed := seed cfg; method := method cfg;
     backbone := backbone cfg; data := data cfg;
     augmentations := augmentations cfg; optimizer := optimizer cfg;
     performance := performance cfg;
     debug_augmentations := debug_augmentations cfg;
     checkpoint := checkpoint cfg; auto_resume := auto_resume cfg;
     resume_from_checkpoint := None;
     auto_umap := auto_umap cfg; wandb := wandb cfg; dali := dali cfg;
     strategy := strategy cfg; extra := extra cfg |}.

(** [OmegaConf.to_container(cfg)]: the top-level dictionary.  The keys
    read by [main] come first, so that they shadow an [extra] entry of
    the same name. *)
Definition data_container (d : DataCfg) : value :=
  VDict [("dataset", VStr (dataset d));
         ("custom_dataset_name", VStr (custom_dataset_name d));
         ("train_path", VStr (train_path d));
         ("val_path", of_opt_str (val_path d));
         ("format", VStr (format d));
         ("num_large_crops", VInt (num_large_crops d));
         ("num_small_crops", VInt (num_small_crops d));
         ("num_workers", VInt (num_workers d));
         ("no_labels", VBool (no_labels d));
         ("fraction", fraction d)].

Definition aug_container (a : AugCfg) : value :=
  VDict (("num_crops", VInt (num_crops a)) :: aug_params a).

Definition known_items (cfg : Cfg) : list (string * value) :=
  [("name", VStr (name cfg));
   ("seed", VInt (seed cfg));
   ("method", VStr (method cfg));
   ("backbone",
     VDict [("name", VStr (backbone_name (backbone cfg)));
            ("kwargs", VDict (map_to_list (kwargs (backbone cfg))))]);
   ("data", data_container (data cfg));
   ("augmentations", VList (map aug_container (augmentations cfg)));
   ("optimizer", VDict [("batch_size", VInt (batch_size (optimizer cfg)))]);
   ("performance",
     VDict [("disable_channel_last",
             VBool (disable_channel_last (performance cfg)))]);
   ("debug_augmentations", VBool (debug_augmentations cfg));
   ("checkpoint",
     VDict [("enabled", VBool (checkpoint_enabled (checkpoint cfg)));
            ("dir", VStr (checkpoint_dir (checkpoint cfg)));
            ("frequency", VInt (checkpoint_frequency (checkpoint cfg)));
            ("keep_prev", VBool (keep_prev (checkpoint cfg)))]);
   ("auto_resume",
     VDict [("enabled", VBool (auto_resume_enabled (auto_resume cfg)));
            ("max_hours", VInt (max_hours (auto_resume cfg)))])]
  ++ match resume_from_checkpoint cfg with
     | None => []
     | Some r => [("resume_from_checkpoint", of_opt_str r)]
     end
  ++ [("auto_umap",
        VDict [("enabled", VBool (auto_umap_enabled (auto_umap cfg)));
               ("dir", VStr (auto_umap_dir (auto_umap cfg)));
               ("frequency", VInt (auto_umap_frequency (auto_umap cfg)))]);
      ("wandb",
        VDict [("enabled", VBool (wandb_enabled (wandb cfg)));
               ("project", VStr (project (wandb cfg)));
               ("entity", of_opt_str (entity (wandb cfg)));
               ("offline", VBool (offline (wandb cfg)))]);
      ("dali",
        VDict [("device", VStr (dali_device (dali cfg)));
               ("encode_indexes_into_labels",
                VBool (encode_indexes_into_labels (dali cfg)))]);
      ("strategy", strategy cfg)].

Definition to_container (cfg : Cfg) : gmap string value :=
  list_to_map (known_items cfg ++ extra cfg).

(** ** Objects built by the script *)

(** A tensor is kept as its flat list of entries; a state dict maps
    parameter names to tensors. *)
Abbreviation Tensor := (list Q).
Abbreviation StateDict := (gmap string Tensor).

(** A method instance: every method owns a backbone; the instances of
    [BaseMomentumMethod] also own a momentum backbone. *)
Inductive Model :=
| BaseMethod (backbone_params : StateDict)
| BaseMomentumMethod (backbone_params momentum_params : StateDict).

Definition model_backbone (m : Model) : StateDict :=
  match m with
  | BaseMethod b => b
  | BaseMomentumMethod b _ => b
  end.

Definition momentum_backbone (m : Model) : option StateDict :=
  match m with
  | BaseMethod _ => None
  | BaseMomentumMethod _ mb => Some mb
  end.

Definition set_backbone (m : Model) (b : StateDict) : Model :=
  match m with
  | BaseMethod _ => BaseMethod b
  | BaseMomentumMethod _ mb => BaseMomentumMethod b mb
  end.

(** Modelled from the spec: [solo.utils.momentum.initialize_momentum_params]
    is not among the sources.  The spec has it "re-seed its parameters
    from the just-loaded backbone": the momentum backbone's parameters
    become those of the primary backbone. *)
Definition initialize_momentum_params (online momentum : StateDict) : StateDict :=
  online.

Inductive TransformPipeline :=
| build_transform_pipeline (ds : string) (aug : AugCfg)
| build_transform_pipeline_dali (ds : string) (aug : AugCfg) (device : string).

Record NCropAugmentation := {
  crop_transform : TransformPipeline;
  crop_count : Z;
}.

Abbreviation FullTransformPipeline := (list NCropAugmentation).

(** The validation loader returned by [prepare_data_classification]. *)
Record ValLoader := {
  vl_dataset : string;
  vl_train_data_path : string;
  vl_val_data_path : option string;
  vl_data_format : string;
  vl_batch_size : Z;
  vl_num_workers : Z;
}.

Inductive TrainDataset :=
| ACDCDatasetUnlabeleld (root : string) (transform : FullTransformPipeline)
| prepare_datasets (ds : string) (transform : FullTransformPipeline)
    (train_data_path : string) (data_format : string) (nolabels : bool)
    (data_fraction : value).

Record TrainLoader := {
  tl_dataset : TrainDataset;
  tl_batch_size : Z;
  tl_num_workers : Z;
}.

Record PretrainDALIDataModule := {
  dm_dataset : string;
  dm_train_data_path : string;
  dm_transforms : FullTransformPipeline;
  dm_num_large_crops : Z;
  dm_num_small_crops : Z;
  dm_num_workers : Z;
  dm_batch_size : Z;
  dm_no_labels : bool;
  dm_data_fraction : value;
  dm_dali_device : string;
  dm_encode_indexes_into_labels : bool;
  dm_val_dataloader : option ValLoader;
}.

Inductive TrainData :=
| DaliData (dm : PretrainDALIDataModule)
| LoaderData (train_loader : TrainLoader).

(** The hooks. *)
Inductive Callback :=
| Checkpointer (cfg : Cfg) (logdir : string) (frequency : Z) (keepprev : bool)
| AutoUMAP (run_name : string) (logdir : string) (frequency : Z)
| LearningRateMonitor (logging_interval : string)
| WeightsSaver (model : Model) (milestones : list Z).

Record WandbLogger := {
  wl_name : string;
  wl_project : string;
  wl_entity : option string;
  wl_offline : bool;
  wl_resume : option string;
  wl_id : option string;
}.

(** A keyword argument of the [Trainer] constructor: a plain value taken
    from the configuration or one of the objects the script builds. *)
Inductive kwarg :=
| KwValue (v : value)
| KwLogger (l : WandbLogger)
| KwCallbacks (cbs : list Callback)
| KwDDPStrategy (find_unused_parameters : bool).

Inductive FitLoop :=
| DefaultFitLoop
| WorkaroundFitLoop (min_epochs max_epochs : value).

Record Trainer := {
  trainer_kwargs : gmap string kwarg;
  fit_loop : FitLoop;
}.

(** The data arguments of [trainer.fit]: a datamodule, or a training
    loader with the validation loader. *)
Inductive FitArgs :=
| FitDataModule (dm : PretrainDALIDataModule)
| FitLoaders (train_loader : TrainLoader) (val_loader : option ValLoader).

(** ** Exceptions, external calls and the environment *)

Inductive Exn :=
| AssertionError (msg : option string)
| ConfigAttributeError (key : string)
| KeyError (key : string)
| UnboundLocalError (var : string)
| LibraryError (what : string).

(** The calls [main] makes into the libraries, with their arguments
    ([register_backbone] is the assignment to [BaseMethod._BACKBONES]). *)
Inductive Event :=
| seed_everything (s : Z)
| register_backbone (key : string)
| construct_method (m : string) (cfg : Cfg)
| get_state_dict_form_pretrained_model_zoo (spec : value) (in_chans : value)
| load_state_dict (weights : StateDict)
| call_initialize_momentum_params
| make_contiguous
| to_channels_last
| prepare_data_classification (vl : ValLoader)
| call_build_transform_pipeline_dali (ds : string) (aug : AugCfg) (device : string)
| construct_dali_datamodule (dm : PretrainDALIDataModule)
| call_build_transform_pipeline (ds : string) (aug : AugCfg)
| construct_acdc_dataset (root : string)
| call_prepare_datasets (d : TrainDataset)
| prepare_dataloader (tl : TrainLoader)
| find_checkpoint (checkpoint_dir_arg : string) (max_hours_arg : Z) (cfg : Cfg)
| construct_wandb_logger (l : WandbLogger)
| wandb_watch (m : Model)
| wandb_log_hyperparams (c : gmap string value)
| construct_trainer (kw : gmap string kwarg)
| patch_fit_loop
| trainer_fit (t : Trainer) (m : Model) (args : FitArgs)
    (ckpt_path : option string).

(** Everything the script takes from outside itself. *)
Record Env := {
  (** [solo.args.pretrain.parse_cfg] *)
  parse_cfg : Cfg -> Exn + Cfg;
  (** [cfg.name.format( **utils.flatten_dict(cfg))] *)
  format_name : Cfg -> Exn + string;
  (** [solo.methods.METHODS] and the text of [METHODS.keys()] *)
  METHODS : gmap string (Cfg -> Exn + Model);
  METHODS_keys_str : string;
  (** the two import guards at the top of the module *)
  _dali_avaliable : bool;
  _umap_available : bool;
  (** [models.pretrained_models.get_state_dict_form_pretrained_model_zoo] *)
  model_zoo : value -> value -> Exn + StateDict;
  (** [backbone.load_state_dict]: the parameters after loading, or the
      key-mismatch error *)
  backbone_load : StateDict -> StateDict -> Exn + StateDict;
  (** [os.path.expanduser] *)
  expanduser : string -> string;
  (** [AutoResumer.find_checkpoint]: checkpoint path and wandb run id *)
  auto_resumer_find : string -> Z -> Cfg -> Exn + (option string * option string);
  (** [inspect.signature(Trainer.__init__).parameters] *)
  trainer_parameters : list string;
  (** the body of the [try] block that replaces [trainer.fit_loop] *)
  workaround_fit_loop : Trainer -> Exn + FitLoop;
  (** whether any other call raises *)
  raises : Event -> option Exn;
}.

(** ** The trace-and-exception monad *)

Definition M (A : Type) : Type := (list Event * (Exn + A))%type.

Definition ret {A} (a : A) : M A := ([], inr a).
Definition raise {A} (e : Exn) : M A := ([], inl e).

Definition bind {A B} (m : M A) (k : A -> M B) : M B :=
  match m with
  | (t, inl e) => (t, inl e)
  | (t, inr a) => let (t2, r) := k a in (t ++ t2, r)
  end.

Notation "'let!' x ':=' m 'in' k" := (bind m (fun x => k))
  (at level 10, x pattern, m at level 100, k at level 200).
Notation "m ';;' k" := (bind m (fun _ => k))
  (at level 100, k at level 200, right associativity).

Definition trace {A} (m : M A) : list Event := fst m.
Definition outcome {A} (m : M A) : Exn + A := snd m.

(** A call whose result the script does not inspect. *)
Definition call (env : Env) (ev : Event) : M unit :=
  ([ev], match raises env ev with Some e => inl e | None => inr tt end).

(** A call whose result comes from the environment. *)
Definition ask {A} (ev : Event) (r : Exn + A) : M A := ([ev], r).

(** An effect that cannot fail (an assignment). *)
Definition note (ev : Event) : M unit := ([ev], inr tt).

(** A step that leaves no call in the trace. *)
Definition lift {A} (r : Exn + A) : M A := ([], r).

(** [assert b, msg] *)
Definition py_assert (b : bool) (msg : option string) : M unit :=
  if b then ret tt else raise (AssertionError msg).

(** [try: ... except: pass] around a block that updates [a] *)
Definition try_except_pass {A} (m : M A) (a : A) : M A :=
  match m with
  | (t, inl _) => (t, inr a)
  | (t, inr a') => (t, inr a')
  end.

Fixpoint for_each {A B} (f : A -> M B) (l : list A) : M (list B) :=
  match l with
  | [] => ret []
  | x :: rest =>
      let! y := f x in
      let! ys := for_each f rest in
      ret (y :: ys)
  end.

(** ** [main], stage by stage *)

Section Main.
Variable env : Env.

(** Lines 77-83: [parse_cfg], the name template, [seed_everything].
    ([OmegaConf.set_struct] only lifts the ban on adding keys; console
    output is not modelled.)  The print of the CUDA device count (line
    73) and [set_struct] (line 77) precede [parse_cfg] in the script and
    are not traced: the trace starts at [seed_everything]. *)
Definition ingest (raw : Cfg) : M Cfg :=
  let! cfg := lift (parse_cfg env raw) in
  let! n := lift (format_name env cfg) in
  let cfg := set_name cfg n in
  call env (seed_everything (seed cfg));;
  ret cfg.

Definition choose_from_msg : string :=
  "Choose from " +:+ METHODS_keys_str env.

Definition crop_exceptions : list string := ["wmse"; "mae"].

(** Line 85: the method is a key of the registry. *)
Definition registry_check (cfg : Cfg) : M unit :=
  py_assert (bool_decide (is_Some (METHODS env !! method cfg)))
            (Some choose_from_msg).

(** Lines 87-88: two large crops, but for the excepted methods. *)
Definition crop_check (cfg : Cfg) : M unit :=
  if negb (num_large_crops (data cfg) =? 2)%Z
  then py_assert (bool_decide (method cfg ∈ crop_exceptions)) None
  else ret tt.

Definition validate (cfg : Cfg) : M unit :=
  registry_check cfg;;
  crop_check cfg.

(** Lines 94-97: take [pretrained_weights] out of the backbone keyword
    arguments and turn "imagenet" into [pretrained=True]. *)
Definition pop_pretrained_weights (cfg : Cfg) : value * Cfg :=
  let kw := kwargs (backbone cfg) in
  let pretrain_cfg := default VNone (kw !! "pretrained_weights") in
  let kw := delete "pretrained_weights" kw in
  let kw :=
    if (eq_str pretrain_cfg "imagenet"
        && negb (bool_decide (is_Some (kw !! "pretrained"))))%bool
    then <["pretrained" := VBool true]> kw
    else kw in
  (pretrain_cfg, set_backbone_kwargs cfg kw).

(** [pretrain_cfg not in [None, "None", "imagenet"]] *)
Definition wants_zoo_weights (pretrain_cfg : value) : bool :=
  negb (is_none pretrain_cfg || eq_str pretrain_cfg "None"
        || eq_str pretrain_cfg "imagenet")%bool.

(** Lines 105-113: load the zoo weights into the backbone and, for a
    momentum method, re-seed the momentum backbone. *)
Definition load_pretrained (cfg : Cfg) (pretrain_cfg : value) (model : Model)
  : M Model :=
  if wants_zoo_weights pretrain_cfg then
    let in_chans := default (VInt 3) (kwargs (backbone cfg) !! "in_chans") in
    let! pretrained_weights :=
      ask (get_state_dict_form_pretrained_model_zoo pretrain_cfg in_chans)
          (model_zoo env pretrain_cfg in_chans) in
    let! loaded :=
      ask (load_state_dict pretrained_weights)
          (backbone_load env (model_backbone model) pretrained_weights) in
    let model := set_backbone model loaded in
    match model with
    | BaseMomentumMethod b mb =>
        call env call_initialize_momentum_params;;
        ret (BaseMomentumMethod b (initialize_momentum_params b mb))
    | BaseMethod _ => ret model
    end
  else ret model.

(** Lines 91-118. *)
Definition model_assembly (cfg : Cfg) : M (Cfg * Model) :=
  note (register_backbone "timm_universal");;
  let '(pretrain_cfg, cfg) := pop_pretrained_weights cfg in
  let! model :=
    match METHODS env !! method cfg with
    | Some ctor => ask (construct_method (method cfg) cfg) (ctor cfg)
    | None => raise (KeyError (method cfg))
    end in
  let cfg :=
    set_backbone_kwargs cfg
      (<["pretrained_weights" := pretrain_cfg]> (kwargs (backbone cfg))) in
  let! model := load_pretrained cfg pretrain_cfg model in
  call env make_contiguous;;
  (if negb (disable_channel_last (performance cfg))
   then call env to_channels_last else ret tt);;
  ret (cfg, model).

(** Lines 121-138: the validation loader, when there is one. *)
Definition validation_loader (cfg : Cfg) : M (option ValLoader) :=
  let d := data cfg in
  if ((dataset d =? "custom")%string
      && (no_labels d || bool_decide (val_path d = None)))%bool
  then ret None
  else if (bool_decide (dataset d ∈ ["imagenet100"; "imagenet"])
           && bool_decide (val_path d = None))%bool
  then ret None
  else
    let val_data_format :=
      if (format d =? "dali")%string then "image_folder" else format d in
    let vl := {| vl_dataset := dataset d;
                 vl_train_data_path := train_path d;
                 vl_val_data_path := val_path d;
                 vl_data_format := val_data_format;
                 vl_batch_size := batch_size (optimizer cfg);
                 vl_num_workers := num_workers d |} in
    call env (prepare_data_classification vl);;
    ret (Some vl).

Definition dali_msg : string :=
  "Dali is not currently avaiable, please install it first with pip3 install .[dali].".

(** Lines 141-199: the training data, by backend. *)
Definition pretrain_data (cfg : Cfg) (val_loader : option ValLoader)
  : M TrainData :=
  let d := data cfg in
  if (format d =? "dali")%string then
    py_assert (_dali_avaliable env) (Some dali_msg);;
    let! pipelines :=
      for_each (fun aug_cfg =>
        call env (call_build_transform_pipeline_dali
                    (dataset d) aug_cfg (dali_device (dali cfg)));;
        ret {| crop_transform :=
                 build_transform_pipeline_dali
                   (dataset d) aug_cfg (dali_device (dali cfg));
               crop_count := num_crops aug_cfg |})
        (augmentations cfg) in
    let dm := {| dm_dataset := dataset d;
                 dm_train_data_path := train_path d;
                 dm_transforms := pipelines;
                 dm_num_large_crops := num_large_crops d;
                 dm_num_small_crops := num_small_crops d;
                 dm_num_workers := num_workers d;
                 dm_batch_size := batch_size (optimizer cfg);
                 dm_no_labels := no_labels d;
                 dm_data_fraction := fraction d;
                 dm_dali_device := dali_device (dali cfg);
                 dm_encode_indexes_into_labels :=
                   encode_indexes_into_labels (dali cfg);
                 dm_val_dataloader := val_loader |} in
    call env (construct_dali_datamodule dm);;
    ret (DaliData dm)
  else
    let! pipelines :=
      for_each (fun aug_cfg =>
        call env (call_build_transform_pipeline (dataset d) aug_cfg);;
        ret {| crop_transform := build_transform_pipeline (dataset d) aug_cfg;
               crop_count := num_crops aug_cfg |})
        (augmentations cfg) in
    let! train_dataset :=
      if (custom_dataset_name d =? "acdc")%string then
        let root := expanduser env (train_path d) in
        call env (construct_acdc_dataset root);;
        ret (ACDCDatasetUnlabeleld root pipelines)
      else
        let ds := prepare_datasets (dataset d) pipelines (train_path d)
                    (format d) (no_labels d) (fraction d) in
        call env (call_prepare_datasets ds);;
        ret ds in
    let tl := {| tl_dataset := train_dataset;
                 tl_batch_size := batch_size (optimizer cfg);
                 tl_num_workers := num_workers d |} in
    call env (prepare_dataloader tl);;
    ret (LoaderData tl).

(** Reading [cfg.resume_from_checkpoint]. *)
Definition read_resume_from_checkpoint (cfg : Cfg) : M (option string) :=
  match resume_from_checkpoint cfg with
  | Some r => ret r
  | None => raise (ConfigAttributeError "resume_from_checkpoint")
  end.

(** The directory handed to [AutoResumer]. *)
Definition auto_resume_dir (cfg : Cfg) : string :=
  path_join (checkpoint_dir (checkpoint cfg)) (method cfg).

(** The directory handed to [Checkpointer]. *)
Definition checkpointer_logdir (cfg : Cfg) : string :=
  path_join (checkpoint_dir (checkpoint cfg))
            (method cfg +:+ "_" +:+ custom_dataset_name (data cfg)).

(** Lines 203-218: the checkpoint to resume from and the wandb run id,
    with the configuration as the branch leaves it. *)
Definition resolve_resume (cfg : Cfg)
  : M (Cfg * option string * option string) :=
  let! explicit := read_resume_from_checkpoint cfg in
  if (auto_resume_enabled (auto_resume cfg)
      && bool_decide (explicit = None))%bool
  then
    let! found :=
      ask (find_checkpoint (auto_resume_dir cfg)
             (max_hours (auto_resume cfg)) cfg)
          (auto_resumer_find env (auto_resume_dir cfg)
             (max_hours (auto_resume cfg)) cfg) in
    let '(resume, wandb_run_id) := found in
    ret (cfg, resume, wandb_run_id)
  else
    match explicit with
    | Some p => ret (del_resume_from_checkpoint cfg, Some p, None)
    | None => ret (cfg, None, None)
    end.

Definition umap_msg : string :=
  "UMAP is not currently avaiable, please install it first with [umap].".

Definition milestones : list Z := [5; 10; 50; 100; 200; 300; 400].

(** ["allow" if wandb_run_id else None]: an empty id is falsy. *)
Definition wandb_resume (wandb_run_id : option string) : option string :=
  match wandb_run_id with
  | Some s => if (s =? "")%string then None else Some "allow"
  | None => None
  end.

(** Lines 220-262: the hooks, in order, and the wandb logger. *)
Definition assemble_callbacks (cfg : Cfg) (model : Model)
    (wandb_run_id : option string)
  : M (list Callback * option WandbLogger) :=
  let callbacks : list Callback := [] in
  let callbacks :=
    if checkpoint_enabled (checkpoint cfg)
    then callbacks ++ [Checkpointer cfg (checkpointer_logdir cfg)
                         (checkpoint_frequency (checkpoint cfg))
                         (keep_prev (checkpoint cfg))]
    else callbacks in
  let! callbacks :=
    if auto_umap_enabled (auto_umap cfg) then
      py_assert (_umap_available env) (Some umap_msg);;
      ret (callbacks ++ [AutoUMAP (name cfg)
                           (path_join (auto_umap_dir (auto_umap cfg)) (method cfg))
                           (auto_umap_frequency (auto_umap cfg))])
    else ret callbacks in
  let! logged :=
    if wandb_enabled (wandb cfg) then
      let wandb_logger :=
        {| wl_name := name cfg;
           wl_project := project (wandb cfg);
           wl_entity := entity (wandb cfg);
           wl_offline := offline (wandb cfg);
           wl_resume := wandb_resume wandb_run_id;
           wl_id := wandb_run_id |} in
      call env (construct_wandb_logger wandb_logger);;
      call env (wandb_watch model);;
      call env (wandb_log_hyperparams (to_container cfg));;
      ret (callbacks ++ [LearningRateMonitor "step"], Some wandb_logger)
    else ret (callbacks, None) in
  let '(callbacks, wandb_logger) := logged in
  let callbacks :=
    if checkpoint_enabled (checkpoint cfg)
    then callbacks ++ [WeightsSaver model milestones]
    else callbacks in
  ret (callbacks, wandb_logger).

(** The dict comprehension of line 267: the configuration keys that
    [Trainer.__init__] declares. *)
Definition select_valid (valid_kwargs : list string)
    (container : gmap string value) : gmap string kwarg :=
  list_to_map
    (omap (fun nm => (fun v => (nm, KwValue v)) <$> container !! nm)
          valid_kwargs).

(** Lines 264-277.  [wandb_logger] is [Some] exactly when wandb is
    enabled, so the conditional of line 270 is the match on it. *)
Definition make_trainer_kwargs (cfg : Cfg) (callbacks : list Callback)
    (wandb_logger : option WandbLogger) : gmap string kwarg :=
  let trainer_kwargs := select_valid (trainer_parameters env) (to_container cfg) in
  <["strategy" :=
      if eq_str (strategy cfg) "ddp" then KwDDPStrategy false
      else KwValue (strategy cfg)]>
  (<["enable_checkpointing" := KwValue (VBool false)]>
  (<["callbacks" := KwCallbacks callbacks]>
  (<["logger" :=
      match wandb_logger with
      | Some l => KwLogger l
      | None => KwValue VNone
      end]> trainer_kwargs))).

(** Line 278. *)
Definition build_trainer (cfg : Cfg) (callbacks : list Callback)
    (wandb_logger : option WandbLogger) : M Trainer :=
  let kw := make_trainer_kwargs cfg callbacks wandb_logger in
  call env (construct_trainer kw);;
  ret {| trainer_kwargs := kw; fit_loop := DefaultFitLoop |}.

(** Lines 283-295: the fit-loop workaround inside [try ... except: pass]. *)
Definition apply_workaround (trainer : Trainer) : M Trainer :=
  try_except_pass
    (let! fl := ask patch_fit_loop (workaround_fit_loop env trainer) in
     ret {| trainer_kwargs := trainer_kwargs trainer; fit_loop := fl |})
    trainer.

(** Lines 297-300: the branch on the backend is taken again; each branch
    uses the variable its counterpart of lines 141-199 has bound. *)
Definition dispatch_fit (cfg : Cfg) (trainer : Trainer) (model : Model)
    (td : TrainData) (val_loader : option ValLoader)
    (ckpt_path : option string) : M unit :=
  if (format (data cfg) =? "dali")%string then
    match td with
    | DaliData dm =>
        call env (trainer_fit trainer model (FitDataModule dm) ckpt_path)
    | LoaderData _ => raise (UnboundLocalError "dali_datamodule")
    end
  else
    match td with
    | LoaderData tl =>
        call env (trainer_fit trainer model (FitLoaders tl val_loader) ckpt_path)
    | DaliData _ => raise (UnboundLocalError "train_loader")
    end.

(** Everything up to, and excluding, the training data (lines 77-138). *)
Definition startup (raw : Cfg) : M (Cfg * Model * option ValLoader) :=
  let! cfg := ingest raw in
  validate cfg;;
  let! assembled := model_assembly cfg in
  let '(cfg, model) := assembled in
  let! val_loader := validation_loader cfg in
  ret (cfg, model, val_loader).

(** Everything after the training data (lines 203-300). *)
Definition run (cfg : Cfg) (model : Model) (val_loader : option ValLoader)
    (td : TrainData) : M unit :=
  let! resolved := resolve_resume cfg in
  let '(cfg, ckpt_path, wandb_run_id) := resolved in
  let! hooks := assemble_callbacks cfg model wandb_run_id in
  let '(callbacks, wandb_logger) := hooks in
  let! trainer := build_trainer cfg callbacks wandb_logger in
  let! trainer := apply_workaround trainer in
  dispatch_fit cfg trainer model td val_loader ckpt_path.

Definition main (raw : Cfg) : M unit :=
  let! started := startup raw in
  let '(cfg, model, val_loader) := started in
  let! td := pretrain_data cfg val_loader in
  run cfg model val_loader td.
End Main.

(** ** Kinds of calls *)

(** The calls of lines 77-138. *)
Definition startup_event (ev : Event) : bool :=
  match ev with
  | seed_everything _ | register_backbone _ | construct_method _ _
  | get_state_dict_form_pretrained_model_zoo _ _ | load_state_dict _
  | call_initialize_momentum_params | make_contiguous | to_channels_last
  | prepare_data_classification _ => true
  | _ => false
  end.

(** The calls of the accelerated backend (lines 145-170). *)
Definition dali_backend_event (ev : Event) : bool :=
  match ev with
  | call_build_transform_pipeline_dali _ _ _ | construct_dali_datamodule _ => true
  | _ => false
  end.

(** The calls of the standard backend (lines 172-199). *)
Definition standard_backend_event (ev : Event) : bool :=
  match ev with
  | call_build_transform_pipeline _ _ | construct_acdc_dataset _
  | call_prepare_datasets _ | prepare_dataloader _ => true
  | _ => false
  end.

(** The calls of lines 203-300. *)
Definition run_event (ev : Event) : bool :=
  match ev with
  | find_checkpoint _ _ _ | construct_wandb_logger _ | wandb_watch _
  | wandb_log_hyperparams _ | construct_trainer _ | patch_fit_loop
  | trainer_fit _ _ _ _ => true
  | _ => false
  end.

(** The calls to wandb (lines 245-254). *)
Definition wandb_event (ev : Event) : bool :=
  match ev with
  | construct_wandb_logger _ | wandb_watch _ | wandb_log_hyperparams _ => true
  | _ => false
  end.

Definition is_find_checkpoint (ev : Event) : bool :=
  match ev with find_checkpoint _ _ _ => true | _ => false end.

Definition is_trainer_fit (ev : Event) : bool :=
  match ev with trainer_fit _ _ _ _ => true | _ => false end.

Definition is_patch_or_fit (ev : Event) : bool :=
  match ev with
  | patch_fit_loop | trainer_fit _ _ _ _ => true
  | _ => false
  end.

Definition is_zoo_or_load (ev : Event) : bool :=
  match ev with
  | get_state_dict_form_pretrained_model_zoo _ _ | load_state_dict _ => true
  | _ => false
  end.

(** A call that builds the model or loads data. *)
Definition model_or_data_event (ev : Event) : bool :=
  match ev with
  | construct_method _ _ | get_state_dict_form_pretrained_model_zoo _ _
  | load_state_dict _ | call_initialize_momentum_params
  | prepare_data_classification _ => true
  | _ => dali_backend_event ev || standard_backend_event ev
  end.

(** The checkpoint path a call passes to [trainer.fit], if it is one. *)
Definition fit_ckpt_path (ev : Event) : option (option string) :=
  match ev with trainer_fit _ _ _ p => Some p | _ => None end.

(** The same call with the trainer's fit loop left out of the picture. *)
Definition forget_fit_loop (ev : Event) : Event :=
  match ev with
  | trainer_fit t m a p =>
      trainer_fit {| trainer_kwargs := trainer_kwargs t;
                     fit_loop := DefaultFitLoop |} m a p
  | _ => ev
  end.

(** The environment with another outcome for the fit-loop workaround. *)
Definition with_workaround (env : Env) (w : Trainer -> Exn + FitLoop) : Env :=
  {| parse_cfg := parse_cfg env; format_name := format_name env;
     METHODS := METHODS env; METHODS_keys_str := METHODS_keys_str env;
     _dali_avaliable := _dali_avaliable env;
     _umap_available := _umap_available env;
     model_zoo := model_zoo env; backbone_load := backbone_load env;
     expanduser := expanduser env;
     auto_resumer_find := auto_resumer_find env;
     trainer_parameters := trainer_parameters env;
     workaround_fit_loop := w;
     raises := raises env |}.

(** ** Which hooks a list holds *)

Definition has_checkpointer (cbs : list Callback) : bool :=
  existsb (fun c => match c with Checkpointer _ _ _ _ => true | _ => false end) cbs.
Definition has_auto_umap (cbs : list Callback) : bool :=
  existsb (fun c => match c with AutoUMAP _ _ _ => true | _ => false end) cbs.
Definition has_lr_monitor (cbs : list Callback) : bool :=
  existsb (fun c => match c with LearningRateMonitor _ => true | _ => false end) cbs.
Definition has_weights_saver (cbs : list Callback) : bool :=
  existsb (fun c => match c with WeightsSaver _ _ => true | _ => false end) cbs.

(** The hook list as the specification words it: four hooks, each under
    a toggle of its own, the four toggles free of one another. *)
Definition four_independent_toggles : Prop :=
  exists t_checkpoint t_umap t_lr t_weights : Cfg -> bool,
    (forall env cfg model run_id tr cbs wl,
        assemble_callbacks env cfg model run_id = (tr, inr (cbs, wl)) ->
        has_checkpointer cbs = t_checkpoint cfg /\
        has_auto_umap cbs = t_umap cfg /\
        has_lr_monitor cbs = t_lr cfg /\
        has_weights_saver cbs = t_weights cfg) /\
    (forall b1 b2 b3 b4 : bool, exists cfg,
        t_checkpoint cfg = b1 /\ t_umap cfg = b2 /\
        t_lr cfg = b3 /\ t_weights cfg = b4).

(** The hook list as the script builds it. *)
Definition hooks_of (cfg : Cfg) (model : Model) : list Callback :=
  (if checkpoint_enabled (checkpoint cfg)
   then [Checkpointer cfg (checkpointer_logdir cfg)
           (checkpoint_frequency (checkpoint cfg)) (keep_prev (checkpoint cfg))]
   else [])
  ++ (if auto_umap_enabled (auto_umap cfg)
      then [AutoUMAP (name cfg)
              (path_join (auto_umap_dir (auto_umap cfg)) (method cfg))
              (auto_umap_frequency (auto_umap cfg))]
      else [])
  ++ (if wandb_enabled (wandb cfg) then [LearningRateMonitor "step"] else [])
  ++ (if checkpoint_enabled (checkpoint cfg)
      then [WeightsSaver model milestones] else []).

(** The wandb logger of lines 245-252, for the configuration and the run
    id the resume branch leaves. *)
Definition wandb_logger_of (cfg : Cfg) (wandb_run_id : option string)
  : WandbLogger :=
  {| wl_name := name cfg;
     wl_project := project (wandb cfg);
     wl_entity := entity (wandb cfg);
     wl_offline := offline (wandb cfg);
     wl_resume := wandb_resume wandb_run_id;
     wl_id := wandb_run_id |}.

(** The four keys line 268 overrides. *)
Definition overridden_keys : list string :=
  ["logger"; "callbacks"; "enable_checkpointing"; "strategy"].

(** ** A concrete environment and concrete configurations *)

Module Sample.

Definition weights : StateDict := {[ "conv1.weight" := [1#2; 3#4] ]}.
Definition fresh : StateDict := {[ "conv1.weight" := [0#1; 0#1] ]}.
Definition fresh_momentum : StateDict := {[ "conv1.weight" := [7#1; 7#1] ]}.

(** [Trainer.__init__] of pytorch-lightning 1.x, abridged. *)
Definition pl_parameters : list string :=
  ["self"; "logger"; "enable_checkpointing"; "callbacks"; "default_root_dir";
   "devices"; "accelerator"; "strategy"; "sync_batchnorm"; "precision";
   "max_epochs"; "min_epochs"; "resume_from_checkpoint"].

Definition env : Env :=
  {| parse_cfg := inr;
     format_name := fun cfg => inr (name cfg);
     METHODS :=
       {[ "byol" := fun _ => inr (BaseMomentumMethod fresh fresh_momentum);
          "simclr" := fun _ => inr (BaseMethod fresh);
          "mae" := fun _ => inr (BaseMethod fresh) ]};
     METHODS_keys_str := "dict_keys(['byol', 'simclr', 'mae'])";
     _dali_avaliable := false;
     _umap_available := true;
     model_zoo := fun _ _ => inr weights;
     backbone_load := fun _ w => inr w;
     expanduser := fun p => p;
     auto_resumer_find := fun _ _ _ => inr (None, None);
     trainer_parameters := pl_parameters;
     workaround_fit_loop := fun _ => inl (LibraryError "ImportError");
     raises := fun _ => None |}.

Definition acdc (fmt : string) (large_crops : Z) : DataCfg :=
  {| dataset := "custom"; custom_dataset_name := "acdc";
     train_path := "data/acdc"; val_path := None; format := fmt;
     num_large_crops := large_crops; num_small_crops := 0; num_workers := 4;
     no_labels := true; fraction := VFloat (-1 # 1) |}.

(** A run configuration, by the settings the properties below turn on:
    method, backend and crop count, backbone keyword arguments, explicit
    resume path, and the checkpoint, umap and wandb toggles. *)
Definition make (m : string) (d : DataCfg) (kw : gmap string value)
    (resume : option string) (ckpt umap wb : bool) : Cfg :=
  {| name := "byol-acdc"; seed := 5; method := m;
     backbone := {| backbone_name := "resnet50"; kwargs := kw |};
     data := d;
     augmentations := [ {| num_crops := 2; aug_params := [] |} ];
     optimizer := {| batch_size := 64 |};
     performance := {| disable_channel_last := false |};
     debug_augmentations := false;
     checkpoint := {| checkpoint_enabled := ckpt;
                      checkpoint_dir := "trained_models";
                      checkpoint_frequency := 1; keep_prev := false |};
     auto_resume := {| auto_resume_enabled := true; max_hours := 36 |};
     resume_from_checkpoint := Some resume;
     auto_umap := {| auto_umap_enabled := umap; auto_umap_dir := "auto_umap";
                     auto_umap_frequency := 1 |};
     wandb := {| wandb_enabled := wb; project := "ssl"; entity := None;
                 offline := true |};
     dali := {| dali_device := "gpu"; encode_indexes_into_labels := false |};
     strategy := VStr "ddp";
     extra := [("max_epochs", VInt 400); ("devices", VList [VInt 0]);
               ("accelerator", VStr "gpu"); ("callbacks", VList []);
               ("logger", VBool true); ("enable_checkpointing", VBool true);
               ("my_note", VStr "user specific")] |}.

Definition zoo_kwargs : gmap string value :=
  {[ "pretrained_weights" := VStr "radimagenet" ]}.
Definition imagenet_kwargs : gmap string value :=
  {[ "pretrained_weights" := VStr "imagenet" ]}.

(** BYOL on ACDC with zoo weights, checkpointing and auto-resume. *)
Definition cfg : Cfg :=
  make "byol" (acdc "image_folder" 2) zoo_kwargs None true false false.

Definition cfg_unknown_method : Cfg :=
  make "dino" (acdc "image_folder" 2) zoo_kwargs None true false false.

Definition cfg_three_crops : Cfg :=
  make "byol" (acdc "image_folder" 3) zoo_kwargs None true false false.

Definition cfg_mae_one_crop : Cfg :=
  make "mae" (acdc "image_folder" 1) zoo_kwargs None true false false.

Definition cfg_dali : Cfg :=
  make "byol" (acdc "dali" 2) zoo_kwargs None true false false.

Definition cfg_explicit_resume : Cfg :=
  make "byol" (acdc "image_folder" 2) zoo_kwargs
       (Some "trained_models/byol_acdc/abc/last.ckpt") true false false.

Definition cfg_imagenet : Cfg :=
  make "byol" (acdc "image_folder" 2) imagenet_kwargs None true false false.

Definition cfg_wandb_only : Cfg :=
  make "byol" (acdc "image_folder" 2) zoo_kwargs None false false true.

(** The keyword arguments the run on [cfg] hands to [Trainer]. *)
Definition trainer_kwargs_passed : gmap string kwarg :=
  match nth_error (trace (main env cfg)) 12 with
  | Some (construct_trainer kw) => kw
  | _ => ∅
  end.

End Sample.

(** ** Further views of the objects and further samples *)

(** The transform pipeline a training dataset was built with. *)
Definition dataset_transform (d : TrainDataset) : FullTransformPipeline :=
  match d with
  | ACDCDatasetUnlabeleld _ transform => transform
  | prepare_datasets _ transform _ _ _ _ => transform
  end.

(** The crop stage the standard backend builds for one augmentation
    group, and the one the accelerated backend builds. *)
Definition standard_crop (ds : string) (aug_cfg : AugCfg) : NCropAugmentation :=
  {| crop_transform := build_transform_pipeline ds aug_cfg;
     crop_count := num_crops aug_cfg |}.

Definition dali_crop (ds device : string) (aug_cfg : AugCfg)
  : NCropAugmentation :=
  {| crop_transform := build_transform_pipeline_dali ds aug_cfg device;
     crop_count := num_crops aug_cfg |}.

(** The calls of model assembly (lines 91-118). *)
Definition assembly_event (ev : Event) : bool :=
  match ev with
  | register_backbone _ | construct_method _ _
  | get_state_dict_form_pretrained_model_zoo _ _ | load_state_dict _
  | call_initialize_momentum_params | make_contiguous | to_channels_last => true
  | _ => false
  end.

Definition is_build_transform (ev : Event) : bool :=
  match ev with
  | call_build_transform_pipeline _ _
  | call_build_transform_pipeline_dali _ _ _ => true
  | _ => false
  end.

Definition is_trainer_stage (ev : Event) : bool :=
  match ev with
  | construct_trainer _ | patch_fit_loop | trainer_fit _ _ _ _ => true
  | _ => false
  end.

(** A computation that returns. *)
Definition succeeds {A} (m : M A) : Prop := exists t a, m = (t, inr a).

(** An environment in which no library call fails. *)
Definition all_calls_succeed (env : Env) : Prop :=
  (forall ev, raises env ev = None) /\
  (forall p ic, exists w, model_zoo env p ic = inr w) /\
  (forall b w, exists b', backbone_load env b w = inr b') /\
  (forall d h c, exists r, auto_resumer_find env d h c = inr r) /\
  (forall m ctor c, METHODS env !! m = Some ctor ->
                    exists model, ctor c = inr model).

(** The startup conditions the script itself checks. *)
Definition startup_conditions (env : Env) (cfg : Cfg) : Prop :=
  is_Some (METHODS env !! method cfg) /\
  (num_large_crops (data cfg) = 2%Z \/ method cfg ∈ crop_exceptions) /\
  (format (data cfg) = "dali" -> _dali_avaliable env = true) /\
  (auto_umap_enabled (auto_umap cfg) = true -> _umap_available env = true) /\
  is_Some (resume_from_checkpoint cfg).

Module Sample2.

(** [os.path.expanduser] for a user whose home is [/home/user], on a
    machine that knows no other user: a leading "~" that stands alone or
    is followed by the separator is replaced by the home directory, and
    every other path is returned as it is. *)
Definition expand_home (p : string) : string :=
  match p with
  | String "~"%char EmptyString => "/home/user"
  | String "~"%char (String "/"%char rest) => "/home/user/" +:+ rest
  | _ => p
  end.

(** [Sample.env] without the umap import. *)
Definition env_no_umap : Env :=
  {| parse_cfg := parse_cfg Sample.env;
     format_name := format_name Sample.env;
     METHODS := METHODS Sample.env;
     METHODS_keys_str := METHODS_keys_str Sample.env;
     _dali_avaliable := false;
     _umap_available := false;
     model_zoo := model_zoo Sample.env;
     backbone_load := backbone_load Sample.env;
     expanduser := expanduser Sample.env;
     auto_resumer_find := auto_resumer_find Sample.env;
     trainer_parameters := trainer_parameters Sample.env;
     workaround_fit_loop := workaround_fit_loop Sample.env;
     raises := raises Sample.env |}.

(** [Sample.env] with the dali import, a scan that finds a checkpoint of
    run "abc", and a name template that expands. *)
Definition env_found : Env :=
  {| parse_cfg := parse_cfg Sample.env;
     format_name := fun cfg => inr (name cfg +:+ "-" +:+ method cfg);
     METHODS := METHODS Sample.env;
     METHODS_keys_str := METHODS_keys_str Sample.env;
     _dali_avaliable := true;
     _umap_available := true;
     model_zoo := model_zoo Sample.env;
     backbone_load := backbone_load Sample.env;
     expanduser := expand_home;
     auto_resumer_find :=
       fun _ _ _ => inr (Some "trained_models/byol/abc/last.ckpt", Some "abc");
     trainer_parameters := trainer_parameters Sample.env;
     workaround_fit_loop := fun _ => inr (WorkaroundFitLoop VNone (VInt 400));
     raises := raises Sample.env |}.

(** [Sample.env] with a parser that rejects the configuration. *)
Definition env_bad_cfg : Env :=
  {| parse_cfg := fun _ => inl (AssertionError None);
     format_name := format_name Sample.env;
     METHODS := METHODS Sample.env;
     METHODS_keys_str := METHODS_keys_str Sample.env;
     _dali_avaliable := false;
     _umap_available := true;
     model_zoo := model_zoo Sample.env;
     backbone_load := backbone_load Sample.env;
     expanduser := expanduser Sample.env;
     auto_resumer_find := auto_resumer_find Sample.env;
     trainer_parameters := trainer_parameters Sample.env;
     workaround_fit_loop := workaround_fit_loop Sample.env;
     raises := raises Sample.env |}.

Definition set_auto_resume (cfg : Cfg) (b : bool) : Cfg :=
  {| name := name cfg; seed := seed cfg; method := method cfg;
     backbone := backbone cfg; data := data cfg;
     augmentations := augmentations cfg; optimizer := optimizer cfg;
     performance := performance cfg;
     debug_augmentations := debug_augmentations cfg;
     checkpoint := checkpoint cfg;
     auto_resume := {| auto_resume_enabled := b;
                       max_hours := max_hours (auto_resume cfg) |};
     resume_from_checkpoint := resume_from_checkpoint cfg;
     auto_umap := auto_umap cfg; wandb := wandb cfg; dali := dali cfg;
     strategy := strategy cfg; extra := extra cfg |}.

Definition set_performance (cfg : Cfg) (b : bool) : Cfg :=
  {| name := name cfg; seed := seed cfg; method := method cfg;
     backbone := backbone cfg; data := data cfg;
     augmentations := augmentations cfg; optimizer := optimizer cfg;
     performance := {| disable_channel_last := b |};
     debug_augmentations := debug_augmentations cfg;
     checkpoint := checkpoint cfg; auto_resume := auto_resume cfg;
     resume_from_checkpoint := resume_from_checkpoint cfg;
     auto_umap := auto_umap cfg; wandb := wandb cfg; dali := dali cfg;
     strategy := strategy cfg; extra := extra cfg |}.

Definition cfg_auto_resume_off : Cfg := set_auto_resume Sample.cfg false.

Definition cfg_no_channels_last : Cfg := set_performance Sample.cfg true.

Definition cfg_umap : Cfg :=
  Sample.make "byol" (Sample.acdc "image_folder" 2) Sample.zoo_kwargs None
              true true false.

Definition cfg_wandb : Cfg :=
  Sample.make "byol" (Sample.acdc "image_folder" 2) Sample.zoo_kwargs None
              true false true.

(** A labelled dataset with a validation split, on each backend. *)
Definition cifar (fmt : string) : DataCfg :=
  {| dataset := "cifar10"; custom_dataset_name := "";
     train_path := "data/cifar"; val_path := Some "data/cifar/val";
     format := fmt;
     num_large_crops := 2; num_small_crops := 0; num_workers := 4;
     no_labels := false; fraction := VFloat (-1 # 1) |}.

Definition cfg_cifar : Cfg :=
  Sample.make "simclr" (cifar "image_folder") ∅ None false false false.

(** The ACDC data under the home directory, and a dataset of another
    name on the standard backend. *)
Definition acdc_home : DataCfg :=
  {| dataset := "custom"; custom_dataset_name := "acdc";
     train_path := "~/data/acdc"; val_path := None; format := "image_folder";
     num_large_crops := 2; num_small_crops := 0; num_workers := 4;
     no_labels := true; fraction := VFloat (-1 # 1) |}.

Definition cfg_acdc_home : Cfg :=
  Sample.make "byol" acdc_home Sample.zoo_kwargs None true false false.

Definition cfg_cifar_dali : Cfg :=
  Sample.make "simclr" (cifar "dali") ∅ None false false false.

End Sample2.

(** * Properties *)

(** ** The monad *)

Section MonadFacts.
Context {A B : Type}.

Lemma bind_ok (m : M A) (k : A -> M B) t a :
  m = (t, inr a) -> bind m k = (t ++ trace (k a), outcome (k a)).
Proof. intros ->. unfold bind, trace, outcome. by destruct (k a). Qed.

Lemma bind_err (m : M A) (k : A -> M B) t e :
  m = (t, inl e) -> bind m k = (t, inl e).
Proof. by intros ->. Qed.

Lemma bind_ret_l (a : A) (k : A -> M B) : bind ([], inr a) k = k a.
Proof. unfold bind. by destruct (k a). Qed.

Lemma bind_inr (m : M A) (k : A -> M B) t b :
  bind m k = (t, inr b) ->
  exists t1 a t2, m = (t1, inr a) /\ k a = (t2, inr b) /\ t = t1 ++ t2.
Proof.
  destruct m as [t1 [e|a]]; simpl; [done|].
  destruct (k a) as [t2 r] eqn:Hk. intros [= <- ->]. by exists t1, a, t2.
Qed.

Lemma bind_cases (m : M A) (k : A -> M B) :
  (exists t e, m = (t, inl e) /\ bind m k = (t, inl e)) \/
  (exists t a, m = (t, inr a) /\
               bind m k = (t ++ trace (k a), outcome (k a))).
Proof.
  destruct m as [t [e|a]] eqn:Hm.
  - left. by exists t, e.
  - right. exists t, a. split; [done|]. by apply bind_ok.
Qed.

Lemma trace_bind_ok (m : M A) (k : A -> M B) t a :
  m = (t, inr a) -> trace (bind m k) = t ++ trace (k a).
Proof. intros H. by rewrite (bind_ok _ _ _ _ H). Qed.

Lemma trace_bind_prefix (m : M A) (k : A -> M B) :
  exists rest, trace (bind m k) = trace m ++ rest.
Proof.
  destruct (bind_cases m k) as [(t & e & -> & ->)|(t & a & -> & ->)].
  - exists []. by rewrite app_nil_r.
  - by eexists.
Qed.

Lemma trace_bind_Forall (P : Event -> Prop) (m : M A) (k : A -> M B) :
  Forall P (trace m) ->
  (forall t a, m = (t, inr a) -> Forall P (trace (k a))) ->
  Forall P (trace (bind m k)).
Proof.
  intros Hm Hk. destruct (bind_cases m k) as [(t & e & -> & ->)|(t & a & Hma & ->)].
  - done.
  - simpl. apply Forall_app. split; [by rewrite Hma in Hm | by eapply Hk].
Qed.

Lemma trace_try_Forall (P : Event -> Prop) (m : M A) (a : A) :
  Forall P (trace m) -> Forall P (trace (try_except_pass m a)).
Proof. by destruct m as [t [e|a']]. Qed.

End MonadFacts.

Lemma trace_for_each_Forall {A B} (P : Event -> Prop) (f : A -> M B) (l : list A) :
  (forall x, Forall P (trace (f x))) -> Forall P (trace (for_each f l)).
Proof.
  intros Hf. induction l as [|x l IH]; simpl; [constructor|].
  apply trace_bind_Forall; [done|]. intros _ y _.
  apply trace_bind_Forall; [done|]. intros _ ys _. constructor.
Qed.

Lemma trace_call_Forall (P : Event -> Prop) env ev :
  P ev -> Forall P (trace (call env ev)).
Proof. intros. by apply Forall_singleton. Qed.

Lemma trace_ask_Forall {A} (P : Event -> Prop) ev (r : Exn + A) :
  P ev -> Forall P (trace (ask ev r)).
Proof. intros. by apply Forall_singleton. Qed.

Lemma trace_py_assert b msg : trace (py_assert b msg) = [].
Proof. by destruct b. Qed.

(** One step of a proof that every call in a trace satisfies a predicate:
    follow the shape of the script. *)
Ltac trace_step :=
  lazymatch goal with
  | |- Forall _ (trace (bind _ _)) =>
      apply trace_bind_Forall; [ | intros ? ? ? ]
  | |- Forall _ (trace (ret _)) => apply Forall_nil_2
  | |- Forall _ (trace (raise _)) => apply Forall_nil_2
  | |- Forall _ (trace (lift _)) => apply Forall_nil_2
  | |- Forall _ (trace (py_assert _ _)) =>
      rewrite trace_py_assert; apply Forall_nil_2
  | |- Forall _ (trace (call _ _)) => apply trace_call_Forall
  | |- Forall _ (trace (note _)) => apply Forall_singleton
  | |- Forall _ (trace (ask _ _)) => apply trace_ask_Forall
  | |- Forall _ (trace (for_each _ _)) =>
      apply trace_for_each_Forall; intros ?
  | |- Forall _ (trace (try_except_pass _ _)) => apply trace_try_Forall
  | |- Forall _ (trace (if ?c then _ else _)) => destruct c eqn:?
  | |- Forall _ (trace (match ?x with _ => _ end)) => destruct x eqn:?
  end.

Ltac trace_steps := repeat trace_step; simpl; try done.

(** ** What each stage calls *)

Lemma ingest_inv env raw t cfg :
  ingest env raw = (t, inr cfg) ->
  exists cfg0 n,
    parse_cfg env raw = inr cfg0 /\ format_name env cfg0 = inr n /\
    cfg = set_name cfg0 n /\ t = [seed_everything (seed cfg0)].
Proof.
  unfold ingest, lift, call, bind, ret.
  destruct (parse_cfg env raw) as [e|cfg0]; [done|].
  destruct (format_name env cfg0) as [e|n] eqn:Hn; [done|]. simpl.
  destruct (raises env _); [done|]. intros [= <- <-]. by exists cfg0, n.
Qed.

Lemma ingest_trace env raw :
  Forall (fun ev => exists s, ev = seed_everything s) (trace (ingest env raw)).
Proof. unfold ingest. trace_steps. eauto. Qed.

Lemma validate_trace env cfg : trace (validate env cfg) = [].
Proof.
  unfold validate, registry_check, crop_check, py_assert, bind, ret, raise.
  destruct (bool_decide (is_Some _)); simpl; [|done].
  destruct (negb _); simpl; [|done]. by destruct (bool_decide _).
Qed.

Lemma validate_inv env cfg t u :
  validate env cfg = (t, inr u) ->
  t = [] /\ is_Some (METHODS env !! method cfg) /\
  (num_large_crops (data cfg) <> 2%Z -> method cfg ∈ crop_exceptions).
Proof.
  unfold validate, registry_check, crop_check, py_assert, bind, ret, raise.
  case_bool_decide as Hreg; simpl; [|done].
  destruct (Z.eqb_spec (num_large_crops (data cfg)) 2) as [Heq|Hne]; simpl.
  - intros [= <-]. by split_and!.
  - case_bool_decide as Hex; simpl; [|done]. intros [= <-]. by split_and!.
Qed.

Lemma model_assembly_trace env cfg :
  Forall (fun ev => startup_event ev = true) (trace (model_assembly env cfg)).
Proof.
  unfold model_assembly, load_pretrained.
  destruct (pop_pretrained_weights cfg) as [p cfg1]. trace_steps.
Qed.

Lemma validation_loader_trace env cfg :
  Forall (fun ev => startup_event ev = true) (trace (validation_loader env cfg)).
Proof. unfold validation_loader. trace_steps. Qed.

Lemma startup_trace env raw :
  Forall (fun ev => startup_event ev = true) (trace (startup env raw)).
Proof.
  unfold startup. trace_steps.
  - eapply Forall_impl; [apply ingest_trace|]. by intros ev [s ->].
  - by rewrite validate_trace.
  - apply model_assembly_trace.
  - apply validation_loader_trace.
Qed.

Lemma pretrain_data_trace env cfg vl :
  Forall (fun ev => if (format (data cfg) =? "dali")%string
                    then dali_backend_event ev = true
                    else standard_backend_event ev = true)
         (trace (pretrain_data env cfg vl)).
Proof.
  unfold pretrain_data.
  destruct (format (data cfg) =? "dali")%string; trace_steps.
Qed.

Lemma assemble_callbacks_trace env cfg model run_id :
  Forall (fun ev => wandb_event ev = true)
         (trace (assemble_callbacks env cfg model run_id)).
Proof. unfold assemble_callbacks. trace_steps. Qed.

Lemma run_trace env cfg model vl td :
  Forall (fun ev => run_event ev = true) (trace (run env cfg model vl td)).
Proof.
  unfold run. trace_steps.
  - unfold resolve_resume, read_resume_from_checkpoint. trace_steps.
  - eapply Forall_impl; [apply assemble_callbacks_trace|]. by intros [].
  - unfold build_trainer. trace_steps.
  - unfold apply_workaround. trace_steps.
  - unfold dispatch_fit. trace_steps.
Qed.

(** The trace of [main], stage by stage. *)
Lemma main_trace (P : Event -> Prop) env raw :
  Forall P (trace (startup env raw)) ->
  (forall t cfg model vl,
      startup env raw = (t, inr (cfg, model, vl)) ->
      Forall P (trace (pretrain_data env cfg vl))) ->
  (forall t cfg model vl t' td,
      startup env raw = (t, inr (cfg, model, vl)) ->
      pretrain_data env cfg vl = (t', inr td) ->
      Forall P (trace (run env cfg model vl td))) ->
  Forall P (trace (main env raw)).
Proof.
  intros Hs Hd Hr. unfold main.
  apply trace_bind_Forall; [done|]. intros t [[cfg model] vl] Hst.
  apply trace_bind_Forall; [by eapply Hd|]. intros t' td Htd. by eapply Hr.
Qed.

(** ** What the later stages know of the parsed configuration *)

Lemma model_assembly_inv env cfg t cfg' model :
  model_assembly env cfg = (t, inr (cfg', model)) ->
  exists kw, cfg' = set_backbone_kwargs cfg kw.
Proof.
  unfold model_assembly.
  destruct (pop_pretrained_weights cfg) as [p cfg1] eqn:Hpop.
  assert (exists kw1, cfg1 = set_backbone_kwargs cfg kw1) as [kw1 ->].
  { unfold pop_pretrained_weights in Hpop. injection Hpop as _ <-. eauto. }
  intros H.
  apply bind_inr in H as (? & ? & ? & _ & H & _).
  apply bind_inr in H as (? & ? & ? & _ & H & _).
  apply bind_inr in H as (? & ? & ? & _ & H & _).
  apply bind_inr in H as (? & ? & ? & _ & H & _).
  apply bind_inr in H as (? & ? & ? & _ & H & _).
  injection H as _ <- _. eauto.
Qed.

Lemma startup_inv env raw t cfg model vl :
  startup env raw = (t, inr (cfg, model, vl)) ->
  exists cfg0 n kw,
    parse_cfg env raw = inr cfg0 /\ format_name env cfg0 = inr n /\
    cfg = set_backbone_kwargs (set_name cfg0 n) kw /\
    is_Some (METHODS env !! method cfg0) /\
    (num_large_crops (data cfg0) <> 2%Z -> method cfg0 ∈ crop_exceptions).
Proof.
  unfold startup. intros H.
  apply bind_inr in H as (t1 & cfg1 & ? & Hin & H & _).
  apply bind_inr in H as (? & ? & ? & Hval & H & _).
  apply bind_inr in H as (? & [cfg2 model2] & ? & Hasm & H & _).
  apply bind_inr in H as (? & ? & ? & _ & H & _).
  injection H as _ <- <- <-.
  apply ingest_inv in Hin as (cfg0 & n & Hp & Hn & -> & _).
  apply validate_inv in Hval as (_ & Hreg & Hcrop).
  apply model_assembly_inv in Hasm as [kw ->].
  by exists cfg0, n, kw.
Qed.

Lemma main_validate_fails env raw t cfg e :
  ingest env raw = (t, inr cfg) ->
  validate env cfg = ([], inl e) ->
  main env raw = (t, inl e).
Proof.
  intros Hin Hval. unfold main, startup.
  rewrite (bind_ok _ _ _ _ Hin), (bind_err _ _ _ _ Hval). simpl.
  by rewrite app_nil_r.
Qed.

(** ** Startup checks *)

(** C5: a configuration whose method is no key of the registry makes
    startup fail, and no call that builds the model or loads data is made
    before it does; once the configuration is read in, the failure is the
    assertion on the registry. *)
Theorem unknown_method_fails_before_model_and_data env raw cfg0 :
  parse_cfg env raw = inr cfg0 ->
  METHODS env !! method cfg0 = None ->
  (exists e, outcome (main env raw) = inl e) /\
  Forall (fun ev => model_or_data_event ev = false) (trace (main env raw)) /\
  (forall t cfg, ingest env raw = (t, inr cfg) ->
     t = [seed_everything (seed cfg)] /\
     main env raw = (t, inl (AssertionError (Some (choose_from_msg env))))).
Proof.
  intros Hp Hm.
  assert (forall t cfg, ingest env raw = (t, inr cfg) ->
            t = [seed_everything (seed cfg)] /\
            main env raw = (t, inl (AssertionError (Some (choose_from_msg env)))))
    as Hmain.
  { intros t cfg Hin.
    pose proof Hin as (cfg0' & n & Hp' & _ & -> & ->)%ingest_inv.
    rewrite Hp in Hp'. injection Hp' as <-. split; [done|].
    apply (main_validate_fails env raw _ (set_name cfg0 n)); [done|].
    unfold validate, registry_check. simpl. rewrite Hm.
    rewrite bool_decide_eq_false_2; [done|]. by intros [? ?]. }
  destruct (ingest env raw) as [t [e|cfg]] eqn:Hin.
  - assert (main env raw = (t, inl e)) as Hmn.
    { unfold main, startup. by rewrite (bind_err _ _ _ _ Hin). }
    split_and!; [by exists e; rewrite Hmn | | done].
    rewrite Hmn. simpl. pose proof (ingest_trace env raw) as Htr.
    rewrite Hin in Htr. eapply Forall_impl; [exact Htr|]. by intros ev [s ->].
  - destruct (Hmain t cfg eq_refl) as [-> Hmn].
    split_and!; [by eexists; rewrite Hmn | | done].
    rewrite Hmn. simpl. by repeat constructor.
Qed.

Lemma unknown_method_witness :
  main Sample.env Sample.cfg_unknown_method
  = ([seed_everything 5],
     inl (AssertionError
            (Some "Choose from dict_keys(['byol', 'simclr', 'mae'])"))).
Proof.
  destruct (unknown_method_fails_before_model_and_data
              Sample.env Sample.cfg_unknown_method Sample.cfg_unknown_method)
    as (_ & _ & H); [reflexivity | reflexivity |].
  destruct (H [seed_everything 5] Sample.cfg_unknown_method) as [_ Hmain];
    [reflexivity|]. exact Hmain.
Defined.

(** C6: with a number of large crops other than two and a method outside
    the excepted ones ("wmse", "mae"), startup fails with an assertion
    error; for an excepted method the crop check passes whatever the
    number of large crops. *)
Theorem crop_count_check env raw t cfg :
  ingest env raw = (t, inr cfg) ->
  (num_large_crops (data cfg) <> 2%Z -> method cfg ∉ crop_exceptions ->
     exists msg, main env raw = (t, inl (AssertionError msg))) /\
  (method cfg ∈ crop_exceptions ->
     crop_check cfg = ret tt /\
     (is_Some (METHODS env !! method cfg) -> validate env cfg = ret tt)).
Proof.
  intros Hin. split.
  - intros Hne Hnot.
    destruct (bool_decide (is_Some (METHODS env !! method cfg))) eqn:Hreg.
    + exists None. apply (main_validate_fails env raw t cfg); [done|].
      unfold validate, registry_check, crop_check. rewrite Hreg. simpl.
      apply Z.eqb_neq in Hne. rewrite Hne. simpl.
      by rewrite bool_decide_eq_false_2.
    + exists (Some (choose_from_msg env)).
      apply (main_validate_fails env raw t cfg); [done|].
      unfold validate, registry_check. by rewrite Hreg.
  - intros Hex.
    assert (crop_check cfg = ret tt) as Hcrop.
    { unfold crop_check. destruct (negb _); [|done].
      by rewrite bool_decide_eq_true_2. }
    split; [done|]. intros Hreg. unfold validate, registry_check.
    rewrite bool_decide_eq_true_2; [|done]. simpl. by rewrite Hcrop.
Qed.

Lemma crop_count_check_witness :
  (exists msg, main Sample.env Sample.cfg_three_crops
               = ([seed_everything 5], inl (AssertionError msg))) /\
  crop_check Sample.cfg_mae_one_crop = ret tt.
Proof.
  split.
  - destruct (crop_count_check Sample.env Sample.cfg_three_crops
                [seed_everything 5] Sample.cfg_three_crops) as [H _];
      [reflexivity|].
    apply H.
    + vm_compute. discriminate.
    + vm_compute. intros Hin. apply list_elem_of_In in Hin. simpl in Hin.
      destruct Hin as [Hin|[Hin|[]]]; discriminate Hin.
  - destruct (crop_count_check Sample.env Sample.cfg_mae_one_crop
                [seed_everything 5] Sample.cfg_mae_one_crop) as [_ H];
      [reflexivity|].
    destruct H as [Hcrop _]; [|exact Hcrop].
    vm_compute. apply list_elem_of_further, list_elem_of_here.
Defined.

Lemma pretrain_data_dali_unavailable env cfg vl :
  _dali_avaliable env = false ->
  format (data cfg) = "dali" ->
  pretrain_data env cfg vl = raise (AssertionError (Some dali_msg)).
Proof. intros Hd Hf. unfold pretrain_data. by rewrite Hf, Hd. Qed.

(** C7: when the accelerated backend is selected and its import failed,
    startup fails; no call of the standard backend (nor of the
    accelerated one, nor the training run) is made; and once startup has
    reached the choice of backend the failure is the assertion with the
    message about the missing install. *)
Theorem dali_without_dependency_fails env raw cfg0 :
  _dali_avaliable env = false ->
  parse_cfg env raw = inr cfg0 ->
  format (data cfg0) = "dali" ->
  (exists e, outcome (main env raw) = inl e) /\
  Forall (fun ev => standard_backend_event ev = false /\
                    dali_backend_event ev = false /\
                    is_trainer_fit ev = false) (trace (main env raw)) /\
  (forall t st, startup env raw = (t, inr st) ->
     main env raw = (t, inl (AssertionError (Some dali_msg)))).
Proof.
  intros Hd Hp Hf.
  assert (forall t st, startup env raw = (t, inr st) ->
            main env raw = (t, inl (AssertionError (Some dali_msg)))) as Hmain.
  { intros t [[cfg model] vl] Hst.
    pose proof Hst as (cfg0' & n & kw & Hp' & _ & -> & _)%startup_inv.
    rewrite Hp in Hp'. injection Hp' as <-.
    unfold main. rewrite (bind_ok _ _ _ _ Hst). simpl.
    rewrite pretrain_data_dali_unavailable by done. simpl.
    by rewrite app_nil_r. }
  assert (Forall (fun ev => standard_backend_event ev = false /\
                            dali_backend_event ev = false /\
                            is_trainer_fit ev = false)
                 (trace (startup env raw))) as Htr.
  { eapply Forall_impl; [apply startup_trace|]. by intros []. }
  destruct (startup env raw) as [t [e|st]] eqn:Hst.
  - assert (main env raw = (t, inl e)) as ->.
    { unfold main. by rewrite (bind_err _ _ _ _ Hst). }
    split_and!; [by exists e | done | by intros ? ? [=]].
  - rewrite (Hmain t st eq_refl).
    split_and!; [by eexists | done | by intros ? ? [= <- _]].
Qed.

Lemma dali_without_dependency_witness :
  main Sample.env Sample.cfg_dali
  = (trace (startup Sample.env Sample.cfg_dali),
     inl (AssertionError
            (Some "Dali is not currently avaiable, please install it first with pip3 install .[dali]."))).
Proof.
  destruct (dali_without_dependency_fails
              Sample.env Sample.cfg_dali Sample.cfg_dali)
    as (_ & _ & H); [reflexivity | reflexivity | reflexivity |].
  destruct (startup Sample.env Sample.cfg_dali) as [t [e|st]] eqn:Hst.
  - vm_compute in Hst. discriminate Hst.
  - exact (H t st eq_refl).
Defined.

(** ** Resuming *)

Lemma run_explicit env cfg model vl td p :
  resume_from_checkpoint cfg = Some (Some p) ->
  run env cfg model vl td =
  (let! hooks :=
     assemble_callbacks env (del_resume_from_checkpoint cfg) model None in
   let '(callbacks, wandb_logger) := hooks in
   let! trainer :=
     build_trainer env (del_resume_from_checkpoint cfg) callbacks wandb_logger in
   let! trainer := apply_workaround env trainer in
   dispatch_fit env (del_resume_from_checkpoint cfg) trainer model td vl (Some p)).
Proof.
  intros Hr. unfold run.
  assert (resolve_resume env cfg
          = ([], inr (del_resume_from_checkpoint cfg, Some p, None))) as ->.
  { unfold resolve_resume, read_resume_from_checkpoint.
    rewrite Hr. simpl. by rewrite andb_false_r. }
  by rewrite bind_ret_l.
Qed.

Lemma dispatch_fit_inr env cfg trainer model td vl ckpt t u :
  dispatch_fit env cfg trainer model td vl ckpt = (t, inr u) ->
  exists a, t = [trainer_fit trainer model a ckpt].
Proof.
  unfold dispatch_fit, call, raise.
  destruct (format (data cfg) =? "dali")%string, td; try done.
  all: intros [= <- _]; eauto.
Qed.

(** C2: with an explicit [resume_from_checkpoint] path the auto-resume
    scan is never called, whatever the [auto_resume.enabled] toggle and
    whatever the scan would have found; every call of [trainer.fit] gets
    the explicit path, and a run that completes has made that call. *)
Theorem explicit_resume_disables_scan env raw cfg0 p :
  parse_cfg env raw = inr cfg0 ->
  resume_from_checkpoint cfg0 = Some (Some p) ->
  Forall (fun ev => is_find_checkpoint ev = false) (trace (main env raw)) /\
  Forall (fun ev => forall q, fit_ckpt_path ev = Some q -> q = Some p)
         (trace (main env raw)) /\
  (forall u, outcome (main env raw) = inr u ->
     exists t m a, trainer_fit t m a (Some p) ∈ trace (main env raw)).
Proof.
  intros Hp Hr.
  assert (forall t cfg model vl,
            startup env raw = (t, inr (cfg, model, vl)) ->
            resume_from_checkpoint cfg = Some (Some p)) as Hcfg.
  { intros t cfg model vl (cfg0' & n & kw & Hp' & _ & -> & _)%startup_inv.
    rewrite Hp in Hp'. by injection Hp' as <-. }
  assert (Forall (fun ev => is_find_checkpoint ev = false /\
                            forall q, fit_ckpt_path ev = Some q -> q = Some p)
                 (trace (main env raw))) as [Hscan Hfit]%Forall_and.
  { apply main_trace.
    - eapply Forall_impl; [apply startup_trace|]. by intros [].
    - intros t cfg model vl _.
      eapply Forall_impl; [apply pretrain_data_trace|].
      intros ev. by destruct (format (data cfg) =? "dali")%string, ev.
    - intros t cfg model vl t' td Hst _.
      rewrite (run_explicit _ _ _ _ _ p) by eauto. trace_steps.
      + eapply Forall_impl; [apply assemble_callbacks_trace|]. by intros [].
      + unfold build_trainer. trace_steps.
      + unfold apply_workaround. trace_steps.
      + unfold dispatch_fit. trace_steps.
        all: split; [done|]; by intros q [= <-]. }
  split_and!; [done | done |].
  intros u Hok. destruct (main env raw) as [tr r] eqn:Hmain.
  simpl in Hok. subst r. unfold main in Hmain.
  apply bind_inr in Hmain as (t1 & [[cfg model] vl] & t2 & Hst & H & ->).
  apply bind_inr in H as (t3 & td & t4 & _ & H & ->).
  rewrite (run_explicit _ _ _ _ _ p) in H by eauto.
  apply bind_inr in H as (t5 & [cbs wl] & t6 & _ & H & ->).
  apply bind_inr in H as (t7 & tr0 & t8 & _ & H & ->).
  apply bind_inr in H as (t9 & tr1 & t10 & _ & H & ->).
  apply dispatch_fit_inr in H as [a ->].
  exists tr1, model, a. simpl. rewrite !elem_of_app.
  do 5 right. apply list_elem_of_here.
Qed.

Lemma explicit_resume_witness :
  Forall (fun ev => is_find_checkpoint ev = false)
         (trace (main Sample.env Sample.cfg_explicit_resume)) /\
  exists t m a,
    trainer_fit t m a (Some "trained_models/byol_acdc/abc/last.ckpt")
    ∈ trace (main Sample.env Sample.cfg_explicit_resume).
Proof.
  destruct (explicit_resume_disables_scan
              Sample.env Sample.cfg_explicit_resume Sample.cfg_explicit_resume
              "trained_models/byol_acdc/abc/last.ckpt")
    as (Hscan & _ & Hfit); [reflexivity | reflexivity |].
  split; [exact Hscan|]. apply (Hfit tt). vm_compute. reflexivity.
Defined.

Lemma resolve_resume_inv env cfg t cfg' ckpt run_id :
  resolve_resume env cfg = (t, inr (cfg', ckpt, run_id)) ->
  cfg' = cfg \/ cfg' = del_resume_from_checkpoint cfg.
Proof.
  unfold resolve_resume. intros H.
  apply bind_inr in H as (? & explicit & ? & _ & H & _).
  destruct (_ && _)%bool.
  - apply bind_inr in H as (? & [r w] & ? & _ & H & _).
    injection H as _ <- _ _. by left.
  - destruct explicit; injection H as _ <- _ _; [by right | by left].
Qed.

(** ** The hooks *)

Lemma assemble_callbacks_inv env cfg model run_id tr cbs wl :
  assemble_callbacks env cfg model run_id = (tr, inr (cbs, wl)) ->
  cbs = hooks_of cfg model.
Proof.
  unfold assemble_callbacks, hooks_of, call, py_assert, bind, ret, raise.
  destruct (checkpoint_enabled (checkpoint cfg)),
    (auto_umap_enabled (auto_umap cfg)), (wandb_enabled (wandb cfg)),
    (_umap_available env); simpl;
    repeat (destruct (raises env _); simpl; try done);
    by intros [= _ <- _].
Qed.

Lemma assemble_callbacks_ok env cfg model run_id :
  _umap_available env = true ->
  (forall ev, raises env ev = None) ->
  exists tr wl,
    assemble_callbacks env cfg model run_id
    = (tr, inr (hooks_of cfg model, wl)).
Proof.
  intros Hu Hr.
  unfold assemble_callbacks, hooks_of, call, py_assert, bind, ret, raise.
  rewrite Hu.
  destruct (checkpoint_enabled (checkpoint cfg)),
    (auto_umap_enabled (auto_umap cfg)), (wandb_enabled (wandb cfg)); simpl;
    rewrite ?Hr; simpl; eauto.
Qed.

Lemma hooks_of_kinds cfg model :
  has_checkpointer (hooks_of cfg model) = checkpoint_enabled (checkpoint cfg) /\
  has_auto_umap (hooks_of cfg model) = auto_umap_enabled (auto_umap cfg) /\
  has_lr_monitor (hooks_of cfg model) = wandb_enabled (wandb cfg) /\
  has_weights_saver (hooks_of cfg model) = checkpoint_enabled (checkpoint cfg).
Proof.
  unfold hooks_of.
  by destruct (checkpoint_enabled (checkpoint cfg)),
    (auto_umap_enabled (auto_umap cfg)), (wandb_enabled (wandb cfg)).
Qed.

(** C8, as worded, does not hold: the hooks are not under four toggles
    free of one another.  With checkpointing alone switched on the list
    holds both the checkpoint hook and the weight-snapshot hook, with
    wandb alone it holds the learning-rate hook, and no four independent
    toggles can account for the lists the script builds. *)
Lemma four_toggles_counterexample :
  (exists tr wl,
      assemble_callbacks Sample.env Sample.cfg (BaseMethod Sample.fresh) None
      = (tr, inr ([Checkpointer Sample.cfg "trained_models/byol_acdc" 1 false;
                   WeightsSaver (BaseMethod Sample.fresh) milestones], wl))) /\
  (exists tr wl,
      assemble_callbacks Sample.env Sample.cfg_wandb_only
                         (BaseMethod Sample.fresh) None
      = (tr, inr ([LearningRateMonitor "step"], wl))) /\
  ~ four_independent_toggles.
Proof.
  split_and!.
  - do 2 eexists. vm_compute. reflexivity.
  - do 2 eexists. vm_compute. reflexivity.
  - intros (tc & tu & tl & tw & Hhooks & Hfree).
    destruct (Hfree true false false false) as (cfg & Hc & _ & _ & Hw).
    destruct (assemble_callbacks_ok Sample.env cfg (BaseMethod Sample.fresh) None)
      as (tr & wl & Hasm); [done | done |].
    destruct (Hhooks _ _ _ _ _ _ _ Hasm) as (Hc' & _ & _ & Hw').
    destruct (hooks_of_kinds cfg (BaseMethod Sample.fresh)) as (H1 & _ & _ & H4).
    congruence.
Qed.

(** C8, amended: three toggles decide the hooks.  [checkpoint.enabled]
    puts in both the checkpoint hook (first) and the weight-snapshot hook
    for the epochs 5, 10, 50, 100, 200, 300, 400 (last);
    [auto_umap.enabled] the embedding-visualisation hook;
    [wandb.enabled] the per-step learning-rate hook. *)
Theorem hooks_follow_three_toggles env cfg model run_id tr cbs wl :
  assemble_callbacks env cfg model run_id = (tr, inr (cbs, wl)) ->
  cbs = hooks_of cfg model /\
  has_checkpointer cbs = checkpoint_enabled (checkpoint cfg) /\
  has_auto_umap cbs = auto_umap_enabled (auto_umap cfg) /\
  has_lr_monitor cbs = wandb_enabled (wandb cfg) /\
  has_weights_saver cbs = checkpoint_enabled (checkpoint cfg).
Proof.
  intros ->%assemble_callbacks_inv. split; [done|]. apply hooks_of_kinds.
Qed.

Lemma hooks_follow_three_toggles_witness :
  has_checkpointer (hooks_of Sample.cfg (BaseMethod Sample.fresh)) = true /\
  has_weights_saver (hooks_of Sample.cfg (BaseMethod Sample.fresh)) = true /\
  has_lr_monitor (hooks_of Sample.cfg (BaseMethod Sample.fresh)) = false.
Proof.
  destruct (hooks_follow_three_toggles Sample.env Sample.cfg
              (BaseMethod Sample.fresh) None []
              (hooks_of Sample.cfg (BaseMethod Sample.fresh)) None)
    as (_ & H1 & _ & H3 & H4); [vm_compute; reflexivity|].
  split_and!; [exact H1 | exact H4 | exact H3].
Defined.

(** ** The trainer's keyword arguments *)

Lemma select_valid_lookup valid (c : gmap string value) k v :
  select_valid valid c !! k = Some v -> k ∈ valid.
Proof.
  unfold select_valid. intros H%elem_of_list_to_map_2.
  apply list_elem_of_omap in H as (nm & Hnm & Hf).
  destruct (c !! nm); simpl in Hf; [|done]. by injection Hf as <- _.
Qed.

Lemma make_trainer_kwargs_keys env cfg cbs wl k :
  (forall k', k' ∈ overridden_keys -> k' ∈ trainer_parameters env) ->
  is_Some (make_trainer_kwargs env cfg cbs wl !! k) ->
  k ∈ trainer_parameters env.
Proof.
  intros Hdecl [v Hv]. unfold make_trainer_kwargs in Hv.
  repeat (apply lookup_insert_Some in Hv as [[<- _]|[_ Hv]];
          [apply Hdecl; unfold overridden_keys; set_solver|]).
  by eapply select_valid_lookup.
Qed.

Lemma make_trainer_kwargs_overrides env cfg cbs wl :
  let kw := make_trainer_kwargs env cfg cbs wl in
  kw !! "logger"
    = Some (match wl with Some l => KwLogger l | None => KwValue VNone end) /\
  kw !! "callbacks" = Some (KwCallbacks cbs) /\
  kw !! "enable_checkpointing" = Some (KwValue (VBool false)) /\
  kw !! "strategy"
    = Some (if eq_str (strategy cfg) "ddp" then KwDDPStrategy false
            else KwValue (strategy cfg)).
Proof.
  simpl. unfold make_trainer_kwargs. split_and!; by simplify_map_eq.
Qed.

Lemma run_construct_trainer env cfg model vl td :
  Forall (fun ev => forall kw, ev = construct_trainer kw ->
            exists cfg' run_id tr cbs wl,
              (cfg' = cfg \/ cfg' = del_resume_from_checkpoint cfg) /\
              assemble_callbacks env cfg' model run_id = (tr, inr (cbs, wl)) /\
              kw = make_trainer_kwargs env cfg' cbs wl)
         (trace (run env cfg model vl td)).
Proof.
  unfold run. apply trace_bind_Forall.
  { unfold resolve_resume, read_resume_from_checkpoint. trace_steps. }
  intros t0 [[cfg' ckpt] run_id] Hres%resolve_resume_inv.
  apply trace_bind_Forall.
  { eapply Forall_impl; [apply assemble_callbacks_trace|]. by intros []. }
  intros t1 [cbs wl] Hasm. apply trace_bind_Forall.
  { unfold build_trainer. trace_steps. intros kw [= <-].
    by exists cfg', run_id, t1, cbs, wl. }
  intros t2 trainer _. apply trace_bind_Forall.
  { unfold apply_workaround. trace_steps. }
  intros t3 trainer' _. unfold dispatch_fit. trace_steps.
Qed.

Lemma make_trainer_kwargs_keys_or env cfg cbs wl k :
  is_Some (make_trainer_kwargs env cfg cbs wl !! k) ->
  k ∈ trainer_parameters env \/ k ∈ overridden_keys.
Proof.
  intros [v Hv]. unfold make_trainer_kwargs in Hv.
  repeat (apply lookup_insert_Some in Hv as [[<- _]|[_ Hv]];
          [right; apply list_elem_of_In; simpl; tauto|]).
  left. by eapply select_valid_lookup.
Qed.

Lemma assemble_callbacks_logger_inv env cfg model run_id tr cbs wl :
  assemble_callbacks env cfg model run_id = (tr, inr (cbs, wl)) ->
  wl = if wandb_enabled (wandb cfg)
       then Some (wandb_logger_of cfg run_id) else None.
Proof.
  unfold assemble_callbacks, wandb_logger_of, call, py_assert, bind, ret, raise.
  destruct (checkpoint_enabled (checkpoint cfg)),
    (auto_umap_enabled (auto_umap cfg)), (wandb_enabled (wandb cfg)),
    (_umap_available env); simpl;
    repeat (destruct (raises env _); simpl; try done);
    by intros [= _ _ <-].
Qed.

(** A [Trainer] call on the trace of [main] comes from the stages of that
    very run. *)
Lemma main_construct_trainer_inv env raw kw :
  construct_trainer kw ∈ trace (main env raw) ->
  exists t cfg model vl t1 td t0 cfg' ckpt run_id tr cbs wl,
    startup env raw = (t, inr (cfg, model, vl)) /\
    pretrain_data env cfg vl = (t1, inr td) /\
    resolve_resume env cfg = (t0, inr (cfg', ckpt, run_id)) /\
    assemble_callbacks env cfg' model run_id = (tr, inr (cbs, wl)) /\
    kw = make_trainer_kwargs env cfg' cbs wl.
Proof.
  intros Hin.
  assert (Forall (fun ev => forall kw', ev = construct_trainer kw' ->
            exists t cfg model vl t1 td t0 cfg' ckpt run_id tr cbs wl,
              startup env raw = (t, inr (cfg, model, vl)) /\
              pretrain_data env cfg vl = (t1, inr td) /\
              resolve_resume env cfg = (t0, inr (cfg', ckpt, run_id)) /\
              assemble_callbacks env cfg' model run_id = (tr, inr (cbs, wl)) /\
              kw' = make_trainer_kwargs env cfg' cbs wl)
                 (trace (main env raw))) as Hall.
  { apply main_trace.
    - eapply Forall_impl; [apply startup_trace|]. by intros [].
    - intros t cfg model vl _.
      eapply Forall_impl; [apply pretrain_data_trace|].
      intros ev. by destruct (format (data cfg) =? "dali")%string, ev.
    - intros t cfg model vl t1 td Hst Hd. unfold run.
      apply trace_bind_Forall.
      { unfold resolve_resume, read_resume_from_checkpoint. trace_steps. }
      intros t0 [[cfg' ckpt] run_id] Hres. apply trace_bind_Forall.
      { eapply Forall_impl; [apply assemble_callbacks_trace|]. by intros []. }
      intros tr [cbs wl] Hasm. apply trace_bind_Forall.
      { unfold build_trainer. trace_steps. intros kw' [= <-].
        by exists t, cfg, model, vl, t1, td, t0, cfg', ckpt, run_id, tr, cbs, wl. }
      intros t2 trainer _. apply trace_bind_Forall.
      { unfold apply_workaround. trace_steps. }
      intros t3 trainer' _. unfold dispatch_fit. trace_steps. }
  rewrite Forall_forall in Hall. by apply (Hall _ Hin).
Qed.

(** C3: the keyword arguments handed to [Trainer] are the declared
    parameters found in the configuration together with the four keys the
    script sets itself, hence all declared ones for an engine that
    declares those four; and the four keys carry the values this very run
    computed: the wandb logger it built (or [None] with wandb disabled),
    the hooks it assembled, [False], and the DDP strategy object or the
    configured strategy; whatever the configuration holds under those
    names. *)
Theorem trainer_kwargs_declared_and_overridden env raw kw :
  construct_trainer kw ∈ trace (main env raw) ->
  exists cfg0 t cfg model vl t0 cfg' ckpt run_id,
    parse_cfg env raw = inr cfg0 /\
    startup env raw = (t, inr (cfg, model, vl)) /\
    resolve_resume env cfg = (t0, inr (cfg', ckpt, run_id)) /\
    (forall k, is_Some (kw !! k) ->
               k ∈ trainer_parameters env \/ k ∈ overridden_keys) /\
    ((forall k, k ∈ overridden_keys -> k ∈ trainer_parameters env) ->
     forall k, is_Some (kw !! k) -> k ∈ trainer_parameters env) /\
    kw !! "logger"
      = Some (if wandb_enabled (wandb cfg0)
              then KwLogger (wandb_logger_of cfg' run_id)
              else KwValue VNone) /\
    kw !! "callbacks" = Some (KwCallbacks (hooks_of cfg' model)) /\
    kw !! "enable_checkpointing" = Some (KwValue (VBool false)) /\
    kw !! "strategy"
      = Some (if eq_str (strategy cfg0) "ddp" then KwDDPStrategy false
              else KwValue (strategy cfg0)).
Proof.
  intros Hin.
  apply main_construct_trainer_inv in Hin
    as (t & cfg & model & vl & t1 & td & t0 & cfg' & ckpt & rid & tr & cbs & wl
        & Hst & _ & Hres & Hasm & ->).
  pose proof Hst as (cfg0 & n & kw0 & Hp & _ & Hcfg & _)%startup_inv.
  pose proof (resolve_resume_inv _ _ _ _ _ _ Hres) as Hc.
  assert (strategy cfg' = strategy cfg0 /\ wandb cfg' = wandb cfg0) as [Hs Hw].
  { subst cfg. by destruct Hc as [->| ->]. }
  pose proof (assemble_callbacks_inv _ _ _ _ _ _ _ Hasm) as ->.
  pose proof (assemble_callbacks_logger_inv _ _ _ _ _ _ _ Hasm) as ->.
  destruct (make_trainer_kwargs_overrides env cfg' (hooks_of cfg' model)
              (if wandb_enabled (wandb cfg')
               then Some (wandb_logger_of cfg' rid) else None))
    as (H1 & H2 & H3 & H4).
  exists cfg0, t, cfg, model, vl, t0, cfg', ckpt, rid.
  split_and!; try done.
  - intros k. apply make_trainer_kwargs_keys_or.
  - intros Hdecl k. by apply make_trainer_kwargs_keys.
  - rewrite H1, Hw. by destruct (wandb_enabled (wandb cfg0)).
  - by rewrite H4, Hs.
Qed.

Lemma trainer_kwargs_witness :
  construct_trainer Sample.trainer_kwargs_passed
    ∈ trace (main Sample.env Sample.cfg) /\
  Sample.trainer_kwargs_passed !! "my_note" = None /\
  Sample.trainer_kwargs_passed !! "enable_checkpointing"
    = Some (KwValue (VBool false)) /\
  Sample.trainer_kwargs_passed !! "logger" = Some (KwValue VNone) /\
  Sample.trainer_kwargs_passed !! "strategy" = Some (KwDDPStrategy false) /\
  Sample.trainer_kwargs_passed !! "callbacks"
    = Some (KwCallbacks
              [Checkpointer Sample.cfg "trained_models/byol_acdc" 1 false;
               WeightsSaver (BaseMomentumMethod Sample.weights Sample.weights)
                            milestones]).
Proof.
  assert (construct_trainer Sample.trainer_kwargs_passed
            ∈ trace (main Sample.env Sample.cfg)) as Hin.
  { apply list_elem_of_In. apply (nth_error_In _ 12). vm_compute. reflexivity. }
  destruct (trainer_kwargs_declared_and_overridden
              Sample.env Sample.cfg Sample.trainer_kwargs_passed Hin)
    as (cfg0 & t & cfg & model & vl & t0 & cfg' & ckpt & rid
        & Hp & Hst & Hres & _ & Hkeys & Hlog & Hcbs & Hchk & Hstr).
  injection Hp as <-.
  assert (cfg = Sample.cfg /\
          model = BaseMomentumMethod Sample.weights Sample.weights) as [-> ->].
  { assert (startup Sample.env Sample.cfg
            = (trace (startup Sample.env Sample.cfg),
               inr (Sample.cfg,
                    BaseMomentumMethod Sample.weights Sample.weights, None)))
      as Hval by (vm_compute; reflexivity).
    rewrite Hval in Hst. by injection Hst as _ <- <- _. }
  assert (cfg' = Sample.cfg) as ->.
  { assert (resolve_resume Sample.env Sample.cfg
            = (trace (resolve_resume Sample.env Sample.cfg),
               inr (Sample.cfg, None, None)))
      as Hval by (vm_compute; reflexivity).
    rewrite Hval in Hres. by injection Hres as _ <- _ _. }
  split; [exact Hin|]. split_and!.
  - destruct (Sample.trainer_kwargs_passed !! "my_note") as [v|] eqn:Hv;
      [|reflexivity].
    exfalso. assert ("my_note" ∈ Sample.pl_parameters) as Hbad.
    { apply Hkeys; [|rewrite Hv; by eexists].
      intros k Hk. apply list_elem_of_In in Hk. apply list_elem_of_In.
      simpl in Hk. simpl. intuition. }
    apply list_elem_of_In in Hbad. simpl in Hbad.
    repeat (destruct Hbad as [Hbad|Hbad]; [discriminate Hbad|]). exact Hbad.
  - exact Hchk.
  - exact Hlog.
  - exact Hstr.
  - rewrite Hcbs. reflexivity.
Defined.

(** ** The fit-loop workaround *)

Lemma apply_workaround_ok env trainer :
  exists fl,
    apply_workaround env trainer
    = ([patch_fit_loop],
       inr {| trainer_kwargs := trainer_kwargs trainer; fit_loop := fl |}).
Proof.
  unfold apply_workaround, ask, bind, ret, try_except_pass.
  destruct (workaround_fit_loop env trainer) as [e|fl]; simpl.
  - exists (fit_loop trainer). by destruct trainer.
  - by exists fl.
Qed.

Lemma pretrain_data_inv env cfg vl t td :
  pretrain_data env cfg vl = (t, inr td) ->
  if (format (data cfg) =? "dali")%string
  then exists dm, td = DaliData dm
  else exists tl, td = LoaderData tl.
Proof.
  unfold pretrain_data. destruct (format (data cfg) =? "dali")%string; intros H.
  - apply bind_inr in H as (? & ? & ? & _ & H & _).
    apply bind_inr in H as (? & ? & ? & _ & H & _).
    apply bind_inr in H as (? & ? & ? & _ & H & _).
    injection H as _ <-. eauto.
  - apply bind_inr in H as (? & ? & ? & _ & H & _).
    apply bind_inr in H as (? & ? & ? & _ & H & _).
    apply bind_inr in H as (? & ? & ? & _ & H & _).
    injection H as _ <-. eauto.
Qed.

Lemma dispatch_fit_matching env cfg trainer model td vl ckpt :
  (if (format (data cfg) =? "dali")%string
   then exists dm, td = DaliData dm
   else exists tl, td = LoaderData tl) ->
  exists a,
    dispatch_fit env cfg trainer model td vl ckpt
    = call env (trainer_fit trainer model a ckpt).
Proof.
  unfold dispatch_fit.
  destruct (format (data cfg) =? "dali")%string; intros [x ->]; eauto.
Qed.

Lemma resolve_resume_trace env cfg :
  Forall (fun ev => is_find_checkpoint ev = true)
         (trace (resolve_resume env cfg)).
Proof. unfold resolve_resume, read_resume_from_checkpoint. trace_steps. Qed.

(** The run either stops before the workaround, or goes through it and
    straight on to [trainer.fit]. *)
Lemma run_shape env cfg model vl td :
  (if (format (data cfg) =? "dali")%string
   then exists dm, td = DaliData dm
   else exists tl, td = LoaderData tl) ->
  (exists pre t a c,
      trace (run env cfg model vl td)
      = pre ++ [construct_trainer (trainer_kwargs t); patch_fit_loop;
                trainer_fit t model a c] /\
      Forall (fun ev => is_patch_or_fit ev = false) pre) \/
  (exists e, outcome (run env cfg model vl td) = inl e /\
     Forall (fun ev => is_patch_or_fit ev = false)
            (trace (run env cfg model vl td))).
Proof.
  intros Htd. unfold run.
  assert (Forall (fun ev => is_patch_or_fit ev = false)
                 (trace (resolve_resume env cfg))) as Hres_tr.
  { eapply Forall_impl; [apply resolve_resume_trace|]. by intros []. }
  destruct (resolve_resume env cfg) as [t0 [e|[[cfg' ckpt] run_id]]] eqn:Hres.
  { right. rewrite (bind_err _ _ _ _ eq_refl). eauto. }
  rewrite (bind_ok _ _ _ _ eq_refl).
  assert (data cfg' = data cfg) as Hdata.
  { by destruct (resolve_resume_inv _ _ _ _ _ _ Hres) as [->| ->]. }
  assert (Forall (fun ev => is_patch_or_fit ev = false)
                 (trace (assemble_callbacks env cfg' model run_id))) as Hasm_tr.
  { eapply Forall_impl; [apply assemble_callbacks_trace|]. by intros []. }
  destruct (assemble_callbacks env cfg' model run_id)
    as [t1 [e|[cbs wl]]] eqn:Hasm.
  { right. rewrite (bind_err _ _ _ _ eq_refl). simpl.
    exists e. split; [done|]. by apply Forall_app. }
  rewrite (bind_ok _ _ _ _ eq_refl).
  unfold build_trainer, call.
  set (kw := make_trainer_kwargs env cfg' cbs wl).
  destruct (raises env (construct_trainer kw)) as [e|].
  { right. exists e. simpl. split; [done|].
    rewrite !Forall_app. split_and!; [done | done |]. by repeat constructor. }
  destruct (apply_workaround_ok env {| trainer_kwargs := kw;
                                       fit_loop := DefaultFitLoop |})
    as [fl Hw].
  destruct (dispatch_fit_matching env cfg'
              {| trainer_kwargs := kw; fit_loop := fl |} model td vl ckpt)
    as [a Hfit]; [by rewrite Hdata|].
  left. exists (t0 ++ t1), {| trainer_kwargs := kw; fit_loop := fl |}, a, ckpt.
  split; [|by apply Forall_app].
  simpl. rewrite Hw. simpl. rewrite Hfit. simpl. by rewrite <- !app_assoc.
Qed.

Lemma trace_bind_map {A B} (f : Event -> Event) (m : M A) (k1 k2 : A -> M B) :
  (forall a, map f (trace (k1 a)) = map f (trace (k2 a))) ->
  map f (trace (bind m k1)) = map f (trace (bind m k2)).
Proof.
  intros Hk. destruct m as [t [e|a]]; [done|].
  rewrite !(bind_ok _ _ _ _ eq_refl). simpl. by rewrite !map_app, Hk.
Qed.

(** C9: the block that installs the fit-loop workaround never raises,
    whatever happens inside it; a run that enters the block goes straight
    on to [trainer.fit]; and apart from the fit loop of the trainer the
    calls of the whole run are the same whatever the block's outcome. *)
Theorem workaround_failure_is_swallowed env raw :
  (forall trainer, exists fl,
      apply_workaround env trainer
      = ([patch_fit_loop],
         inr {| trainer_kwargs := trainer_kwargs trainer; fit_loop := fl |})) /\
  ((exists pre t m a c,
       trace (main env raw)
       = pre ++ [construct_trainer (trainer_kwargs t); patch_fit_loop;
                 trainer_fit t m a c] /\
       Forall (fun ev => is_patch_or_fit ev = false) pre) \/
   (exists e, outcome (main env raw) = inl e /\
      Forall (fun ev => is_patch_or_fit ev = false) (trace (main env raw)))) /\
  (forall w,
      map forget_fit_loop (trace (main (with_workaround env w) raw))
      = map forget_fit_loop (trace (main env raw))).
Proof.
  split_and!.
  - apply apply_workaround_ok.
  - unfold main.
    assert (Forall (fun ev => is_patch_or_fit ev = false)
                   (trace (startup env raw))) as Hst_tr.
    { eapply Forall_impl; [apply startup_trace|]. by intros []. }
    destruct (startup env raw) as [t0 [e|[[cfg model] vl]]] eqn:Hst.
    { right. rewrite (bind_err _ _ _ _ eq_refl). eauto. }
    rewrite (bind_ok _ _ _ _ eq_refl).
    assert (Forall (fun ev => is_patch_or_fit ev = false)
                   (trace (pretrain_data env cfg vl))) as Hd_tr.
    { eapply Forall_impl; [apply pretrain_data_trace|].
      intros ev. by destruct (format (data cfg) =? "dali")%string, ev. }
    destruct (pretrain_data env cfg vl) as [t1 [e|td]] eqn:Hd.
    { right. exists e. simpl. split; [done|]. by apply Forall_app. }
    rewrite (bind_ok _ _ _ _ eq_refl). simpl.
    destruct (run_shape env cfg model vl td)
      as [(pre & t & a & c & Htr & Hpre)|(e & Hout & Htr)];
      [by eapply pretrain_data_inv | |].
    + left. exists (t0 ++ t1 ++ pre), t, model, a, c.
      rewrite Htr. split; [by rewrite <- !app_assoc|].
      rewrite !Forall_app. by split_and!.
    + right. exists e. split; [done|]. rewrite !Forall_app. by split_and!.
  - intros w. unfold main.
    change (startup (with_workaround env w) raw) with (startup env raw).
    apply trace_bind_map. intros [[cfg model] vl].
    change (pretrain_data (with_workaround env w) cfg vl)
      with (pretrain_data env cfg vl).
    apply trace_bind_map. intros td. unfold run.
    change (resolve_resume (with_workaround env w) cfg)
      with (resolve_resume env cfg).
    apply trace_bind_map. intros [[cfg' ckpt] run_id].
    change (assemble_callbacks (with_workaround env w) cfg' model run_id)
      with (assemble_callbacks env cfg' model run_id).
    apply trace_bind_map. intros [cbs wl].
    change (build_trainer (with_workaround env w) cfg' cbs wl)
      with (build_trainer env cfg' cbs wl).
    apply trace_bind_map. intros trainer.
    destruct (apply_workaround_ok env trainer) as [fl1 ->].
    destruct (apply_workaround_ok (with_workaround env w) trainer) as [fl2 ->].
    rewrite !(bind_ok _ _ _ _ eq_refl). simpl. f_equal.
    unfold dispatch_fit.
    by destruct (format (data cfg') =? "dali")%string, td.
Qed.

(** ** Model assembly *)

Lemma pop_pretrained_weights_spec cfg :
  exists kw,
    pop_pretrained_weights cfg
    = (default VNone (kwargs (backbone cfg) !! "pretrained_weights"),
       set_backbone_kwargs cfg kw) /\
    kw !! "pretrained_weights" = None /\
    kw !! "in_chans" = kwargs (backbone cfg) !! "in_chans" /\
    (default VNone (kwargs (backbone cfg) !! "pretrained_weights")
       = VStr "imagenet" ->
     kwargs (backbone cfg) !! "pretrained" = None ->
     kw !! "pretrained" = Some (VBool true)).
Proof.
  unfold pop_pretrained_weights. eexists. split; [reflexivity|].
  set (p := default VNone _).
  split_and!.
  - destruct (_ && _)%bool; by simplify_map_eq.
  - destruct (_ && _)%bool; by simplify_map_eq.
  - intros -> Hnone. simpl.
    rewrite bool_decide_eq_false_2; [by simplify_map_eq|].
    rewrite lookup_delete_ne by done. rewrite Hnone. by intros [? ?].
Qed.

Lemma load_pretrained_inv env cfg p model t model' :
  wants_zoo_weights p = true ->
  load_pretrained env cfg p model = (t, inr model') ->
  (exists w,
      model_zoo env p (default (VInt 3) (kwargs (backbone cfg) !! "in_chans"))
        = inr w /\
      backbone_load env (model_backbone model) w = inr (model_backbone model')) /\
  (is_Some (momentum_backbone model') ->
   momentum_backbone model' = Some (model_backbone model')).
Proof.
  intros Hw. unfold load_pretrained. rewrite Hw. unfold ask. intros H.
  apply bind_inr in H as (? & w & ? & [= _ Hzoo] & H & _).
  apply bind_inr in H as (? & loaded & ? & [= _ Hload] & H & _).
  destruct model as [b|b mb]; simpl in H.
  - injection H as _ <-. split; [by exists w|]. by intros [? ?].
  - destruct (raises env call_initialize_momentum_params); [done|].
    injection H as _ <-. split; [by exists w|]. done.
Qed.

Lemma model_assembly_model env cfg t cfg' model :
  model_assembly env cfg = (t, inr (cfg', model)) ->
  exists cfg1 model0 t1,
    (pop_pretrained_weights cfg).2 = cfg1 /\
    load_pretrained env
      (set_backbone_kwargs cfg1
         (<["pretrained_weights" := (pop_pretrained_weights cfg).1]>
            (kwargs (backbone cfg1))))
      (pop_pretrained_weights cfg).1 model0 = (t1, inr model).
Proof.
  unfold model_assembly.
  destruct (pop_pretrained_weights cfg) as [p cfg1]. cbn [fst snd]. intros H.
  apply bind_inr in H as (? & ? & ? & _ & H & _).
  apply bind_inr in H as (? & model0 & ? & _ & H & _).
  apply bind_inr in H as (t1 & model1 & ? & Hload & H & _).
  apply bind_inr in H as (? & ? & ? & _ & H & _).
  apply bind_inr in H as (? & ? & ? & _ & H & _).
  injection H as _ _ <-. by exists cfg1, model0, t1.
Qed.

Lemma startup_inv_assembly env raw t cfg' model vl :
  startup env raw = (t, inr (cfg', model, vl)) ->
  exists t0 cfg t1,
    ingest env raw = (t0, inr cfg) /\
    model_assembly env cfg = (t1, inr (cfg', model)).
Proof.
  unfold startup. intros H.
  apply bind_inr in H as (t0 & cfg & ? & Hin & H & _).
  apply bind_inr in H as (? & ? & ? & _ & H & _).
  apply bind_inr in H as (t1 & [cfg2 model2] & ? & Hasm & H & _).
  apply bind_inr in H as (? & ? & ? & _ & H & _).
  injection H as _ <- <- _. by exists t0, cfg, t1.
Qed.

Lemma startup_trace_cfg (P : Event -> Prop) env raw t cfg :
  ingest env raw = (t, inr cfg) ->
  (forall s, P (seed_everything s)) ->
  Forall P (trace (model_assembly env cfg)) ->
  (forall vl, P (prepare_data_classification vl)) ->
  Forall P (trace (startup env raw)).
Proof.
  intros Hin Hseed Hasm Hval. unfold startup.
  apply trace_bind_Forall.
  { eapply Forall_impl; [apply ingest_trace|]. by intros ev [s ->]. }
  intros t0 cfg1 Hin1. rewrite Hin in Hin1. injection Hin1 as <- <-.
  apply trace_bind_Forall; [by rewrite validate_trace|]. intros _ _ _.
  apply trace_bind_Forall; [done|]. intros _ [cfg2 model2] _.
  apply trace_bind_Forall; [|intros; apply Forall_nil_2].
  unfold validation_loader. trace_steps.
Qed.

Lemma run_fit_model env cfg model vl td :
  Forall (fun ev => forall tr m a c, ev = trainer_fit tr m a c -> m = model)
         (trace (run env cfg model vl td)).
Proof.
  unfold run. apply trace_bind_Forall.
  { eapply Forall_impl; [apply resolve_resume_trace|]. by intros []. }
  intros t0 [[cfg' ckpt] run_id] _. apply trace_bind_Forall.
  { eapply Forall_impl; [apply assemble_callbacks_trace|]. by intros []. }
  intros t1 [cbs wl] _. apply trace_bind_Forall.
  { unfold build_trainer. trace_steps. }
  intros t2 trainer _. apply trace_bind_Forall.
  { unfold apply_workaround. trace_steps. }
  intros t3 trainer' _. unfold dispatch_fit. trace_steps.
  all: by intros ? ? ? ? [= _ <- _ _].
Qed.

(** C4: with pretrained weights supplied (a specifier other than [None],
    "None" and "imagenet"), a method instance that has a momentum backbone
    leaves model assembly with the momentum backbone's parameters equal
    to those of the backbone the weights were loaded into; this is the
    model every call of [trainer.fit] receives. *)
Theorem momentum_backbone_reseeded env raw t0 cfg p :
  ingest env raw = (t0, inr cfg) ->
  kwargs (backbone cfg) !! "pretrained_weights" = Some p ->
  wants_zoo_weights p = true ->
  (forall t cfg' model,
      model_assembly env cfg = (t, inr (cfg', model)) ->
      is_Some (momentum_backbone model) ->
      momentum_backbone model = Some (model_backbone model) /\
      exists w old,
        model_zoo env p (default (VInt 3) (kwargs (backbone cfg) !! "in_chans"))
          = inr w /\
        backbone_load env old w = inr (model_backbone model)) /\
  Forall (fun ev => forall tr m a c,
            ev = trainer_fit tr m a c ->
            is_Some (momentum_backbone m) ->
            momentum_backbone m = Some (model_backbone m))
         (trace (main env raw)).
Proof.
  intros Hin Hp Hw.
  assert (forall t cfg' model,
      model_assembly env cfg = (t, inr (cfg', model)) ->
      is_Some (momentum_backbone model) ->
      momentum_backbone model = Some (model_backbone model) /\
      exists w old,
        model_zoo env p (default (VInt 3) (kwargs (backbone cfg) !! "in_chans"))
          = inr w /\
        backbone_load env old w = inr (model_backbone model)) as Hasm.
  { intros t cfg' model Hasm Hmom.
    apply model_assembly_model in Hasm as (cfg1 & model0 & t1 & Hcfg1 & Hload).
    destruct (pop_pretrained_weights_spec cfg) as (kw & Hpop & _ & Hic & _).
    rewrite Hpop in Hcfg1, Hload. simpl in Hcfg1, Hload. subst cfg1.
    rewrite Hp in Hload. simpl in Hload.
    apply load_pretrained_inv in Hload as [(w & Hzoo & Hld) Hm]; [|done].
    split; [by apply Hm|]. exists w, (model_backbone model0).
    split; [|done]. rewrite <- Hzoo. do 2 f_equal. simpl.
    rewrite lookup_insert_ne by done. by rewrite Hic. }
  split; [done|].
  apply main_trace.
  - eapply Forall_impl; [apply startup_trace|]. by intros [].
  - intros t cfg' model vl _.
    eapply Forall_impl; [apply pretrain_data_trace|].
    intros ev. by destruct (format (data cfg') =? "dali")%string, ev.
  - intros t cfg' model vl t' td Hst _.
    apply startup_inv_assembly in Hst as (t0' & cfg0 & t1 & Hin' & Hasm').
    rewrite Hin in Hin'. injection Hin' as <- <-.
    eapply Forall_impl; [apply run_fit_model|]. simpl.
    intros ev Hev tr m a c -> Hmom.
    rewrite (Hev _ _ _ _ eq_refl) in *. by eapply Hasm.
Qed.

Lemma momentum_backbone_reseeded_witness :
  Forall (fun ev => forall tr m a c,
            ev = trainer_fit tr m a c ->
            is_Some (momentum_backbone m) ->
            momentum_backbone m = Some (model_backbone m))
         (trace (main Sample.env Sample.cfg)) /\
  exists tr a c,
    trainer_fit tr (BaseMomentumMethod Sample.weights Sample.weights) a c
    ∈ trace (main Sample.env Sample.cfg).
Proof.
  destruct (momentum_backbone_reseeded Sample.env Sample.cfg
              [seed_everything 5] Sample.cfg (VStr "radimagenet"))
    as [_ Hfit]; [reflexivity | reflexivity | reflexivity |].
  split; [exact Hfit|].
  assert (exists tr a c,
             nth_error (trace (main Sample.env Sample.cfg)) 14
             = Some (trainer_fit tr
                       (BaseMomentumMethod Sample.weights Sample.weights) a c))
    as (tr & a & c & Hnth).
  { vm_compute. do 3 eexists. reflexivity. }
  exists tr, a, c. apply list_elem_of_In. eapply nth_error_In, Hnth.
Defined.

Lemma model_assembly_no_zoo env cfg :
  wants_zoo_weights
    (default VNone (kwargs (backbone cfg) !! "pretrained_weights")) = false ->
  Forall (fun ev => is_zoo_or_load ev = false) (trace (model_assembly env cfg)).
Proof.
  intros Hw. unfold model_assembly.
  destruct (pop_pretrained_weights_spec cfg) as (kw & -> & _).
  unfold load_pretrained. rewrite Hw. trace_steps.
Qed.

Lemma model_assembly_constructs env cfg :
  Forall (fun ev => forall m c,
            ev = construct_method m c ->
            m = method cfg /\ c = (pop_pretrained_weights cfg).2)
         (trace (model_assembly env cfg)).
Proof.
  unfold model_assembly.
  destruct (pop_pretrained_weights_spec cfg) as (kw & -> & _).
  cbn [fst snd]. unfold load_pretrained. trace_steps.
  by intros m c [= <- <-].
Qed.

Lemma model_assembly_zoo_trace env cfg ctor model :
  let p := default VNone (kwargs (backbone cfg) !! "pretrained_weights") in
  let in_chans := default (VInt 3) (kwargs (backbone cfg) !! "in_chans") in
  let cfg1 := (pop_pretrained_weights cfg).2 in
  wants_zoo_weights p = true ->
  METHODS env !! method cfg = Some ctor ->
  ctor cfg1 = inr model ->
  exists rest,
    trace (model_assembly env cfg)
    = register_backbone "timm_universal"
        :: construct_method (method cfg) cfg1
        :: get_state_dict_form_pretrained_model_zoo p in_chans :: rest /\
    (forall w, model_zoo env p in_chans = inr w ->
               exists rest', rest = load_state_dict w :: rest').
Proof.
  intros p in_chans cfg1 Hw Hm Hctor. subst cfg1. unfold model_assembly.
  destruct (pop_pretrained_weights_spec cfg) as (kw & Hpop & _ & Hic & _).
  rewrite Hpop in *. cbn [fst snd] in *. fold p in Hpop |- *.
  unfold note. rewrite (trace_bind_ok _ _ _ _ eq_refl).
  cbn [method set_backbone_kwargs]. rewrite Hm. unfold ask at 1.
  rewrite Hctor. rewrite (trace_bind_ok _ _ _ _ eq_refl).
  match goal with |- context [trace (bind ?m ?k)] =>
    destruct (trace_bind_prefix m k) as [r1 ->] end.
  unfold load_pretrained. rewrite Hw.
  assert (default (VInt 3)
            (kwargs (backbone
               (set_backbone_kwargs (set_backbone_kwargs cfg kw)
                  (<["pretrained_weights" := p]>
                     (kwargs (backbone (set_backbone_kwargs cfg kw))))))
             !! "in_chans") = in_chans) as ->.
  { simpl. rewrite lookup_insert_ne by done. by rewrite Hic. }
  unfold ask at 1.
  destruct (model_zoo env p in_chans) as [e|w] eqn:Hzoo.
  - rewrite (bind_err _ _ _ _ eq_refl). simpl. eexists. split; [reflexivity|].
    by intros w [=].
  - rewrite (trace_bind_ok _ _ _ _ eq_refl).
    match goal with |- context [trace (bind ?m ?k)] =>
      destruct (trace_bind_prefix m k) as [r2 ->] end.
    simpl. eexists. split; [reflexivity|]. intros w' [= <-]. by eexists.
Qed.

(** C10: the zoo lookup and the state-dict load are made only for a
    weights specifier other than [None], "None" and "imagenet", and for
    such a specifier the lookup follows as soon as the model is built (and
    the load as soon as the lookup returns); with the specifier
    "imagenet" and no "pretrained" key among the backbone keyword
    arguments, the model is built from keyword arguments that hold
    [pretrained=True] and no "pretrained_weights", and nothing is taken
    from the zoo. *)
Theorem zoo_load_iff_specifier env raw t cfg :
  ingest env raw = (t, inr cfg) ->
  let p := default VNone (kwargs (backbone cfg) !! "pretrained_weights") in
  let in_chans := default (VInt 3) (kwargs (backbone cfg) !! "in_chans") in
  let cfg1 := (pop_pretrained_weights cfg).2 in
  (wants_zoo_weights p = true <->
   p <> VNone /\ p <> VStr "None" /\ p <> VStr "imagenet") /\
  (wants_zoo_weights p = false ->
   Forall (fun ev => is_zoo_or_load ev = false) (trace (main env raw))) /\
  (wants_zoo_weights p = true ->
   forall ctor model,
     validate env cfg = ret tt ->
     METHODS env !! method cfg = Some ctor ->
     ctor cfg1 = inr model ->
     exists rest,
       trace (main env raw)
       = t ++ register_backbone "timm_universal"
           :: construct_method (method cfg) cfg1
           :: get_state_dict_form_pretrained_model_zoo p in_chans :: rest /\
       (forall w, model_zoo env p in_chans = inr w ->
                  exists rest', rest = load_state_dict w :: rest')) /\
  (p = VStr "imagenet" ->
   kwargs (backbone cfg) !! "pretrained" = None ->
   kwargs (backbone cfg1) !! "pretrained" = Some (VBool true) /\
   kwargs (backbone cfg1) !! "pretrained_weights" = None /\
   Forall (fun ev => is_zoo_or_load ev = false) (trace (main env raw)) /\
   Forall (fun ev => forall m c, ev = construct_method m c -> c = cfg1)
          (trace (main env raw))).
Proof.
  intros Hin p in_chans cfg1.
  assert (wants_zoo_weights p = false ->
          Forall (fun ev => is_zoo_or_load ev = false) (trace (main env raw)))
    as Hnone.
  { intros Hw. apply main_trace.
    - eapply startup_trace_cfg; [exact Hin | done | | done].
      by apply model_assembly_no_zoo.
    - intros t' cfg' model vl _.
      eapply Forall_impl; [apply pretrain_data_trace|].
      intros ev. by destruct (format (data cfg') =? "dali")%string, ev.
    - intros. eapply Forall_impl; [apply run_trace|]. by intros []. }
  split_and!.
  - unfold wants_zoo_weights. split.
    + intros Hw. split_and!; intros Hp; rewrite Hp in Hw; done.
    + intros (H1 & H2 & H3). destruct p as [| | | |s| |]; try done. simpl.
      destruct (String.eqb_spec s "None") as [->|_]; [done|].
      destruct (String.eqb_spec s "imagenet") as [->|_]; done.
  - done.
  - intros Hw ctor model Hval Hm Hctor.
    destruct (model_assembly_zoo_trace env cfg ctor model Hw Hm Hctor)
      as (rest & Htr & Hload).
    unfold main.
    match goal with |- context [trace (bind ?m ?k)] =>
      destruct (trace_bind_prefix m k) as [r1 ->] end.
    unfold startup. rewrite (trace_bind_ok _ _ _ _ Hin).
    rewrite (trace_bind_ok _ _ _ _ Hval).
    match goal with |- context [trace (bind ?m ?k)] =>
      destruct (trace_bind_prefix m k) as [r2 ->] end.
    rewrite Htr. exists (rest ++ r2 ++ r1). split.
    + cbn [trace fst ret]. rewrite <- !app_assoc. simpl.
      by rewrite <- ?app_assoc.
    + intros w Hzoo. destruct (Hload w Hzoo) as [rest' ->]. by eexists.
  - intros Hp Hpre.
    destruct (pop_pretrained_weights_spec cfg) as (kw & Hpop & Hpw & _ & Himg).
    subst cfg1. rewrite Hpop. cbn [fst snd]. simpl.
    split_and!; [by apply Himg | done | apply Hnone; by rewrite Hp |].
    apply main_trace.
    + eapply startup_trace_cfg; [exact Hin | done | | done].
      eapply Forall_impl; [apply model_assembly_constructs|].
      intros ev Hev m c ->. destruct (Hev _ _ eq_refl) as [_ ->].
      by rewrite Hpop.
    + intros t' cfg' model vl _.
      eapply Forall_impl; [apply pretrain_data_trace|].
      intros ev. by destruct (format (data cfg') =? "dali")%string, ev.
    + intros. eapply Forall_impl; [apply run_trace|]. by intros [].
Qed.

Lemma zoo_load_iff_specifier_witness :
  (exists rest,
      trace (main Sample.env Sample.cfg)
      = [seed_everything 5; register_backbone "timm_universal";
         construct_method "byol" (pop_pretrained_weights Sample.cfg).2;
         get_state_dict_form_pretrained_model_zoo (VStr "radimagenet") (VInt 3);
         load_state_dict Sample.weights] ++ rest) /\
  Forall (fun ev => is_zoo_or_load ev = false)
         (trace (main Sample.env Sample.cfg_imagenet)) /\
  kwargs (backbone (pop_pretrained_weights Sample.cfg_imagenet).2)
    !! "pretrained" = Some (VBool true).
Proof.
  split_and!.
  - destruct (zoo_load_iff_specifier Sample.env Sample.cfg
                [seed_everything 5] Sample.cfg) as (_ & _ & Hzoo & _);
      [reflexivity|].
    destruct (Hzoo eq_refl
                (fun _ => inr (BaseMomentumMethod Sample.fresh
                                                  Sample.fresh_momentum))
                (BaseMomentumMethod Sample.fresh Sample.fresh_momentum))
      as (rest & Htr & Hload); [reflexivity | reflexivity | reflexivity |].
    destruct (Hload Sample.weights) as [rest' ->]; [reflexivity|].
    exists rest'. exact Htr.
  - destruct (zoo_load_iff_specifier Sample.env Sample.cfg_imagenet
                [seed_everything 5] Sample.cfg_imagenet) as (_ & Hno & _);
      [reflexivity|].
    apply Hno. reflexivity.
  - destruct (zoo_load_iff_specifier Sample.env Sample.cfg_imagenet
                [seed_everything 5] Sample.cfg_imagenet) as (_ & _ & _ & Himg);
      [reflexivity|].
    destruct Himg as (Hpre & _); [reflexivity | reflexivity |]. exact Hpre.
Defined.

(** ** Paths *)

Lemma append_nil (b : string) : "" +:+ b = b.
Proof. reflexivity. Qed.

Lemma append_cons x (a b : string) : String x a +:+ b = String x (a +:+ b).
Proof. reflexivity. Qed.

Lemma append_assoc_str (a b c : string) : (a +:+ b) +:+ c = a +:+ (b +:+ c).
Proof.
  induction a as [|x a IH]; [done|]. by rewrite !append_cons, IH.
Qed.

Lemma prefix_append (a b c : string) :
  String.prefix (a +:+ b) (a +:+ c) = String.prefix b c.
Proof.
  induction a as [|x a IH]; [done|]. rewrite !append_cons. simpl.
  by destruct (Ascii.ascii_dec x x).
Qed.

Lemma append_eq_self (a b : string) : a +:+ b = a -> b = "".
Proof.
  induction a as [|x a IH]; [done|]. rewrite append_cons.
  intros [= H]. by apply IH.
Qed.

Lemma endswith_sep_append (a b : string) :
  b <> "" -> endswith_sep (a +:+ b) = endswith_sep b.
Proof.
  intros Hb. induction a as [|x a IH]; [done|]. rewrite append_cons. simpl.
  rewrite IH. destruct (a +:+ b) eqn:Hab; [|done].
  destruct a; [by rewrite append_nil in Hab | by rewrite append_cons in Hab].
Qed.

Lemma startswith_sep_append (a b : string) :
  a <> "" -> startswith_sep (a +:+ b) = startswith_sep a.
Proof. by destruct a. Qed.

(** Both directories are the checkpoint directory, made ready for a
    component, followed by that component. *)
Lemma path_join_relative (d b : string) :
  startswith_sep b = false ->
  path_join d b
  = (if (String.eqb d "" || endswith_sep d)%bool then d
     else d +:+ String sep "") +:+ b.
Proof.
  intros Hb. unfold path_join. rewrite Hb.
  destruct (_ || _)%bool; [done|]. by rewrite append_assoc_str.
Qed.

(** C1 fails on the code: the directory the checkpointing hook writes to
    is never the directory the auto-resume scan walks, and for a method
    name that is neither empty nor ends in a separator it does not even
    lie in the tree under that directory, so that a later run's scan does
    not come across the checkpoints this script saves. *)
Theorem checkpointer_logdir_outside_scanned_tree cfg :
  method cfg <> "" ->
  endswith_sep (method cfg) = false ->
  auto_resume_dir cfg <> checkpointer_logdir cfg /\
  in_tree (auto_resume_dir cfg) (checkpointer_logdir cfg) = false.
Proof.
  intros Hne Hend. unfold auto_resume_dir, checkpointer_logdir.
  set (d := checkpoint_dir (checkpoint cfg)).
  set (m := method cfg) in *.
  set (tail := "_" +:+ custom_dataset_name (data cfg)).
  assert (tail <> "") as Htail by done.
  assert (exists pre, path_join d m = pre +:+ m /\
                      path_join d (m +:+ tail) = pre +:+ (m +:+ tail))
    as (pre & -> & ->).
  { destruct (startswith_sep m) eqn:Hs.
    - exists "". unfold path_join.
      by rewrite startswith_sep_append, Hs.
    - eexists. split; apply path_join_relative; [done|].
      by rewrite startswith_sep_append. }
  assert (pre +:+ m <> pre +:+ (m +:+ tail)) as Hdiff.
  { rewrite <- append_assoc_str. intros H. symmetry in H.
    by apply append_eq_self in H. }
  split; [done|]. unfold in_tree, with_trailing_sep.
  rewrite endswith_sep_append, Hend by done.
  apply orb_false_intro.
  - apply String.eqb_neq. by intros H.
  - by rewrite !append_assoc_str, !prefix_append.
Qed.

Lemma checkpointer_logdir_witness :
  auto_resume_dir Sample.cfg = "trained_models/byol" /\
  checkpointer_logdir Sample.cfg = "trained_models/byol_acdc" /\
  in_tree (auto_resume_dir Sample.cfg) (checkpointer_logdir Sample.cfg) = false.
Proof.
  destruct (checkpointer_logdir_outside_scanned_tree Sample.cfg) as [_ H];
    [discriminate | reflexivity |].
  split; [reflexivity|]. split; [reflexivity|]. exact H.
Defined.

(** The run on the sample configuration: the scan is pointed at
    [trained_models/byol] while the checkpointing hook it installs writes
    under [trained_models/byol_acdc]. *)
Example scan_and_hook_directories :
  nth_error (trace (main Sample.env Sample.cfg)) 11
    = Some (find_checkpoint "trained_models/byol" 36 Sample.cfg) /\
  Sample.trainer_kwargs_passed !! "callbacks"
    = Some (KwCallbacks
              [Checkpointer Sample.cfg "trained_models/byol_acdc" 1 false;
               WeightsSaver (BaseMomentumMethod Sample.weights Sample.weights)
                            milestones]) /\
  outcome (main Sample.env Sample.cfg) = inr tt.
Proof. split_and!; vm_compute; reflexivity. Qed.

(** * Further properties of [main] *)

(** ** Reading the configuration in *)

Lemma startup_trace_stages (P : Event -> Prop) env raw :
  (forall s, P (seed_everything s)) ->
  (forall t cfg, ingest env raw = (t, inr cfg) ->
                 Forall P (trace (model_assembly env cfg))) ->
  (forall t cfg t1 cfg' model,
      ingest env raw = (t, inr cfg) ->
      model_assembly env cfg = (t1, inr (cfg', model)) ->
      Forall P (trace (validation_loader env cfg'))) ->
  Forall P (trace (startup env raw)).
Proof.
  intros Hseed Hasm Hval. unfold startup.
  apply trace_bind_Forall.
  { eapply Forall_impl; [apply ingest_trace|]. by intros ev [s ->]. }
  intros t0 cfg Hin.
  apply trace_bind_Forall; [by rewrite validate_trace|]. intros _ _ _.
  apply trace_bind_Forall; [by eapply Hasm|]. intros t1 [cfg' model] Hm.
  apply trace_bind_Forall; [by eapply Hval|]. intros. apply Forall_nil_2.
Qed.

Lemma model_assembly_events env cfg :
  Forall (fun ev => assembly_event ev = true) (trace (model_assembly env cfg)).
Proof.
  unfold model_assembly, load_pretrained.
  destruct (pop_pretrained_weights cfg) as [p cfg1]. trace_steps.
Qed.

Lemma startup_inv_loader env raw t cfg' model vl :
  startup env raw = (t, inr (cfg', model, vl)) ->
  exists t2, validation_loader env cfg' = (t2, inr vl).
Proof.
  unfold startup. intros H.
  apply bind_inr in H as (? & ? & ? & _ & H & _).
  apply bind_inr in H as (? & ? & ? & _ & H & _).
  apply bind_inr in H as (? & [cfg2 model2] & ? & _ & H & _).
  apply bind_inr in H as (t2 & vl2 & ? & Hvl & H & _).
  injection H as _ <- _ <-. by exists t2.
Qed.

(** X1: a failure of [parse_cfg] or of the name template ends [main] with
    that error: the run is not seeded, and none of the calls that follow
    the seeding in the script (model, data, resume, hooks, trainer) is
    made.  Otherwise [seed_everything] on the configured seed comes
    before every one of those calls, and a failure of it ends [main]
    there, with nothing after it. *)
Theorem ingest_failures_and_seeding env raw :
  (forall e, parse_cfg env raw = inl e -> main env raw = ([], inl e)) /\
  (forall cfg0 e, parse_cfg env raw = inr cfg0 ->
                  format_name env cfg0 = inl e ->
                  main env raw = ([], inl e)) /\
  (forall cfg0 n, parse_cfg env raw = inr cfg0 ->
                  format_name env cfg0 = inr n ->
                  (exists rest, trace (main env raw)
                                = seed_everything (seed cfg0) :: rest) /\
                  (forall e, raises env (seed_everything (seed cfg0)) = Some e ->
                             main env raw
                             = ([seed_everything (seed cfg0)], inl e))).
Proof.
  split_and!.
  - intros e Hp. unfold main, startup, ingest, lift. by rewrite Hp.
  - intros cfg0 e Hp Hn. unfold main, startup, ingest, lift.
    rewrite Hp. cbn [bind]. by rewrite Hn.
  - intros cfg0 n Hp Hn.
    assert (ingest env raw
            = (call env (seed_everything (seed cfg0));; ret (set_name cfg0 n)))
      as Hin.
    { unfold ingest, lift. rewrite Hp. rewrite bind_ret_l.
      rewrite Hn. by rewrite bind_ret_l. }
    split.
    + unfold main, startup.
      match goal with |- context [trace (bind ?m ?k)] =>
        destruct (trace_bind_prefix m k) as [r1 ->] end.
      match goal with |- context [trace (bind ?m ?k)] =>
        destruct (trace_bind_prefix m k) as [r2 ->] end.
      rewrite Hin. unfold call.
      destruct (raises env _); simpl; eauto.
    + intros e He. unfold main, startup. rewrite Hin. unfold call.
      by rewrite He.
Qed.

Lemma ingest_failures_and_seeding_witness :
  main Sample2.env_bad_cfg Sample.cfg = ([], inl (AssertionError None)) /\
  exists rest, trace (main Sample.env Sample.cfg) = seed_everything 5 :: rest.
Proof.
  destruct (ingest_failures_and_seeding Sample2.env_bad_cfg Sample.cfg)
    as (Hbad & _).
  destruct (ingest_failures_and_seeding Sample.env Sample.cfg)
    as (_ & _ & Hseed).
  split; [by apply Hbad|].
  by destruct (Hseed Sample.cfg "byol-acdc" eq_refl eq_refl) as [Hrest _].
Defined.

(** ** The validation loader *)

Lemma validation_loader_format env cfg :
  Forall (fun ev => forall vl,
            ev = prepare_data_classification vl ->
            vl_data_format vl
            = (if (format (data cfg) =? "dali")%string
               then "image_folder" else format (data cfg)) /\
            vl_dataset vl = dataset (data cfg) /\
            vl_train_data_path vl = train_path (data cfg) /\
            vl_val_data_path vl = val_path (data cfg) /\
            vl_batch_size vl = batch_size (optimizer cfg) /\
            vl_num_workers vl = num_workers (data cfg))
         (trace (validation_loader env cfg)).
Proof.
  unfold validation_loader. trace_steps. intros vl [= <-].
  split_and!; reflexivity.
Qed.

(** X2: whatever the configuration, the validation loader is never
    prepared in the "dali" format: on the accelerated backend it is
    prepared as "image_folder", on the standard backend in the configured
    format. *)
Theorem validation_loader_never_dali env raw :
  Forall (fun ev => forall vl,
            ev = prepare_data_classification vl ->
            vl_data_format vl <> "dali" /\
            forall cfg0, parse_cfg env raw = inr cfg0 ->
              vl_data_format vl
              = (if (format (data cfg0) =? "dali")%string
                 then "image_folder" else format (data cfg0)))
         (trace (main env raw)).
Proof.
  apply main_trace.
  - apply startup_trace_stages.
    + done.
    + intros t cfg _.
      eapply Forall_impl; [apply model_assembly_events|]. by intros [].
    + intros t cfg t1 cfg' model Hin Hasm.
      apply ingest_inv in Hin as (cfg0 & n & Hp & _ & -> & _).
      apply model_assembly_inv in Hasm as [kw ->].
      eapply Forall_impl; [apply validation_loader_format|]. simpl.
      intros ev Hev vl ->. destruct (Hev _ eq_refl) as (-> & _). split.
      * destruct (String.eqb_spec (format (data cfg0)) "dali"); done.
      * intros cfg0' Hp'. rewrite Hp in Hp'. by injection Hp' as <-.
  - intros t cfg model vl _.
    eapply Forall_impl; [apply pretrain_data_trace|].
    intros ev. by destruct (format (data cfg) =? "dali")%string, ev.
  - intros. eapply Forall_impl; [apply run_trace|]. by intros [].
Qed.

Lemma validation_loader_skipped env cfg :
  (dataset (data cfg) = "custom" /\
   (no_labels (data cfg) = true \/ val_path (data cfg) = None)) \/
  ((dataset (data cfg) = "imagenet100" \/ dataset (data cfg) = "imagenet") /\
   val_path (data cfg) = None) ->
  validation_loader env cfg = ret None.
Proof.
  unfold validation_loader.
  intros [[Hd Hor]|[Hd Hv]].
  - rewrite Hd. simpl.
    destruct Hor as [->| ->]; [done|]. by rewrite orb_true_r.
  - rewrite Hv. rewrite (bool_decide_eq_true_2 (None = None)) by done.
    rewrite andb_true_r.
    destruct (_ && _)%bool; [done|].
    rewrite bool_decide_eq_true_2; [done|].
    destruct Hd as [->| ->]; set_solver.
Qed.

Lemma run_fit_loaders env cfg model vl td :
  Forall (fun ev => forall t m tl vl' c,
            ev = trainer_fit t m (FitLoaders tl vl') c -> vl' = vl)
         (trace (run env cfg model vl td)).
Proof.
  unfold run. apply trace_bind_Forall.
  { eapply Forall_impl; [apply resolve_resume_trace|]. by intros []. }
  intros t0 [[cfg' ckpt] run_id] _. apply trace_bind_Forall.
  { eapply Forall_impl; [apply assemble_callbacks_trace|]. by intros []. }
  intros t1 [cbs wl] _. apply trace_bind_Forall.
  { unfold build_trainer. trace_steps. }
  intros t2 trainer _. apply trace_bind_Forall.
  { unfold apply_workaround. trace_steps. }
  intros t3 trainer' _. unfold dispatch_fit. trace_steps.
  by intros ? ? ? ? ? [= _ _ _ <- _].
Qed.

(** X3: for the "custom" dataset without labels or without a validation
    path, and for "imagenet"/"imagenet100" without a validation path, no
    validation loader is prepared, and [trainer.fit] on the standard
    backend gets [None] for it. *)
Theorem no_validation_loader_without_validation_data env raw cfg0 :
  parse_cfg env raw = inr cfg0 ->
  (dataset (data cfg0) = "custom" /\
   (no_labels (data cfg0) = true \/ val_path (data cfg0) = None)) \/
  ((dataset (data cfg0) = "imagenet100" \/ dataset (data cfg0) = "imagenet") /\
   val_path (data cfg0) = None) ->
  Forall (fun ev => (forall vl, ev <> prepare_data_classification vl) /\
                    (forall t m tl vl c,
                        ev = trainer_fit t m (FitLoaders tl vl) c -> vl = None))
         (trace (main env raw)).
Proof.
  intros Hp Hskip. apply main_trace.
  - apply startup_trace_stages.
    + done.
    + intros t cfg _.
      eapply Forall_impl; [apply model_assembly_events|]. by intros [].
    + intros t cfg t1 cfg' model Hin Hasm.
      apply ingest_inv in Hin as (cfg0' & n & Hp' & _ & -> & _).
      rewrite Hp in Hp'. injection Hp' as <-.
      apply model_assembly_inv in Hasm as [kw ->].
      rewrite validation_loader_skipped by done. constructor.
  - intros t cfg model vl _.
    eapply Forall_impl; [apply pretrain_data_trace|].
    intros ev. by destruct (format (data cfg) =? "dali")%string, ev.
  - intros t cfg model vl t' td Hst _.
    pose proof Hst as [t2 Hvl]%startup_inv_loader.
    apply startup_inv in Hst as (cfg0' & n & kw & Hp' & _ & -> & _).
    rewrite Hp in Hp'. injection Hp' as <-.
    rewrite validation_loader_skipped in Hvl by done. injection Hvl as _ <-.
    apply Forall_and. split; [|apply run_fit_loaders].
    eapply Forall_impl; [apply run_trace|]. by intros [].
Qed.

Lemma no_validation_loader_witness :
  Forall (fun ev => (forall vl, ev <> prepare_data_classification vl) /\
                    (forall t m tl vl c,
                        ev = trainer_fit t m (FitLoaders tl vl) c -> vl = None))
         (trace (main Sample.env Sample.cfg)).
Proof.
  apply (no_validation_loader_without_validation_data
           Sample.env Sample.cfg Sample.cfg); [reflexivity|].
  left. split; [reflexivity|]. left. reflexivity.
Defined.

Lemma validation_loader_never_dali_witness :
  Forall (fun ev => forall vl,
            ev = prepare_data_classification vl ->
            vl_data_format vl = "image_folder")
         (trace (main Sample2.env_found Sample2.cfg_cifar_dali)) /\
  exists vl,
    prepare_data_classification vl
    ∈ trace (main Sample2.env_found Sample2.cfg_cifar_dali).
Proof.
  split.
  - eapply Forall_impl;
      [apply (validation_loader_never_dali
                Sample2.env_found Sample2.cfg_cifar_dali)|].
    intros ev Hev vl Heq. destruct (Hev vl Heq) as [_ Hfmt].
    exact (Hfmt Sample2.cfg_cifar_dali eq_refl).
  - eexists. apply list_elem_of_In. apply (nth_error_In _ 5).
    vm_compute. reflexivity.
Defined.

(** ** Resuming, continued *)

Lemma run_scan env cfg model vl td found run_id :
  auto_resume_enabled (auto_resume cfg) = true ->
  resume_from_checkpoint cfg = Some None ->
  auto_resumer_find env (auto_resume_dir cfg) (max_hours (auto_resume cfg)) cfg
    = inr (found, run_id) ->
  run env cfg model vl td =
  (note (find_checkpoint (auto_resume_dir cfg) (max_hours (auto_resume cfg)) cfg);;
   let! hooks := assemble_callbacks env cfg model run_id in
   let '(callbacks, wandb_logger) := hooks in
   let! trainer := build_trainer env cfg callbacks wandb_logger in
   let! trainer := apply_workaround env trainer in
   dispatch_fit env cfg trainer model td vl found).
Proof.
  intros He Hr Hfind. unfold run.
  assert (resolve_resume env cfg
          = ([find_checkpoint (auto_resume_dir cfg)
                (max_hours (auto_resume cfg)) cfg],
             inr (cfg, found, run_id))) as ->.
  { unfold resolve_resume, read_resume_from_checkpoint.
    rewrite Hr. simpl. rewrite He. simpl. by rewrite Hfind. }
  unfold note. by rewrite !(bind_ok _ _ _ _ eq_refl).
Qed.

Lemma run_trainer_stage P env cfg ckpt model vl td cbs wl :
  (forall t a, P (trainer_fit t model a ckpt)) ->
  P patch_fit_loop ->
  P (construct_trainer (make_trainer_kwargs env cfg cbs wl)) ->
  Forall P
    (trace (let! trainer := build_trainer env cfg cbs wl in
            let! trainer := apply_workaround env trainer in
            dispatch_fit env cfg trainer model td vl ckpt)).
Proof.
  intros Hfit Hpatch Hctor. apply trace_bind_Forall.
  { unfold build_trainer. trace_steps. }
  intros t2 trainer _. apply trace_bind_Forall.
  { unfold apply_workaround. trace_steps. }
  intros t3 trainer' _. unfold dispatch_fit. trace_steps.
Qed.

Lemma assemble_callbacks_logger env cfg model run_id :
  Forall (fun ev => wandb_enabled (wandb cfg) = true /\
            forall l, ev = construct_wandb_logger l ->
              l = {| wl_name := name cfg;
                     wl_project := project (wandb cfg);
                     wl_entity := entity (wandb cfg);
                     wl_offline := offline (wandb cfg);
                     wl_resume := wandb_resume run_id;
                     wl_id := run_id |})
         (trace (assemble_callbacks env cfg model run_id)).
Proof.
  unfold assemble_callbacks. trace_steps.
  all: split; [done|]; by intros l [= <-].
Qed.

Lemma assemble_callbacks_events (P : Event -> Prop) env cfg model run_id :
  (forall ev,
      wandb_event ev = true ->
      wandb_enabled (wandb cfg) = true ->
      (forall l, ev = construct_wandb_logger l ->
         l = {| wl_name := name cfg;
                wl_project := project (wandb cfg);
                wl_entity := entity (wandb cfg);
                wl_offline := offline (wandb cfg);
                wl_resume := wandb_resume run_id;
                wl_id := run_id |}) ->
      P ev) ->
  Forall P (trace (assemble_callbacks env cfg model run_id)).
Proof.
  intros HP.
  pose proof (conj (assemble_callbacks_trace env cfg model run_id)
                   (assemble_callbacks_logger env cfg model run_id)) as H.
  apply Forall_and in H. eapply Forall_impl; [exact H|].
  intros ev [Hw [He Hl]]. by apply HP.
Qed.

(** X4: with auto-resume enabled and no explicit path, the run opens with
    the scan of [checkpoint.dir/method] under the configured hour bound;
    the checkpoint the scan returns (or [None]) is the path every
    [trainer.fit] call gets, and the run id it returns is the id of the
    wandb logger, which resumes ("allow") exactly when that id is
    non-empty. *)
Theorem auto_resume_result_is_used env cfg model vl td found run_id :
  auto_resume_enabled (auto_resume cfg) = true ->
  resume_from_checkpoint cfg = Some None ->
  auto_resumer_find env (auto_resume_dir cfg) (max_hours (auto_resume cfg)) cfg
    = inr (found, run_id) ->
  (exists rest,
      trace (run env cfg model vl td)
      = find_checkpoint (path_join (checkpoint_dir (checkpoint cfg)) (method cfg))
          (max_hours (auto_resume cfg)) cfg :: rest) /\
  Forall (fun ev =>
            (forall t m a c, ev = trainer_fit t m a c -> c = found) /\
            (forall l, ev = construct_wandb_logger l ->
               wl_id l = run_id /\
               (wl_resume l = Some "allow" <->
                exists s, run_id = Some s /\ s <> "")))
         (trace (run env cfg model vl td)).
Proof.
  intros He Hr Hfind. rewrite (run_scan _ _ _ _ _ found run_id) by done.
  split.
  { unfold note. rewrite (trace_bind_ok _ _ _ _ eq_refl). by eexists. }
  apply trace_bind_Forall; [by apply Forall_singleton|]. intros _ _ _.
  apply trace_bind_Forall.
  - apply assemble_callbacks_events. intros ev Hw _ Hev.
    split; [intros ? ? ? ? ->; done|].
    intros l ->. rewrite (Hev _ eq_refl). simpl. split; [done|].
    unfold wandb_resume. destruct run_id as [s|].
    + destruct (String.eqb_spec s "") as [->|Hs].
      * split; [done|]. by intros (s' & [= <-] & ?).
      * split; [by exists s|done].
    + split; [done|]. by intros (s' & [=] & _).
  - intros t1 [cbs wl] _. apply run_trainer_stage; try done.
    intros t0 a0. split; [|done]. by intros ? ? ? ? [= _ _ _ <-].
Qed.

Lemma auto_resume_result_is_used_witness :
  exists rest,
    trace (run Sample2.env_found Sample2.cfg_wandb
               (BaseMethod Sample.fresh) None
               (DaliData
                  {| dm_dataset := ""; dm_train_data_path := "";
                     dm_transforms := []; dm_num_large_crops := 2;
                     dm_num_small_crops := 0; dm_num_workers := 0;
                     dm_batch_size := 1; dm_no_labels := true;
                     dm_data_fraction := VNone; dm_dali_device := "gpu";
                     dm_encode_indexes_into_labels := false;
                     dm_val_dataloader := None |}))
    = find_checkpoint "trained_models/byol" 36 Sample2.cfg_wandb :: rest.
Proof.
  destruct (auto_resume_result_is_used Sample2.env_found Sample2.cfg_wandb
              (BaseMethod Sample.fresh) None
              (DaliData
                  {| dm_dataset := ""; dm_train_data_path := "";
                     dm_transforms := []; dm_num_large_crops := 2;
                     dm_num_small_crops := 0; dm_num_workers := 0;
                     dm_batch_size := 1; dm_no_labels := true;
                     dm_data_fraction := VNone; dm_dali_device := "gpu";
                     dm_encode_indexes_into_labels := false;
                     dm_val_dataloader := None |})
              (Some "trained_models/byol/abc/last.ckpt") (Some "abc"))
    as [Hscan _]; [reflexivity | reflexivity | reflexivity |].
  exact Hscan.
Defined.

Lemma run_no_scan env cfg model vl td :
  auto_resume_enabled (auto_resume cfg) = false ->
  resume_from_checkpoint cfg = Some None ->
  run env cfg model vl td =
  (let! hooks := assemble_callbacks env cfg model None in
   let '(callbacks, wandb_logger) := hooks in
   let! trainer := build_trainer env cfg callbacks wandb_logger in
   let! trainer := apply_workaround env trainer in
   dispatch_fit env cfg trainer model td vl None).
Proof.
  intros He Hr. unfold run.
  assert (resolve_resume env cfg = ([], inr (cfg, None, None))) as ->.
  { unfold resolve_resume, read_resume_from_checkpoint.
    rewrite Hr. simpl. by rewrite He. }
  by rewrite bind_ret_l.
Qed.

(** X5: with auto-resume switched off and no explicit path, the scan is
    never called, every [trainer.fit] call gets no checkpoint path, and a
    wandb logger, if one is built, starts a fresh run (no id, no
    resume). *)
Theorem no_resume_without_scan_or_path env raw cfg0 :
  parse_cfg env raw = inr cfg0 ->
  auto_resume_enabled (auto_resume cfg0) = false ->
  resume_from_checkpoint cfg0 = Some None ->
  Forall (fun ev =>
            is_find_checkpoint ev = false /\
            (forall t m a c, ev = trainer_fit t m a c -> c = None) /\
            (forall l, ev = construct_wandb_logger l ->
               wl_id l = None /\ wl_resume l = None))
         (trace (main env raw)).
Proof.
  intros Hp He Hr. apply main_trace.
  - eapply Forall_impl; [apply startup_trace|]. by intros [].
  - intros t cfg model vl _.
    eapply Forall_impl; [apply pretrain_data_trace|].
    intros ev. by destruct (format (data cfg) =? "dali")%string, ev.
  - intros t cfg model vl t' td Hst _.
    apply startup_inv in Hst as (cfg0' & n & kw & Hp' & _ & -> & _).
    rewrite Hp in Hp'. injection Hp' as <-.
    rewrite run_no_scan by done. apply trace_bind_Forall.
    + apply assemble_callbacks_events. intros ev Hw _ Hev.
      split_and!; [by destruct ev | intros ? ? ? ? ->; done |].
      intros l ->. by rewrite (Hev _ eq_refl).
    + intros t1 [cbs wl] _. apply run_trainer_stage; try done.
      intros t0 a0. split_and!; [done | | done].
      by intros ? ? ? ? [= _ _ _ <-].
Qed.

Lemma no_resume_without_scan_or_path_witness :
  Forall (fun ev => is_find_checkpoint ev = false)
         (trace (main Sample.env Sample2.cfg_auto_resume_off)) /\
  outcome (main Sample.env Sample2.cfg_auto_resume_off) = inr tt.
Proof.
  split; [|vm_compute; reflexivity].
  eapply Forall_impl;
    [apply (no_resume_without_scan_or_path
              Sample.env Sample2.cfg_auto_resume_off
              Sample2.cfg_auto_resume_off); reflexivity|].
  by intros ev [H _].
Defined.

(** ** The trainer's keyword arguments, continued *)

Lemma select_valid_lookup_eq valid (c : gmap string value) k :
  select_valid valid c !! k
  = if bool_decide (k ∈ valid) then KwValue <$> c !! k else None.
Proof.
  unfold select_valid, omap. induction valid as [|nm valid IH].
  - simpl. apply lookup_empty.
  - cbn [list_omap]. destruct (decide (k = nm)) as [Heq|Hne].
    + rewrite (bool_decide_eq_true_2 (k ∈ nm :: valid))
        by (subst; apply list_elem_of_here).
      subst nm. destruct (c !! k) as [v|] eqn:Hv; cbn [fmap option_fmap option_map].
      * cbn [list_to_map foldr]. by rewrite lookup_insert_eq.
      * rewrite IH. by destruct (bool_decide _).
    + assert (bool_decide (k ∈ nm :: valid) = bool_decide (k ∈ valid)) as ->.
      { apply bool_decide_ext. rewrite elem_of_cons.
        split; [by intros [?|?] | by right]. }
      destruct (c !! nm) as [v|]; cbn [fmap option_fmap option_map]; [|done].
      cbn [list_to_map foldr]. by rewrite lookup_insert_ne.
Qed.

Lemma make_trainer_kwargs_lookup env cfg cbs wl k :
  k ∉ overridden_keys ->
  make_trainer_kwargs env cfg cbs wl !! k
  = if bool_decide (k ∈ trainer_parameters env)
    then KwValue <$> to_container cfg !! k
    else None.
Proof.
  intros Hk. unfold make_trainer_kwargs.
  rewrite !lookup_insert_ne
    by (intros <-; apply Hk, list_elem_of_In; simpl; tauto).
  apply select_valid_lookup_eq.
Qed.

(** X6: a configuration key that [Trainer.__init__] declares and that is
    not one of the four keys the script sets reaches the constructor with
    its configured value; a key the constructor does not declare (and the
    script does not set) is not passed at all. *)
Theorem declared_keys_pass_through env cfg cbs wl k :
  k ∉ overridden_keys ->
  make_trainer_kwargs env cfg cbs wl !! k
  = if bool_decide (k ∈ trainer_parameters env)
    then KwValue <$> to_container cfg !! k
    else None.
Proof.
  intros Hk. unfold make_trainer_kwargs.
  assert (forall k', k' ∈ overridden_keys -> k' <> k) as Hne.
  { intros k' Hk' ->. by apply Hk. }
  rewrite !lookup_insert_ne
    by (apply Hne, list_elem_of_In; simpl; tauto).
  apply select_valid_lookup_eq.
Qed.

Lemma declared_keys_pass_through_witness :
  Sample.trainer_kwargs_passed !! "max_epochs" = Some (KwValue (VInt 400)) /\
  Sample.trainer_kwargs_passed !! "seed" = None.
Proof.
  assert (Sample.trainer_kwargs_passed
          = make_trainer_kwargs Sample.env Sample.cfg
              (hooks_of Sample.cfg
                 (BaseMomentumMethod Sample.weights Sample.weights)) None)
    as ->.
  { vm_compute. reflexivity. }
  rewrite !declared_keys_pass_through.
  - split; vm_compute; reflexivity.
  - unfold overridden_keys. intros H. apply list_elem_of_In in H. simpl in H.
    repeat (destruct H as [H|H]; [discriminate H|]). exact H.
  - unfold overridden_keys. intros H. apply list_elem_of_In in H. simpl in H.
    repeat (destruct H as [H|H]; [discriminate H|]). exact H.
Defined.

Lemma to_container_without_resume cfg :
  resume_from_checkpoint cfg = None ->
  "resume_from_checkpoint" ∉ (extra cfg).*1 ->
  to_container cfg !! "resume_from_checkpoint" = None.
Proof.
  intros Hr Hex. unfold to_container. apply not_elem_of_list_to_map_1.
  rewrite fmap_app. apply not_elem_of_app. split; [|done].
  unfold known_items. rewrite Hr. simpl.
  intros H. apply list_elem_of_In in H. simpl in H.
  repeat (destruct H as [H|H]; [discriminate H|]). exact H.
Qed.

Lemma to_container_with_resume cfg r :
  resume_from_checkpoint cfg = Some r ->
  to_container cfg !! "resume_from_checkpoint" = Some (of_opt_str r).
Proof.
  intros Hr. unfold to_container, known_items. rewrite Hr. simpl.
  by repeat (rewrite lookup_insert_ne by done); rewrite lookup_insert_eq.
Qed.

Lemma run_construct_trainer_from env cfg model vl td :
  Forall (fun ev => forall kw, ev = construct_trainer kw ->
            exists t cfg' ckpt run_id cbs wl,
              resolve_resume env cfg = (t, inr (cfg', ckpt, run_id)) /\
              kw = make_trainer_kwargs env cfg' cbs wl)
         (trace (run env cfg model vl td)).
Proof.
  unfold run. apply trace_bind_Forall.
  { eapply Forall_impl; [apply resolve_resume_trace|]. by intros []. }
  intros t0 [[cfg' ckpt] run_id] Hres. apply trace_bind_Forall.
  { eapply Forall_impl; [apply assemble_callbacks_trace|]. by intros []. }
  intros t1 [cbs wl] _. apply run_trainer_stage; try done.
  intros kw [= <-]. by exists t0, cfg', ckpt, run_id, cbs, wl.
Qed.

Lemma resolve_resume_cfg env cfg t cfg' ckpt run_id :
  resolve_resume env cfg = (t, inr (cfg', ckpt, run_id)) ->
  match resume_from_checkpoint cfg with
  | Some (Some p) => cfg' = del_resume_from_checkpoint cfg /\ ckpt = Some p
  | Some None => cfg' = cfg
  | None => False
  end.
Proof.
  unfold resolve_resume, read_resume_from_checkpoint.
  destruct (resume_from_checkpoint cfg) as [[p|]|]; simpl; [| |done].
  - rewrite andb_false_r. by intros [= _ <- <- _].
  - destruct (auto_resume_enabled (auto_resume cfg)); simpl.
    + destruct (auto_resumer_find env _ _ _) as [e|[r w]]; simpl; [done|].
      by intros [= _ <- _ _].
    + by intros [= _ <- _ _].
Qed.

(** X7: an explicit resume path reaches the engine through
    [trainer.fit] only: the key is deleted before the keyword arguments
    are collected, so the [Trainer] constructor does not get
    [resume_from_checkpoint] even if it declares it; with no explicit path
    the key stays and is passed, as [None], when the constructor declares
    it.  (The other top-level keys are taken not to repeat the name.) *)
Theorem explicit_path_not_passed_to_constructor env raw cfg0 kw :
  parse_cfg env raw = inr cfg0 ->
  "resume_from_checkpoint" ∉ (extra cfg0).*1 ->
  construct_trainer kw ∈ trace (main env raw) ->
  (forall p, resume_from_checkpoint cfg0 = Some (Some p) ->
             kw !! "resume_from_checkpoint" = None) /\
  (resume_from_checkpoint cfg0 = Some None ->
   kw !! "resume_from_checkpoint"
   = if bool_decide ("resume_from_checkpoint" ∈ trainer_parameters env)
     then Some (KwValue VNone) else None).
Proof.
  intros Hp Hex Hin.
  assert (Forall (fun ev => forall kw', ev = construct_trainer kw' ->
            exists n kw0 t cfg' ckpt run_id cbs wl,
              resolve_resume env (set_backbone_kwargs (set_name cfg0 n) kw0)
                = (t, inr (cfg', ckpt, run_id)) /\
              kw' = make_trainer_kwargs env cfg' cbs wl)
                 (trace (main env raw))) as Hall.
  { apply main_trace.
    - eapply Forall_impl; [apply startup_trace|]. by intros [].
    - intros t cfg model vl _.
      eapply Forall_impl; [apply pretrain_data_trace|].
      intros ev. by destruct (format (data cfg) =? "dali")%string, ev.
    - intros t cfg model vl t' td Hst _.
      apply startup_inv in Hst as (cfg0' & n & kw0 & Hp' & _ & -> & _).
      rewrite Hp in Hp'. injection Hp' as <-.
      eapply Forall_impl; [apply run_construct_trainer_from|].
      intros ev Hev kw' ->.
      destruct (Hev _ eq_refl) as (t0 & cfg' & ckpt & rid & cbs & wl & Hres & ->).
      by exists n, kw0, t0, cfg', ckpt, rid, cbs, wl. }
  rewrite Forall_forall in Hall.
  destruct (Hall _ Hin _ eq_refl)
    as (n & kw0 & t0 & cfg' & ckpt & rid & cbs & wl & Hres & ->).
  apply resolve_resume_cfg in Hres. simpl in Hres.
  assert ("resume_from_checkpoint" ∉ overridden_keys) as Hk.
  { unfold overridden_keys. intros H. apply list_elem_of_In in H. simpl in H.
    repeat (destruct H as [H|H]; [discriminate H|]). exact H. }
  rewrite make_trainer_kwargs_lookup by done.
  split.
  - intros p Hr. rewrite Hr in Hres. destruct Hres as [-> _].
    rewrite to_container_without_resume by done. by destruct (bool_decide _).
  - intros Hr. rewrite Hr in Hres. subst cfg'.
    by rewrite (to_container_with_resume _ None).
Qed.

Lemma explicit_path_not_passed_witness :
  exists kw,
    construct_trainer kw ∈ trace (main Sample.env Sample.cfg_explicit_resume) /\
    kw !! "resume_from_checkpoint" = None /\
    Sample.trainer_kwargs_passed !! "resume_from_checkpoint"
      = Some (KwValue VNone).
Proof.
  assert (exists kw,
             nth_error (trace (main Sample.env Sample.cfg_explicit_resume)) 11
             = Some (construct_trainer kw)) as [kw Hkw].
  { vm_compute. eexists. reflexivity. }
  assert (construct_trainer kw
            ∈ trace (main Sample.env Sample.cfg_explicit_resume)) as Hin.
  { apply list_elem_of_In. eapply nth_error_In, Hkw. }
  assert ("resume_from_checkpoint" ∉ (extra Sample.cfg).*1) as Hex.
  { intros H. apply list_elem_of_In in H. simpl in H.
    repeat (destruct H as [H|H]; [discriminate H|]). exact H. }
  exists kw. split; [exact Hin|]. split.
  - destruct (explicit_path_not_passed_to_constructor
                Sample.env Sample.cfg_explicit_resume
                Sample.cfg_explicit_resume kw) as [Hnone _];
      [reflexivity | exact Hex | exact Hin |].
    eapply Hnone. reflexivity.
  - destruct (explicit_path_not_passed_to_constructor
                Sample.env Sample.cfg Sample.cfg Sample.trainer_kwargs_passed)
      as [_ Hsome]; [reflexivity | exact Hex | |].
    + apply list_elem_of_In. apply (nth_error_In _ 12). vm_compute. reflexivity.
    + rewrite Hsome by reflexivity. vm_compute. reflexivity.
Defined.

(** ** The hooks and the logger, continued *)

Lemma assemble_callbacks_enabled env cfg model run_id tr cbs wl :
  assemble_callbacks env cfg model run_id = (tr, inr (cbs, wl)) ->
  wandb_enabled (wandb cfg) = true ->
  tr = [construct_wandb_logger (wandb_logger_of cfg run_id);
        wandb_watch model; wandb_log_hyperparams (to_container cfg)].
Proof.
  intros H Hen. revert H.
  unfold assemble_callbacks, wandb_logger_of, call, py_assert, bind, ret, raise.
  rewrite Hen.
  destruct (checkpoint_enabled (checkpoint cfg)),
    (auto_umap_enabled (auto_umap cfg)), (_umap_available env); simpl;
    repeat (destruct (raises env _); simpl; try done);
    by intros [= <- _ _].
Qed.

Lemma build_trainer_trace env cfg cbs wl :
  trace (build_trainer env cfg cbs wl)
  = [construct_trainer (make_trainer_kwargs env cfg cbs wl)].
Proof.
  unfold build_trainer, call, bind, ret. by destruct (raises env _).
Qed.

(** X8: with wandb disabled no wandb call is made (no logger is built,
    nothing is watched, no hyperparameters are logged) and the [Trainer]
    constructor gets [logger=None].  With wandb enabled, a run that gets
    to the [Trainer] constructor has built one wandb logger, and only
    one: named by the expanded run name, with the configured project,
    entity and offline switch, and with the run id the resume stage
    returned as its id (resuming exactly when that id is non-empty); it
    then watched the model and logged the configuration, in this order
    and before the constructor; and that logger is the constructor's
    [logger] argument. *)
Theorem logger_follows_wandb_toggle env raw cfg0 :
  parse_cfg env raw = inr cfg0 ->
  if wandb_enabled (wandb cfg0)
  then
    forall kw, construct_trainer kw ∈ trace (main env raw) ->
      exists n t cfg model vl t0 cfg' ckpt run_id l pre post,
        format_name env cfg0 = inr n /\
        startup env raw = (t, inr (cfg, model, vl)) /\
        resolve_resume env cfg = (t0, inr (cfg', ckpt, run_id)) /\
        l = {| wl_name := n;
               wl_project := project (wandb cfg0);
               wl_entity := entity (wandb cfg0);
               wl_offline := offline (wandb cfg0);
               wl_resume := wandb_resume run_id;
               wl_id := run_id |} /\
        kw !! "logger" = Some (KwLogger l) /\
        trace (main env raw)
        = pre ++ [construct_wandb_logger l; wandb_watch model;
                  wandb_log_hyperparams (to_container cfg')] ++ post /\
        Forall (fun ev => wandb_event ev = false) pre /\
        Forall (fun ev => wandb_event ev = false) post /\
        construct_trainer kw ∈ post
  else
    Forall (fun ev =>
              wandb_event ev = false /\
              forall kw, ev = construct_trainer kw ->
                         kw !! "logger" = Some (KwValue VNone))
           (trace (main env raw)).
Proof.
  intros Hp. destruct (wandb_enabled (wandb cfg0)) eqn:Hen.
  - intros kw Hin.
    apply main_construct_trainer_inv in Hin
      as (t & cfg & model & vl & t1 & td & t0 & cfg' & ckpt & rid & tr & cbs
          & wl & Hst & Hd & Hres & Hasm & ->).
    pose proof Hst as (cfg0' & n & kw0 & Hp' & Hn & Hcfg & _)%startup_inv.
    rewrite Hp in Hp'. injection Hp' as <-.
    pose proof (resolve_resume_inv _ _ _ _ _ _ Hres) as Hc.
    assert (name cfg' = n /\ wandb cfg' = wandb cfg0) as [Hname Hw].
    { subst cfg. by destruct Hc as [->| ->]. }
    pose proof (assemble_callbacks_logger_inv _ _ _ _ _ _ _ Hasm) as Hwl.
    rewrite Hw, Hen in Hwl.
    assert (wandb_enabled (wandb cfg') = true) as Hen' by (by rewrite Hw).
    pose proof (assemble_callbacks_enabled _ _ _ _ _ _ _ Hasm Hen') as Htr.
    exists n, t, cfg, model, vl, t0, cfg', ckpt, rid,
      (wandb_logger_of cfg' rid), (t ++ t1 ++ t0),
      (trace (let! trainer := build_trainer env cfg' cbs wl in
              let! trainer := apply_workaround env trainer in
              dispatch_fit env cfg' trainer model td vl ckpt)).
    split_and!; try done.
    + unfold wandb_logger_of. by rewrite Hname, Hw.
    + destruct (make_trainer_kwargs_overrides env cfg' cbs wl) as (-> & _).
      by rewrite Hwl.
    + unfold main. rewrite (trace_bind_ok _ _ _ _ Hst). cbv beta iota.
      rewrite (trace_bind_ok _ _ _ _ Hd). unfold run.
      rewrite (trace_bind_ok _ _ _ _ Hres). cbv beta iota.
      rewrite (trace_bind_ok _ _ _ _ Hasm). cbv beta iota.
      rewrite Htr. by rewrite <- !app_assoc.
    + rewrite !Forall_app. split_and!.
      * pose proof (startup_trace env raw) as H. rewrite Hst in H.
        eapply Forall_impl; [exact H|]. by intros [].
      * pose proof (pretrain_data_trace env cfg vl) as H. rewrite Hd in H.
        eapply Forall_impl; [exact H|]. intros ev.
        by destruct (format (data cfg) =? "dali")%string, ev.
      * pose proof (resolve_resume_trace env cfg) as H. rewrite Hres in H.
        eapply Forall_impl; [exact H|]. by intros [].
    + by apply run_trainer_stage.
    + match goal with |- context [trace (bind ?m ?k)] =>
        destruct (trace_bind_prefix m k) as [rest ->] end.
      rewrite build_trainer_trace. apply list_elem_of_here.
  - apply main_trace.
    + eapply Forall_impl; [apply startup_trace|]. by intros [].
    + intros t cfg model vl _.
      eapply Forall_impl; [apply pretrain_data_trace|].
      intros ev. by destruct (format (data cfg) =? "dali")%string, ev.
    + intros t cfg model vl t' td Hst _.
      apply startup_inv in Hst as (cfg0' & n & kw0 & Hp' & _ & -> & _).
      rewrite Hp in Hp'. injection Hp' as <-.
      apply Forall_and. split.
      * unfold run. apply trace_bind_Forall.
        { eapply Forall_impl; [apply resolve_resume_trace|]. by intros []. }
        intros t0 [[cfg' ckpt] run_id] Hres%resolve_resume_inv.
        apply trace_bind_Forall.
        { apply assemble_callbacks_events. intros ev _ Hon _.
          destruct Hres as [->| ->]; simpl in Hon; congruence. }
        intros t1 [cbs wl] _. by apply run_trainer_stage.
      * eapply Forall_impl; [apply run_construct_trainer|]. simpl.
        intros ev Hev kw ->.
        destruct (Hev _ eq_refl) as (cfg' & rid & tr & cbs & wl & Hc & Hasm & ->).
        assert (wandb cfg' = wandb cfg0) as Hw by (by destruct Hc as [->| ->]).
        destruct (make_trainer_kwargs_overrides env cfg' cbs wl) as (-> & _).
        rewrite (assemble_callbacks_logger_inv _ _ _ _ _ _ _ Hasm).
        by rewrite Hw, Hen.
Qed.

Lemma logger_follows_wandb_toggle_witness :
  Forall (fun ev => wandb_event ev = false)
         (trace (main Sample.env Sample.cfg)) /\
  Sample.trainer_kwargs_passed !! "logger" = Some (KwValue VNone) /\
  exists kw post,
    kw !! "logger"
      = Some (KwLogger {| wl_name := "byol-acdc-byol"; wl_project := "ssl";
                          wl_entity := None; wl_offline := true;
                          wl_resume := Some "allow"; wl_id := Some "abc" |}) /\
    construct_wandb_logger {| wl_name := "byol-acdc-byol"; wl_project := "ssl";
                              wl_entity := None; wl_offline := true;
                              wl_resume := Some "allow"; wl_id := Some "abc" |}
      ∈ trace (main Sample2.env_found Sample2.cfg_wandb) /\
    construct_trainer kw ∈ post /\
    Forall (fun ev => wandb_event ev = false) post.
Proof.
  pose proof (logger_follows_wandb_toggle Sample.env Sample.cfg Sample.cfg
                eq_refl) as Hoff.
  pose proof (logger_follows_wandb_toggle Sample2.env_found Sample2.cfg_wandb
                Sample2.cfg_wandb eq_refl) as Hon.
  change (Forall (fun ev =>
              wandb_event ev = false /\
              forall kw, ev = construct_trainer kw ->
                         kw !! "logger" = Some (KwValue VNone))
            (trace (main Sample.env Sample.cfg))) in Hoff.
  split_and!.
  - eapply Forall_impl; [exact Hoff|]. by intros ev [H _].
  - rewrite Forall_forall in Hoff.
    destruct (Hoff (construct_trainer Sample.trainer_kwargs_passed)) as [_ Hkw].
    + apply list_elem_of_In. apply (nth_error_In _ 12). vm_compute. reflexivity.
    + exact (Hkw _ eq_refl).
  - assert (exists kw,
               nth_error (trace (main Sample2.env_found Sample2.cfg_wandb)) 15
               = Some (construct_trainer kw)) as [kw Hnth].
    { vm_compute. eexists. reflexivity. }
    assert (construct_trainer kw
              ∈ trace (main Sample2.env_found Sample2.cfg_wandb)) as Hin.
    { apply list_elem_of_In. eapply nth_error_In, Hnth. }
    destruct (Hon kw Hin)
      as (n & t & cfg & model & vl & t0 & cfg' & ckpt & rid & l & pre & post
          & Hn & Hst & Hres & Hl & Hlog & Htr & _ & Hpost & Hkw).
    injection Hn as <-.
    destruct (startup Sample2.env_found Sample2.cfg_wandb)
      as [ts [e|[[c m] v]]] eqn:Hval; [discriminate Hst|].
    vm_compute in Hval. injection Hval as _ <- _ _.
    injection Hst as _ <- _ _.
    vm_compute in Hres. injection Hres as _ _ _ <-.
    exists kw, post. split_and!.
    + rewrite Hlog, Hl. reflexivity.
    + rewrite Htr, Hl. apply elem_of_app. right. apply list_elem_of_here.
    + exact Hkw.
    + exact Hpost.
Defined.

Lemma assemble_callbacks_umap_missing env cfg model run_id :
  auto_umap_enabled (auto_umap cfg) = true ->
  _umap_available env = false ->
  assemble_callbacks env cfg model run_id
  = raise (AssertionError (Some umap_msg)).
Proof.
  intros He Hu. unfold assemble_callbacks. rewrite He, Hu.
  by destruct (checkpoint_enabled (checkpoint cfg)).
Qed.

(** X9: with the embedding visualisation enabled and its import failed,
    the hook assembly raises the assertion with the umap install message
    before any wandb call, so that [main] fails without ever building the
    [Trainer] or starting the fit. *)
Theorem umap_without_dependency_fails env raw cfg0 :
  parse_cfg env raw = inr cfg0 ->
  auto_umap_enabled (auto_umap cfg0) = true ->
  _umap_available env = false ->
  (forall cfg model run_id,
      auto_umap cfg = auto_umap cfg0 ->
      assemble_callbacks env cfg model run_id
      = ([], inl (AssertionError (Some umap_msg)))) /\
  (exists e, outcome (main env raw) = inl e) /\
  Forall (fun ev => is_trainer_stage ev = false /\ wandb_event ev = false)
         (trace (main env raw)).
Proof.
  intros Hp He Hu.
  assert (forall cfg model run_id,
      auto_umap cfg = auto_umap cfg0 ->
      assemble_callbacks env cfg model run_id
      = ([], inl (AssertionError (Some umap_msg)))) as Hasm.
  { intros cfg model run_id Heq. apply assemble_callbacks_umap_missing; [|done].
    by rewrite Heq. }
  assert (forall t cfg model vl td,
      startup env raw = (t, inr (cfg, model, vl)) ->
      (exists e, outcome (run env cfg model vl td) = inl e) /\
      Forall (fun ev => is_trainer_stage ev = false /\ wandb_event ev = false)
             (trace (run env cfg model vl td))) as Hrun.
  { intros t cfg model vl td Hst.
    apply startup_inv in Hst as (cfg0' & n & kw0 & Hp' & _ & -> & _).
    rewrite Hp in Hp'. injection Hp' as <-.
    unfold run.
    pose proof (resolve_resume_trace env
                  (set_backbone_kwargs (set_name cfg0 n) kw0)) as Htr.
    destruct (resolve_resume env _) as [t0 [e|[[cfg' ckpt] rid]]] eqn:Hres.
    - rewrite (bind_err _ _ _ _ eq_refl). split; [by eexists|].
      eapply Forall_impl; [exact Htr|]. by intros [].
    - rewrite (bind_ok _ _ _ _ eq_refl).
      rewrite Hasm by (by destruct (resolve_resume_inv _ _ _ _ _ _ Hres)
                            as [->| ->]).
      rewrite (bind_err _ _ _ _ eq_refl). simpl. split; [by eexists|].
      rewrite app_nil_r. eapply Forall_impl; [exact Htr|]. by intros []. }
  split; [done|].
  assert (Forall (fun ev => is_trainer_stage ev = false /\ wandb_event ev = false)
                 (trace (main env raw))) as Hall.
  { apply main_trace.
    - eapply Forall_impl; [apply startup_trace|]. by intros [].
    - intros t cfg model vl _.
      eapply Forall_impl; [apply pretrain_data_trace|].
      intros ev. by destruct (format (data cfg) =? "dali")%string, ev.
    - intros t cfg model vl t' td Hst _. by eapply Hrun. }
  split; [|done]. unfold main.
  destruct (startup env raw) as [t [e|[[cfg model] vl]]] eqn:Hst.
  { rewrite (bind_err _ _ _ _ eq_refl). by eexists. }
  rewrite (bind_ok _ _ _ _ eq_refl).
  destruct (pretrain_data env cfg vl) as [t1 [e|td]] eqn:Hd.
  { rewrite (bind_err _ _ _ _ eq_refl). by eexists. }
  rewrite (bind_ok _ _ _ _ eq_refl). simpl.
  by destruct (Hrun t cfg model vl td eq_refl) as [He' _].
Qed.

Lemma umap_without_dependency_witness :
  outcome (main Sample2.env_no_umap Sample2.cfg_umap)
  = inl (AssertionError
           (Some "UMAP is not currently avaiable, please install it first with [umap].")) /\
  Forall (fun ev => is_trainer_stage ev = false /\ wandb_event ev = false)
         (trace (main Sample2.env_no_umap Sample2.cfg_umap)).
Proof.
  destruct (umap_without_dependency_fails
              Sample2.env_no_umap Sample2.cfg_umap Sample2.cfg_umap)
    as (_ & _ & Hall); [reflexivity | reflexivity | reflexivity |].
  split; [vm_compute; reflexivity | exact Hall].
Defined.

(** X10: the wandb logger and the visualisation hook carry the run name
    with its template expanded, and the logger the configured project,
    entity and offline flag. *)
Theorem expanded_name_is_used env raw cfg0 n :
  parse_cfg env raw = inr cfg0 ->
  format_name env cfg0 = inr n ->
  Forall (fun ev =>
            (forall l, ev = construct_wandb_logger l ->
               wl_name l = n /\ wl_project l = project (wandb cfg0) /\
               wl_entity l = entity (wandb cfg0) /\
               wl_offline l = offline (wandb cfg0)) /\
            (forall kw cbs run_name logdir freq,
               ev = construct_trainer kw ->
               kw !! "callbacks" = Some (KwCallbacks cbs) ->
               AutoUMAP run_name logdir freq ∈ cbs ->
               run_name = n /\
               logdir = path_join (auto_umap_dir (auto_umap cfg0)) (method cfg0)))
         (trace (main env raw)).
Proof.
  intros Hp Hn. apply main_trace.
  - eapply Forall_impl; [apply startup_trace|]. by intros [].
  - intros t cfg model vl _.
    eapply Forall_impl; [apply pretrain_data_trace|].
    intros ev. by destruct (format (data cfg) =? "dali")%string, ev.
  - intros t cfg model vl t' td Hst _.
    apply startup_inv in Hst as (cfg0' & n' & kw0 & Hp' & Hn' & -> & _).
    rewrite Hp in Hp'. injection Hp' as <-.
    rewrite Hn in Hn'. injection Hn' as <-.
    apply Forall_and. split.
    + unfold run. apply trace_bind_Forall.
      { eapply Forall_impl; [apply resolve_resume_trace|]. by intros []. }
      intros t0 [[cfg' ckpt] run_id] Hres%resolve_resume_inv.
      apply trace_bind_Forall.
      { apply assemble_callbacks_events. intros ev _ _ Hev l ->.
        rewrite (Hev _ eq_refl). by destruct Hres as [->| ->]. }
      intros t1 [cbs wl] _. by apply run_trainer_stage.
    + eapply Forall_impl; [apply run_construct_trainer|]. simpl.
      intros ev Hev kw cbs run_name logdir freq -> Hcbs Hin.
      destruct (Hev _ eq_refl) as (cfg' & rid & tr & cbs' & wl & Hc & Hasm & ->).
      destruct (make_trainer_kwargs_overrides env cfg' cbs' wl) as (_ & H2 & _).
      simpl in H2. rewrite H2 in Hcbs. injection Hcbs as <-.
      apply assemble_callbacks_inv in Hasm. subst cbs'.
      unfold hooks_of in Hin. rewrite !elem_of_app in Hin.
      assert (name cfg' = n /\ auto_umap cfg' = auto_umap cfg0 /\
              method cfg' = method cfg0) as (Hname & Hau & Hm).
      { by destruct Hc as [->| ->]. }
      destruct Hin as [Hin|[Hin|[Hin|Hin]]].
      * destruct (checkpoint_enabled _); [|by apply not_elem_of_nil in Hin].
        apply list_elem_of_singleton in Hin. discriminate Hin.
      * destruct (auto_umap_enabled _); [|by apply not_elem_of_nil in Hin].
        apply list_elem_of_singleton in Hin. injection Hin as -> -> _.
        by rewrite Hname, Hau, Hm.
      * destruct (wandb_enabled _); [|by apply not_elem_of_nil in Hin].
        apply list_elem_of_singleton in Hin. discriminate Hin.
      * destruct (checkpoint_enabled _); [|by apply not_elem_of_nil in Hin].
        apply list_elem_of_singleton in Hin. discriminate Hin.
Qed.

Lemma expanded_name_is_used_witness :
  Forall (fun ev => forall l, ev = construct_wandb_logger l ->
                              wl_name l = "byol-acdc-byol")
         (trace (main Sample2.env_found Sample2.cfg_wandb)) /\
  exists l, construct_wandb_logger l
            ∈ trace (main Sample2.env_found Sample2.cfg_wandb).
Proof.
  split.
  - eapply Forall_impl;
      [apply (expanded_name_is_used Sample2.env_found Sample2.cfg_wandb
                Sample2.cfg_wandb "byol-acdc-byol"); reflexivity|].
    intros ev [Hl _] l Heq. by destruct (Hl l Heq) as [Hname _].
  - eexists. apply list_elem_of_In. apply (nth_error_In _ 12).
    vm_compute. reflexivity.
Defined.

(** ** The training data *)

Lemma for_each_map {A B} (f : A -> M B) (g : A -> B) (l : list A) t ys :
  (forall x t' y, f x = (t', inr y) -> y = g x) ->
  for_each f l = (t, inr ys) -> ys = map g l.
Proof.
  intros Hf. revert t ys. induction l as [|x l IH]; intros t ys; simpl.
  - by intros [= _ <-].
  - intros H. apply bind_inr in H as (t1 & y & t2 & Hy & H & _).
    apply bind_inr in H as (t3 & ys' & t4 & Hys & H & _).
    injection H as _ <-. by rewrite (Hf _ _ _ Hy), (IH _ _ Hys).
Qed.

Lemma for_each_trace_length {A B} (f : A -> M B) (l : list A) t ys :
  (forall x, exists ev r, f x = ([ev], r)) ->
  for_each f l = (t, inr ys) -> length t = length l.
Proof.
  intros Hf. revert t ys. induction l as [|x l IH]; intros t ys; simpl.
  - by intros [= <- _].
  - intros H. apply bind_inr in H as (t1 & y & t2 & Hy & H & ->).
    apply bind_inr in H as (t3 & ys' & t4 & Hys & H & ->).
    injection H as <- _. destruct (Hf x) as (ev & r & Hx).
    rewrite Hx in Hy. injection Hy as <- _.
    rewrite app_nil_r. simpl. by rewrite (IH _ _ Hys).
Qed.

Lemma filter_all_true {A} (P : A -> bool) (l : list A) :
  Forall (fun x => P x = true) l -> List.filter P l = l.
Proof.
  induction 1 as [|x l Hx _ IH]; simpl; [done|]. by rewrite Hx, IH.
Qed.

Lemma call_ret_single {B} env ev (y : B) :
  exists r, (call env ev;; ret y) = ([ev], r).
Proof. unfold call, bind, ret. destruct (raises env ev); eauto. Qed.

Lemma pipelines_built {B} env (mk : AugCfg -> Event) (g : AugCfg -> B)
    (l : list AugCfg) t ys :
  (forall a, is_build_transform (mk a) = true) ->
  for_each (fun aug_cfg => call env (mk aug_cfg);; ret (g aug_cfg)) l
    = (t, inr ys) ->
  ys = map g l /\
  length (List.filter is_build_transform t) = length l.
Proof.
  intros Hmk H. split.
  - eapply for_each_map; [|exact H]. intros x t' y Hx.
    apply bind_inr in Hx as (? & ? & ? & _ & Hx & _). by injection Hx as _ <-.
  - rewrite filter_all_true.
    + eapply for_each_trace_length; [|exact H]. intros x.
      destruct (call_ret_single env (mk x) (g x)) as [r Hr]. eauto.
    + pose proof (trace_for_each_Forall
                    (fun ev => is_build_transform ev = true)
                    (fun aug_cfg => call env (mk aug_cfg);; ret (g aug_cfg)) l)
        as Htr.
      rewrite H in Htr. apply Htr. intros x. trace_steps.
Qed.

(** X11: when the training data is built, its transform is one crop stage
    per configured augmentation group, in the configured order, each with
    the group's crop count (standard pipelines on the standard backend,
    dali pipelines on the accelerated one), and one pipeline was built
    per group; the loader takes the batch size and worker count of the
    configuration, and the datamodule keeps the validation loader. *)
Theorem one_crop_stage_per_augmentation env cfg vl t td :
  pretrain_data env cfg vl = (t, inr td) ->
  match td with
  | LoaderData tl =>
      format (data cfg) <> "dali" /\
      dataset_transform (tl_dataset tl)
        = map (standard_crop (dataset (data cfg))) (augmentations cfg) /\
      tl_batch_size tl = batch_size (optimizer cfg) /\
      tl_num_workers tl = num_workers (data cfg)
  | DaliData dm =>
      format (data cfg) = "dali" /\ _dali_avaliable env = true /\
      dm_transforms dm
        = map (dali_crop (dataset (data cfg)) (dali_device (dali cfg)))
              (augmentations cfg) /\
      dm_val_dataloader dm = vl /\
      dm_batch_size dm = batch_size (optimizer cfg)
  end /\
  length (List.filter is_build_transform t) = length (augmentations cfg).
Proof.
  unfold pretrain_data.
  destruct (String.eqb_spec (format (data cfg)) "dali") as [Hf|Hf]; intros H.
  - apply bind_inr in H as (t0 & ? & ? & Has & H & ->).
    destruct (_dali_avaliable env); [|done]. injection Has as <-.
    apply bind_inr in H as (t1 & pipelines & ? & Hpipe & H & ->).
    apply bind_inr in H as (t2 & ? & ? & Hdm & H & ->).
    injection H as <- <-.
    apply (pipelines_built env
             (fun a => call_build_transform_pipeline_dali
                         (dataset (data cfg)) a (dali_device (dali cfg)))
             (dali_crop (dataset (data cfg)) (dali_device (dali cfg))))
      in Hpipe as [-> Hlen]; [|done].
    split; [by split_and!|].
    unfold call in Hdm. injection Hdm as <- _.
    rewrite app_nil_r. simpl. rewrite List.filter_app. simpl.
    by rewrite app_nil_r.
  - apply bind_inr in H as (t1 & pipelines & ? & Hpipe & H & ->).
    apply (pipelines_built env
             (fun a => call_build_transform_pipeline (dataset (data cfg)) a)
             (standard_crop (dataset (data cfg))))
      in Hpipe as [-> Hlen]; [|done].
    apply bind_inr in H as (t2 & ds & ? & Hds & H & ->).
    apply bind_inr in H as (t3 & ? & ? & Hdl & H & ->).
    injection H as <- <-. split.
    + simpl. split_and!; try done.
      destruct (custom_dataset_name (data cfg) =? "acdc")%string.
      * apply bind_inr in Hds as (? & ? & ? & _ & Hds & _).
        by injection Hds as _ <-.
      * apply bind_inr in Hds as (? & ? & ? & _ & Hds & _).
        by injection Hds as _ <-.
    + unfold call in Hdl. injection Hdl as <- _.
      rewrite app_nil_r, !List.filter_app. simpl. rewrite app_nil_r.
      assert (List.filter is_build_transform t2 = []) as ->.
      { destruct (custom_dataset_name (data cfg) =? "acdc")%string;
          apply bind_inr in Hds as (? & ? & ? & Hc & Hds & ->);
          injection Hds as <- _; unfold call in Hc; by injection Hc as <- _. }
      by rewrite app_nil_r.
Qed.

Lemma one_crop_stage_witness :
  exists t tl,
    pretrain_data Sample.env Sample.cfg None = (t, inr (LoaderData tl)) /\
    dataset_transform (tl_dataset tl)
      = [standard_crop "custom" {| num_crops := 2; aug_params := [] |}].
Proof.
  destruct (pretrain_data Sample.env Sample.cfg None) as [t [e|[dm|tl]]] eqn:H.
  - vm_compute in H. discriminate H.
  - vm_compute in H. discriminate H.
  - exists t, tl. split; [reflexivity|].
    destruct (one_crop_stage_per_augmentation
                Sample.env Sample.cfg None t (LoaderData tl) H)
      as [(_ & Htr & _) _].
    exact Htr.
Defined.

Lemma pretrain_data_events env cfg vl :
  Forall (fun ev =>
            if (format (data cfg) =? "dali")%string
            then dali_backend_event ev = true /\ _dali_avaliable env = true
            else standard_backend_event ev = true /\
                 (forall d, ev = call_prepare_datasets d ->
                    (custom_dataset_name (data cfg) =? "acdc")%string = false) /\
                 (forall r, ev = construct_acdc_dataset r ->
                    (custom_dataset_name (data cfg) =? "acdc")%string = true /\
                    r = expanduser env (train_path (data cfg))))
         (trace (pretrain_data env cfg vl)).
Proof.
  unfold pretrain_data.
  destruct (format (data cfg) =? "dali")%string.
  - apply trace_bind_Forall; [by rewrite trace_py_assert|].
    intros t u Has. destruct (_dali_avaliable env); [|done]. trace_steps.
  - trace_steps. split_and!; [done | done |]. by intros r [= <-].
Qed.

Lemma run_fit_args env cfg model vl td :
  Forall (fun ev => forall t m a c, ev = trainer_fit t m a c ->
            match a with
            | FitDataModule _ => (format (data cfg) =? "dali")%string = true
            | FitLoaders _ _ => (format (data cfg) =? "dali")%string = false
            end)
         (trace (run env cfg model vl td)).
Proof.
  unfold run. apply trace_bind_Forall.
  { eapply Forall_impl; [apply resolve_resume_trace|]. by intros []. }
  intros t0 [[cfg' ckpt] run_id] Hres%resolve_resume_inv.
  assert (data cfg' = data cfg) as Hd by (by destruct Hres as [->| ->]).
  apply trace_bind_Forall.
  { eapply Forall_impl; [apply assemble_callbacks_trace|]. by intros []. }
  intros t1 [cbs wl] _. apply trace_bind_Forall.
  { unfold build_trainer. trace_steps. }
  intros t2 trainer _. apply trace_bind_Forall.
  { unfold apply_workaround. trace_steps. }
  intros t3 trainer' _. unfold dispatch_fit. rewrite Hd.
  destruct (format (data cfg) =? "dali")%string; trace_steps.
  all: by intros ? ? ? ? [= _ _ <- _].
Qed.

(** X12: the backend named by [data.format] decides everything about the
    training data: calls of the accelerated backend are made only for
    "dali" (and only with its import available), calls of the standard
    backend only otherwise, and [trainer.fit] gets a datamodule for "dali"
    and the two loaders otherwise. *)
Theorem backend_decides_data_and_fit env raw cfg0 :
  parse_cfg env raw = inr cfg0 ->
  Forall (fun ev =>
            (dali_backend_event ev = true ->
               format (data cfg0) = "dali" /\ _dali_avaliable env = true) /\
            (standard_backend_event ev = true -> format (data cfg0) <> "dali") /\
            (forall t m a c, ev = trainer_fit t m a c ->
               match a with
               | FitDataModule _ => format (data cfg0) = "dali"
               | FitLoaders _ _ => format (data cfg0) <> "dali"
               end))
         (trace (main env raw)).
Proof.
  intros Hp. apply main_trace.
  - eapply Forall_impl; [apply startup_trace|]. by intros [].
  - intros t cfg model vl Hst.
    apply startup_inv in Hst as (cfg0' & n & kw0 & Hp' & _ & -> & _).
    rewrite Hp in Hp'. injection Hp' as <-.
    eapply Forall_impl; [apply pretrain_data_events|]. simpl.
    intros ev Hev.
    destruct (String.eqb_spec (format (data cfg0)) "dali") as [Hf|Hf].
    + destruct Hev as [Hd Hav]. split_and!; [done | | by destruct ev].
      intros Hs. by destruct ev.
    + destruct Hev as [Hs _]. split_and!; [ | done | by destruct ev].
      intros Hd. by destruct ev.
  - intros t cfg model vl t' td Hst _.
    apply startup_inv in Hst as (cfg0' & n & kw0 & Hp' & _ & -> & _).
    rewrite Hp in Hp'. injection Hp' as <-.
    pose proof (conj (run_trace env (set_backbone_kwargs (set_name cfg0 n) kw0)
                        model vl td)
                     (run_fit_args env (set_backbone_kwargs (set_name cfg0 n) kw0)
                        model vl td)) as H.
    apply Forall_and in H. eapply Forall_impl; [exact H|]. simpl.
    intros ev [Hr Hfit]. split_and!; [by destruct ev | by destruct ev |].
    intros t0 m a c ->. specialize (Hfit _ _ _ _ eq_refl).
    destruct a.
    + by apply String.eqb_eq.
    + by apply String.eqb_neq.
Qed.

Lemma backend_decides_witness :
  Forall (fun ev => dali_backend_event ev = false)
         (trace (main Sample.env Sample.cfg)) /\
  exists t m dm c,
    trainer_fit t m (FitDataModule dm) c
    ∈ trace (main Sample2.env_found Sample2.cfg_cifar_dali).
Proof.
  split.
  - eapply Forall_impl;
      [apply (backend_decides_data_and_fit Sample.env Sample.cfg Sample.cfg);
       reflexivity|].
    intros ev (Hd & _). destruct (dali_backend_event ev); [|reflexivity].
    destruct Hd as [Hf _]; [reflexivity|]. discriminate Hf.
  - assert (exists t m a c,
               nth_error (trace (main Sample2.env_found Sample2.cfg_cifar_dali)) 11
               = Some (trainer_fit t m a c)) as (t & m & a & c & Hnth).
    { vm_compute. do 4 eexists. reflexivity. }
    assert (trainer_fit t m a c
              ∈ trace (main Sample2.env_found Sample2.cfg_cifar_dali)) as Hin.
    { apply list_elem_of_In. eapply nth_error_In, Hnth. }
    pose proof (backend_decides_data_and_fit
                  Sample2.env_found Sample2.cfg_cifar_dali
                  Sample2.cfg_cifar_dali eq_refl) as H.
    rewrite Forall_forall in H. destruct (H _ Hin) as (_ & _ & Hfit).
    specialize (Hfit _ _ _ _ eq_refl). destruct a as [dm|tl vl'].
    + by exists t, m, dm, c.
    + exfalso. apply Hfit. reflexivity.
Defined.

Lemma for_each_calls_ok {B} env (mk : AugCfg -> Event) (g : AugCfg -> B)
    (l : list AugCfg) :
  Forall (fun a => raises env (mk a) = None) l ->
  for_each (fun aug_cfg => call env (mk aug_cfg);; ret (g aug_cfg)) l
  = (map mk l, inr (map g l)).
Proof.
  induction 1 as [|a l Ha _ IH]; cbn [for_each map]; [done|].
  rewrite IH. unfold call, bind, ret. rewrite Ha. simpl.
  by rewrite app_nil_r.
Qed.

(** The standard branch of lines 172-199, call by call. *)
Lemma pretrain_data_standard env cfg vl :
  (format (data cfg) =? "dali")%string = false ->
  pretrain_data env cfg vl =
  (let d := data cfg in
   let! pipelines :=
     for_each (fun aug_cfg =>
       call env (call_build_transform_pipeline (dataset d) aug_cfg);;
       ret (standard_crop (dataset d) aug_cfg))
       (augmentations cfg) in
   let! train_dataset :=
     if (custom_dataset_name d =? "acdc")%string then
       call env (construct_acdc_dataset (expanduser env (train_path d)));;
       ret (ACDCDatasetUnlabeleld (expanduser env (train_path d)) pipelines)
     else
       call env (call_prepare_datasets
                   (prepare_datasets (dataset d) pipelines (train_path d)
                      (format d) (no_labels d) (fraction d)));;
       ret (prepare_datasets (dataset d) pipelines (train_path d)
              (format d) (no_labels d) (fraction d)) in
   call env (prepare_dataloader
               {| tl_dataset := train_dataset;
                  tl_batch_size := batch_size (optimizer cfg);
                  tl_num_workers := num_workers d |});;
   ret (LoaderData {| tl_dataset := train_dataset;
                      tl_batch_size := batch_size (optimizer cfg);
                      tl_num_workers := num_workers d |})).
Proof. unfold pretrain_data. by intros ->. Qed.

Lemma pretrain_data_dataset env cfg vl :
  Forall (fun ev =>
            (forall ds, ev = call_prepare_datasets ds ->
               (custom_dataset_name (data cfg) =? "acdc")%string = false /\
               ds = prepare_datasets (dataset (data cfg))
                      (map (standard_crop (dataset (data cfg)))
                           (augmentations cfg))
                      (train_path (data cfg)) (format (data cfg))
                      (no_labels (data cfg)) (fraction (data cfg))) /\
            (forall r, ev = construct_acdc_dataset r ->
               (custom_dataset_name (data cfg) =? "acdc")%string = true /\
               r = expanduser env (train_path (data cfg))) /\
            (forall tl, ev = prepare_dataloader tl ->
               tl_dataset tl =
               if (custom_dataset_name (data cfg) =? "acdc")%string
               then ACDCDatasetUnlabeleld
                      (expanduser env (train_path (data cfg)))
                      (map (standard_crop (dataset (data cfg)))
                           (augmentations cfg))
               else prepare_datasets (dataset (data cfg))
                      (map (standard_crop (dataset (data cfg)))
                           (augmentations cfg))
                      (train_path (data cfg)) (format (data cfg))
                      (no_labels (data cfg)) (fraction (data cfg))))
         (trace (pretrain_data env cfg vl)).
Proof.
  destruct (format (data cfg) =? "dali")%string eqn:Hf.
  - eapply Forall_impl; [apply pretrain_data_trace|]. rewrite Hf.
    by intros [].
  - rewrite (pretrain_data_standard _ _ _ Hf). cbv zeta.
    apply trace_bind_Forall; [trace_steps|]. intros tp pipelines Hpipe.
    apply (pipelines_built env
             (fun a => call_build_transform_pipeline (dataset (data cfg)) a)
             (standard_crop (dataset (data cfg))))
      in Hpipe as [-> _]; [|done].
    destruct (custom_dataset_name (data cfg) =? "acdc")%string.
    + apply trace_bind_Forall.
      { trace_steps. split_and!; [done| |done]. by intros r [= <-]. }
      intros t2 ds Hds. apply bind_inr in Hds as (? & ? & ? & _ & Hds & _).
      injection Hds as _ <-. trace_steps.
      split_and!; [done|done|]. by intros tl [= <-].
    + apply trace_bind_Forall.
      { trace_steps. split_and!; [|done|done]. by intros ds [= <-]. }
      intros t2 ds Hds. apply bind_inr in Hds as (? & ? & ? & _ & Hds & _).
      injection Hds as _ <-. trace_steps.
      split_and!; [done|done|]. by intros tl [= <-].
Qed.

Lemma pretrain_data_loader env cfg vl t tl :
  pretrain_data env cfg vl = (t, inr (LoaderData tl)) ->
  prepare_dataloader tl ∈ t.
Proof.
  intros H.
  destruct (format (data cfg) =? "dali")%string eqn:Hf.
  - apply pretrain_data_inv in H. rewrite Hf in H. by destruct H.
  - rewrite (pretrain_data_standard _ _ _ Hf) in H. cbv zeta in H.
    apply bind_inr in H as (t1 & pipelines & ? & _ & H & ->).
    apply bind_inr in H as (t2 & ds & ? & _ & H & ->).
    apply bind_inr in H as (t3 & ? & ? & Hdl & H & ->).
    injection H as <- <-. unfold call in Hdl. injection Hdl as <- _.
    rewrite !elem_of_app. right. right. left. apply list_elem_of_here.
Qed.

Lemma run_fit_train_loader env cfg model vl td :
  Forall (fun ev => forall t m tl vl' c,
            ev = trainer_fit t m (FitLoaders tl vl') c -> td = LoaderData tl)
         (trace (run env cfg model vl td)).
Proof.
  unfold run. apply trace_bind_Forall.
  { eapply Forall_impl; [apply resolve_resume_trace|]. by intros []. }
  intros t0 [[cfg' ckpt] run_id] _. apply trace_bind_Forall.
  { eapply Forall_impl; [apply assemble_callbacks_trace|]. by intros []. }
  intros t1 [cbs wl] _. apply trace_bind_Forall.
  { unfold build_trainer. trace_steps. }
  intros t2 trainer _. apply trace_bind_Forall.
  { unfold apply_workaround. trace_steps. }
  intros t3 trainer' _. unfold dispatch_fit. trace_steps.
  by intros ? ? ? ? ? [= _ _ <- _ _].
Qed.

(** The trace of [main] once startup has returned. *)
Lemma main_trace_after_startup env raw t cfg model vl :
  startup env raw = (t, inr (cfg, model, vl)) ->
  exists rest,
    trace (main env raw) = t ++ trace (pretrain_data env cfg vl) ++ rest.
Proof.
  intros Hst. unfold main. rewrite (trace_bind_ok _ _ _ _ Hst). cbv beta iota.
  match goal with |- context [trace (bind ?m ?k)] =>
    destruct (trace_bind_prefix m k) as [rest ->] end.
  by exists rest.
Qed.

(** X13: on the standard backend the training dataset is chosen by
    [data.custom_dataset_name] alone.  Only: [prepare_datasets] is called
    for no dataset named "acdc", and then on the configured dataset,
    paths, format, label switch and fraction with the transform of the
    augmentation groups; the ACDC class is built for no other name, and
    then at the user-expanded training path; the loader that is prepared,
    and the one [trainer.fit] gets, holds the dataset of the matching
    kind.  And: once startup has returned and the transform pipelines are
    built, the very next call builds the ACDC dataset for "acdc", and is
    [prepare_datasets] for every other name. *)
Theorem acdc_dataset_choice env raw cfg0 :
  parse_cfg env raw = inr cfg0 ->
  let d := data cfg0 in
  let transform := map (standard_crop (dataset d)) (augmentations cfg0) in
  let acdc := ACDCDatasetUnlabeleld (expanduser env (train_path d)) transform in
  let generic := prepare_datasets (dataset d) transform (train_path d)
                   (format d) (no_labels d) (fraction d) in
  Forall (fun ev =>
            (forall ds, ev = call_prepare_datasets ds ->
               custom_dataset_name d <> "acdc" /\ ds = generic) /\
            (forall r, ev = construct_acdc_dataset r ->
               custom_dataset_name d = "acdc" /\
               r = expanduser env (train_path d)) /\
            (forall tl, ev = prepare_dataloader tl ->
               tl_dataset tl
               = if (custom_dataset_name d =? "acdc")%string
                 then acdc else generic) /\
            (forall t m tl vl c, ev = trainer_fit t m (FitLoaders tl vl) c ->
               tl_dataset tl
               = if (custom_dataset_name d =? "acdc")%string
                 then acdc else generic))
         (trace (main env raw)) /\
  (forall t cfg model vl,
      startup env raw = (t, inr (cfg, model, vl)) ->
      format d <> "dali" ->
      Forall (fun a => raises env (call_build_transform_pipeline (dataset d) a)
                       = None)
             (augmentations cfg0) ->
      exists rest,
        trace (main env raw)
        = t ++ map (call_build_transform_pipeline (dataset d))
                   (augmentations cfg0)
            ++ (if (custom_dataset_name d =? "acdc")%string
                then construct_acdc_dataset (expanduser env (train_path d))
                else call_prepare_datasets generic) :: rest).
Proof.
  intros Hp. cbv zeta. split.
  - apply main_trace.
    + eapply Forall_impl; [apply startup_trace|]. by intros [].
    + intros t cfg model vl Hst.
      apply startup_inv in Hst as (cfg0' & n & kw0 & Hp' & _ & -> & _).
      rewrite Hp in Hp'. injection Hp' as <-.
      pose proof (conj (pretrain_data_trace env
                          (set_backbone_kwargs (set_name cfg0 n) kw0) vl)
                       (pretrain_data_dataset env
                          (set_backbone_kwargs (set_name cfg0 n) kw0) vl)) as H.
      apply Forall_and in H. eapply Forall_impl; [exact H|]. simpl.
      intros ev (Hk & Hds & Hacdc & Htl). split_and!.
      * intros ds ->. destruct (Hds _ eq_refl) as [Hn ->].
        split; [by apply String.eqb_neq|done].
      * intros r ->. destruct (Hacdc _ eq_refl) as [Hn ->].
        split; [by apply String.eqb_eq|done].
      * exact Htl.
      * intros ? ? ? ? ? ->.
        by destruct (format (data cfg0) =? "dali")%string.
    + intros t cfg model vl t' td Hst Hd.
      pose proof (conj (run_trace env cfg model vl td)
                       (run_fit_train_loader env cfg model vl td)) as H.
      apply Forall_and in H. eapply Forall_impl; [exact H|]. simpl.
      intros ev [Hr Hfit]. split_and!; [by destruct ev..|].
      intros t0 m tl vl' c ->. specialize (Hfit _ _ _ _ _ eq_refl).
      subst td. pose proof (pretrain_data_loader _ _ _ _ _ Hd) as Hin.
      pose proof (pretrain_data_dataset env cfg vl) as Hall.
      rewrite Hd in Hall. cbn [trace fst] in Hall.
      rewrite Forall_forall in Hall. destruct (Hall _ Hin) as (_ & _ & Htl).
      specialize (Htl _ eq_refl).
      apply startup_inv in Hst as (cfg0' & n & kw0 & Hp' & _ & -> & _).
      rewrite Hp in Hp'. injection Hp' as <-. exact Htl.
  - intros t cfg model vl Hst Hf Hok.
    destruct (main_trace_after_startup _ _ _ _ _ _ Hst) as [rest ->].
    apply startup_inv in Hst as (cfg0' & n & kw0 & Hp' & _ & -> & _).
    rewrite Hp in Hp'. injection Hp' as <-.
    rewrite pretrain_data_standard by (by apply String.eqb_neq).
    cbv zeta. cbn [data augmentations set_backbone_kwargs set_name].
    rewrite (for_each_calls_ok env
               (fun a => call_build_transform_pipeline (dataset (data cfg0)) a)
               (standard_crop (dataset (data cfg0))) _ Hok).
    rewrite (trace_bind_ok _ _ _ _ eq_refl).
    match goal with |- context [trace (bind ?m ?k)] =>
      destruct (trace_bind_prefix m k) as [rest' ->] end.
    destruct (custom_dataset_name (data cfg0) =? "acdc")%string.
    + match goal with |- context [trace (bind (call env ?ev) (fun _ => ret ?y))] =>
        destruct (call_ret_single env ev y) as [r ->] end.
      cbn [trace fst]. rewrite <- !app_assoc. simpl. by eexists.
    + match goal with |- context [trace (bind (call env ?ev) (fun _ => ret ?y))] =>
        destruct (call_ret_single env ev y) as [r ->] end.
      cbn [trace fst]. rewrite <- !app_assoc. simpl. by eexists.
Qed.

Lemma acdc_dataset_choice_witness :
  construct_acdc_dataset "/home/user/data/acdc"
    ∈ trace (main Sample2.env_found Sample2.cfg_acdc_home) /\
  Forall (fun ev => forall ds, ev <> call_prepare_datasets ds)
         (trace (main Sample2.env_found Sample2.cfg_acdc_home)) /\
  call_prepare_datasets
    (prepare_datasets "cifar10"
       [standard_crop "cifar10" {| num_crops := 2; aug_params := [] |}]
       "data/cifar" "image_folder" false (VFloat (-1 # 1)))
    ∈ trace (main Sample.env Sample2.cfg_cifar) /\
  Forall (fun ev => forall r, ev <> construct_acdc_dataset r)
         (trace (main Sample.env Sample2.cfg_cifar)).
Proof.
  destruct (acdc_dataset_choice Sample2.env_found Sample2.cfg_acdc_home
              Sample2.cfg_acdc_home eq_refl) as [Honly Hif].
  destruct (acdc_dataset_choice Sample.env Sample2.cfg_cifar
              Sample2.cfg_cifar eq_refl) as [Honly' Hif'].
  split_and!.
  - destruct (startup Sample2.env_found Sample2.cfg_acdc_home)
      as [t [e|[[cfg model] vl]]] eqn:Hst;
      [vm_compute in Hst; discriminate Hst|].
    destruct (Hif t cfg model vl eq_refl) as [rest Hrest].
    + discriminate.
    + repeat constructor.
    + rewrite Hrest, !elem_of_app. right. right. apply list_elem_of_here.
  - eapply Forall_impl; [exact Honly|]. intros ev (Hds & _) ds ->.
    by destruct (Hds _ eq_refl) as [Hn _].
  - destruct (startup Sample.env Sample2.cfg_cifar)
      as [t [e|[[cfg model] vl]]] eqn:Hst;
      [vm_compute in Hst; discriminate Hst|].
    destruct (Hif' t cfg model vl eq_refl) as [rest Hrest].
    + discriminate.
    + repeat constructor.
    + rewrite Hrest, !elem_of_app. right. right. apply list_elem_of_here.
  - eapply Forall_impl; [exact Honly'|]. intros ev (_ & Hacdc & _) r ->.
    by destruct (Hacdc _ eq_refl) as [Hn _].
Defined.

(** ** Model assembly, continued *)

Lemma model_assembly_constructs_registered env cfg :
  Forall (fun ev => forall m c,
            ev = construct_method m c -> is_Some (METHODS env !! m))
         (trace (model_assembly env cfg)).
Proof.
  unfold model_assembly, load_pretrained.
  destruct (pop_pretrained_weights cfg) as [p cfg1]. trace_steps.
  intros m c [= <- <-]. by eexists.
Qed.

Lemma validation_loader_events env cfg :
  Forall (fun ev => exists vl, ev = prepare_data_classification vl)
         (trace (validation_loader env cfg)).
Proof. unfold validation_loader. trace_steps. by eexists. Qed.

(** X14: whatever the configuration, a method is only ever built from a
    class of the registry, and the configuration its constructor receives
    never holds the "pretrained_weights" key among the backbone keyword
    arguments. *)
Theorem constructor_never_sees_pretrained_weights env raw :
  Forall (fun ev => forall m c,
            ev = construct_method m c ->
            is_Some (METHODS env !! m) /\
            kwargs (backbone c) !! "pretrained_weights" = None)
         (trace (main env raw)).
Proof.
  apply main_trace.
  - apply startup_trace_stages.
    + done.
    + intros t cfg _.
      pose proof (conj (model_assembly_constructs_registered env cfg)
                       (model_assembly_constructs env cfg)) as H.
      apply Forall_and in H. eapply Forall_impl; [exact H|]. cbv beta.
      intros ev [Hreg Hc] m c ->. split; [by eapply Hreg|].
      destruct (Hc _ _ eq_refl) as [_ ->].
      destruct (pop_pretrained_weights_spec cfg) as (kw & -> & Hpw & _).
      exact Hpw.
    + intros t cfg t1 cfg' model _ _.
      eapply Forall_impl; [apply validation_loader_events|].
      by intros ev [vl ->].
  - intros t cfg model vl _.
    eapply Forall_impl; [apply pretrain_data_trace|].
    intros ev. by destruct (format (data cfg) =? "dali")%string, ev.
  - intros. eapply Forall_impl; [apply run_trace|]. by intros [].
Qed.

Lemma set_backbone_kwargs_id cfg :
  set_backbone_kwargs cfg (kwargs (backbone cfg)) = cfg.
Proof. by destruct cfg as [? ? ? [? ?] ? ? ? ? ? ? ? ? ? ? ? ? ?]. Qed.

Lemma model_assembly_cfg env cfg t cfg' model :
  model_assembly env cfg = (t, inr (cfg', model)) ->
  cfg' = set_backbone_kwargs cfg
           (<["pretrained_weights" := (pop_pretrained_weights cfg).1]>
              (kwargs (backbone (pop_pretrained_weights cfg).2))).
Proof.
  unfold model_assembly.
  destruct (pop_pretrained_weights_spec cfg) as (kw & -> & _).
  cbn [fst snd]. intros H.
  apply bind_inr in H as (? & ? & ? & _ & H & _).
  apply bind_inr in H as (? & ? & ? & _ & H & _).
  apply bind_inr in H as (? & ? & ? & _ & H & _).
  apply bind_inr in H as (? & ? & ? & _ & H & _).
  apply bind_inr in H as (? & ? & ? & _ & H & _).
  by injection H as _ <- _.
Qed.

(** X15: model assembly hands the configuration back with
    "pretrained_weights" put in again under its original value ([None] if
    the key was not there), every key other than "pretrained_weights" and
    "pretrained" untouched, and "pretrained" touched only by the
    "imagenet" rule; so a configuration that had the key, with a value
    that does not trigger that rule, comes back unchanged. *)
Theorem pretrained_weights_key_restored env cfg t cfg' model :
  model_assembly env cfg = (t, inr (cfg', model)) ->
  let p := default VNone (kwargs (backbone cfg) !! "pretrained_weights") in
  kwargs (backbone cfg') !! "pretrained_weights" = Some p /\
  (forall k, k <> "pretrained_weights" -> k <> "pretrained" ->
             kwargs (backbone cfg') !! k = kwargs (backbone cfg) !! k) /\
  kwargs (backbone cfg') !! "pretrained"
    = (if (eq_str p "imagenet"
           && negb (bool_decide (is_Some (kwargs (backbone cfg) !! "pretrained"))))%bool
       then Some (VBool true)
       else kwargs (backbone cfg) !! "pretrained") /\
  (is_Some (kwargs (backbone cfg) !! "pretrained_weights") ->
   eq_str p "imagenet" = false \/
   is_Some (kwargs (backbone cfg) !! "pretrained") ->
   cfg' = cfg).
Proof.
  intros H p. apply model_assembly_cfg in H. subst cfg'.
  unfold pop_pretrained_weights. cbn [fst snd]. fold p.
  rewrite (lookup_delete_ne (kwargs (backbone cfg)) "pretrained_weights"
             "pretrained") by done.
  set (b := (eq_str p "imagenet" && _)%bool).
  simpl. split_and!.
  - by rewrite lookup_insert_eq.
  - intros k Hk1 Hk2. rewrite lookup_insert_ne by done.
    destruct b.
    + rewrite lookup_insert_ne by done. by rewrite lookup_delete_ne.
    + by rewrite lookup_delete_ne.
  - rewrite lookup_insert_ne by done. destruct b.
    + by rewrite lookup_insert_eq.
    + by rewrite lookup_delete_ne.
  - intros [v Hv] Hrule.
    assert (b = false) as ->.
    { subst b. destruct Hrule as [->|Hs]; [done|].
      rewrite (bool_decide_eq_true_2 _ Hs). by rewrite andb_false_r. }
    rewrite insert_delete_eq.
    rewrite insert_id; [apply set_backbone_kwargs_id|].
    subst p. by rewrite Hv.
Qed.

Lemma pretrained_weights_key_restored_witness :
  exists t cfg' model,
    model_assembly Sample.env Sample.cfg = (t, inr (cfg', model)) /\
    cfg' = Sample.cfg.
Proof.
  destruct (model_assembly Sample.env Sample.cfg) as [t [e|[cfg' model]]] eqn:H.
  - vm_compute in H. discriminate H.
  - exists t, cfg', model. split; [reflexivity|].
    destruct (pretrained_weights_key_restored Sample.env Sample.cfg
                t cfg' model H) as (_ & _ & _ & Hid).
    apply Hid.
    + vm_compute. by eexists.
    + left. reflexivity.
Defined.

Lemma model_assembly_channels_last env cfg :
  Forall (fun ev => ev = to_channels_last ->
                    disable_channel_last (performance cfg) = false)
         (trace (model_assembly env cfg)).
Proof.
  unfold model_assembly, load_pretrained.
  destruct (pop_pretrained_weights_spec cfg) as (kw & -> & _).
  trace_steps. intros _.
  match goal with H : negb _ = true |- _ => apply negb_true_iff in H end.
  done.
Qed.

(** X16: the model is moved to the channels-last layout only when that
    is not disabled; a model assembly that completes ends by making the
    model contiguous and then, unless disabled, by that move. *)
Theorem channels_last_follows_toggle env raw cfg0 :
  parse_cfg env raw = inr cfg0 ->
  Forall (fun ev => ev = to_channels_last ->
                    disable_channel_last (performance cfg0) = false)
         (trace (main env raw)) /\
  (forall t cfg res,
      ingest env raw = (t, inr cfg) ->
      forall t1, model_assembly env cfg = (t1, inr res) ->
      exists pre,
        t1 = pre ++ make_contiguous
                 :: (if disable_channel_last (performance cfg0)
                     then [] else [to_channels_last])).
Proof.
  intros Hp. split.
  - apply main_trace.
    + apply startup_trace_stages.
      * done.
      * intros t cfg Hin.
        apply ingest_inv in Hin as (cfg0' & n & Hp' & _ & -> & _).
        rewrite Hp in Hp'. injection Hp' as <-.
        apply (model_assembly_channels_last env (set_name cfg0 n)).
      * intros t cfg t1 cfg' model _ _.
        eapply Forall_impl; [apply validation_loader_events|].
        by intros ev [vl ->].
    + intros t cfg model vl _.
      eapply Forall_impl; [apply pretrain_data_trace|].
      intros ev. by destruct (format (data cfg) =? "dali")%string, ev.
    + intros. eapply Forall_impl; [apply run_trace|]. by intros [].
  - intros t cfg res Hin t1 H.
    apply ingest_inv in Hin as (cfg0' & n & Hp' & _ & -> & _).
    rewrite Hp in Hp'. injection Hp' as <-.
    unfold model_assembly in H.
    destruct (pop_pretrained_weights_spec (set_name cfg0 n)) as (kw & Hpop & _).
    rewrite Hpop in H.
    apply bind_inr in H as (ta & ? & ? & _ & H & ->).
    apply bind_inr in H as (tb & ? & ? & _ & H & ->).
    apply bind_inr in H as (tc & ? & ? & _ & H & ->).
    apply bind_inr in H as (td & ? & ? & Hmc & H & ->).
    apply bind_inr in H as (te & ? & ? & Hcl & H & ->).
    injection H as <- _. simpl in Hcl.
    unfold call in Hmc. injection Hmc as <- _.
    exists (ta ++ tb ++ tc). rewrite <- !app_assoc. do 3 f_equal.
    rewrite app_nil_r. simpl.
    destruct (disable_channel_last (performance cfg0)); simpl in Hcl.
    + by injection Hcl as <- _.
    + unfold call in Hcl. by injection Hcl as <- _.
Qed.

Lemma channels_last_follows_toggle_witness :
  Forall (fun ev => ev <> to_channels_last)
         (trace (main Sample.env Sample2.cfg_no_channels_last)) /\
  exists pre,
    trace (model_assembly Sample.env Sample.cfg)
    = pre ++ [make_contiguous; to_channels_last].
Proof.
  split.
  - destruct (channels_last_follows_toggle Sample.env
                Sample2.cfg_no_channels_last Sample2.cfg_no_channels_last)
      as [H _]; [reflexivity|].
    eapply Forall_impl; [exact H|]. intros ev Hev ->.
    discriminate (Hev eq_refl).
  - destruct (channels_last_follows_toggle Sample.env Sample.cfg Sample.cfg)
      as [_ H]; [reflexivity|].
    destruct (model_assembly Sample.env Sample.cfg) as [t1 [e|res]] eqn:Hasm.
    + vm_compute in Hasm. discriminate Hasm.
    + exact (H [seed_everything 5] Sample.cfg res eq_refl t1 Hasm).
Defined.

(** ** Runs that complete *)

Lemma succeeds_bind {A B} (m : M A) (k : A -> M B) :
  succeeds m -> (forall t a, m = (t, inr a) -> succeeds (k a)) ->
  succeeds (bind m k).
Proof.
  intros (t & a & Hm) Hk. destruct (Hk t a Hm) as (t' & b & Hb).
  exists (t ++ t'), b. rewrite (bind_ok _ _ _ _ Hm), Hb. done.
Qed.

Lemma succeeds_ret {A} (a : A) : succeeds (ret a).
Proof. by exists [], a. Qed.

Lemma succeeds_call env ev : raises env ev = None -> succeeds (call env ev).
Proof. intros H. exists [ev], tt. unfold call. by rewrite H. Qed.

Lemma succeeds_for_each {A B} (f : A -> M B) (l : list A) :
  (forall x, succeeds (f x)) -> succeeds (for_each f l).
Proof.
  intros Hf. induction l as [|x l IH]; simpl; [apply succeeds_ret|].
  apply succeeds_bind; [done|]. intros _ y _.
  apply succeeds_bind; [done|]. intros _ ys _. apply succeeds_ret.
Qed.

Lemma validate_ok env cfg :
  is_Some (METHODS env !! method cfg) ->
  num_large_crops (data cfg) = 2%Z \/ method cfg ∈ crop_exceptions ->
  validate env cfg = ret tt.
Proof.
  intros Hreg Hcrop. unfold validate, registry_check, crop_check.
  rewrite bool_decide_eq_true_2 by done. simpl.
  destruct (Z.eqb_spec (num_large_crops (data cfg)) 2) as [_|Hne]; [done|].
  simpl. destruct Hcrop as [?|Hex]; [done|].
  by rewrite bool_decide_eq_true_2.
Qed.

Lemma model_assembly_succeeds env cfg :
  all_calls_succeed env ->
  is_Some (METHODS env !! method cfg) ->
  succeeds (model_assembly env cfg).
Proof.
  intros (Hr & Hzoo & Hload & _ & Hctor) [ctor Hm]. unfold model_assembly.
  destruct (pop_pretrained_weights_spec cfg) as (kw & -> & _).
  apply succeeds_bind; [by exists [register_backbone "timm_universal"], tt|].
  intros _ _ _. apply succeeds_bind.
  { cbn [method set_backbone_kwargs]. rewrite Hm.
    destruct (Hctor _ _ (set_backbone_kwargs cfg kw) Hm) as [model Hmodel].
    rewrite Hmodel. by eexists _, _. }
  intros _ model _. apply succeeds_bind.
  { unfold load_pretrained. destruct (wants_zoo_weights _); [|apply succeeds_ret].
    apply succeeds_bind.
    { destruct (Hzoo (default VNone (kwargs (backbone cfg) !! "pretrained_weights"))
                  (default (VInt 3)
                     (kwargs (backbone
                        (set_backbone_kwargs (set_backbone_kwargs cfg kw)
                           (<["pretrained_weights" :=
                                default VNone
                                  (kwargs (backbone cfg) !! "pretrained_weights")]>
                              (kwargs (backbone (set_backbone_kwargs cfg kw))))))
                      !! "in_chans"))) as [w Hw].
      unfold ask. rewrite Hw. by eexists _, _. }
    intros _ w _. apply succeeds_bind.
    { destruct (Hload (model_backbone model) w) as [b' Hb].
      unfold ask. rewrite Hb. by eexists _, _. }
    intros _ b' _. destruct (set_backbone model b'); [apply succeeds_ret|].
    apply succeeds_bind; [by apply succeeds_call|]. intros. apply succeeds_ret. }
  intros _ model' _.
  apply succeeds_bind; [by apply succeeds_call|]. intros _ _ _.
  apply succeeds_bind; [|intros; apply succeeds_ret].
  destruct (negb _); [by apply succeeds_call | apply succeeds_ret].
Qed.

Lemma pretrain_data_succeeds env cfg vl :
  all_calls_succeed env ->
  (format (data cfg) = "dali" -> _dali_avaliable env = true) ->
  succeeds (pretrain_data env cfg vl).
Proof.
  intros (Hr & _) Hdali. unfold pretrain_data.
  destruct (String.eqb_spec (format (data cfg)) "dali") as [Hf|Hf].
  - rewrite (Hdali Hf). apply succeeds_bind; [apply succeeds_ret|].
    intros _ _ _. apply succeeds_bind.
    { apply succeeds_for_each. intros x.
      apply succeeds_bind; [by apply succeeds_call|]. intros.
      apply succeeds_ret. }
    intros _ pipelines _.
    apply succeeds_bind; [by apply succeeds_call|]. intros.
    apply succeeds_ret.
  - apply succeeds_bind.
    { apply succeeds_for_each. intros x.
      apply succeeds_bind; [by apply succeeds_call|]. intros.
      apply succeeds_ret. }
    intros _ pipelines _. apply succeeds_bind.
    { destruct (custom_dataset_name (data cfg) =? "acdc")%string;
        (apply succeeds_bind; [by apply succeeds_call|]; intros;
         apply succeeds_ret). }
    intros _ ds _.
    apply succeeds_bind; [by apply succeeds_call|]. intros.
    apply succeeds_ret.
Qed.

Lemma assemble_callbacks_succeeds env cfg model run_id :
  all_calls_succeed env ->
  (auto_umap_enabled (auto_umap cfg) = true -> _umap_available env = true) ->
  succeeds (assemble_callbacks env cfg model run_id).
Proof.
  intros (Hr & _) Hu. unfold assemble_callbacks.
  apply succeeds_bind.
  { destruct (auto_umap_enabled (auto_umap cfg)); [|apply succeeds_ret].
    rewrite Hu by done. apply succeeds_bind; [apply succeeds_ret|].
    intros. apply succeeds_ret. }
  intros _ cbs _. apply succeeds_bind.
  { destruct (wandb_enabled (wandb cfg)); [|apply succeeds_ret].
    apply succeeds_bind; [by apply succeeds_call|]. intros _ _ _.
    apply succeeds_bind; [by apply succeeds_call|]. intros _ _ _.
    apply succeeds_bind; [by apply succeeds_call|]. intros.
    apply succeeds_ret. }
  intros _ [cbs' wl] _. apply succeeds_ret.
Qed.

Lemma resolve_resume_succeeds env cfg :
  all_calls_succeed env ->
  is_Some (resume_from_checkpoint cfg) ->
  succeeds (resolve_resume env cfg).
Proof.
  intros (_ & _ & _ & Hfind & _) [r Hr].
  unfold resolve_resume, read_resume_from_checkpoint. rewrite Hr.
  apply succeeds_bind; [apply succeeds_ret|]. intros _ explicit _.
  destruct (_ && _)%bool.
  - apply succeeds_bind.
    { destruct (Hfind (auto_resume_dir cfg) (max_hours (auto_resume cfg)) cfg)
        as [res Hres].
      unfold ask. rewrite Hres. by eexists _, _. }
    intros _ [resume wid] _. apply succeeds_ret.
  - destruct explicit; apply succeeds_ret.
Qed.

Lemma run_succeeds env cfg model vl td :
  all_calls_succeed env ->
  is_Some (resume_from_checkpoint cfg) ->
  (auto_umap_enabled (auto_umap cfg) = true -> _umap_available env = true) ->
  (if (format (data cfg) =? "dali")%string
   then exists dm, td = DaliData dm
   else exists tl, td = LoaderData tl) ->
  succeeds (run env cfg model vl td).
Proof.
  intros Hall Hres Hu Htd. pose proof Hall as (Hr & _). unfold run.
  apply succeeds_bind; [by apply resolve_resume_succeeds|].
  intros t0 [[cfg' ckpt] rid] Hc%resolve_resume_inv.
  assert (auto_umap cfg' = auto_umap cfg /\ data cfg' = data cfg) as [Hau Hd].
  { by destruct Hc as [->| ->]. }
  apply succeeds_bind.
  { apply assemble_callbacks_succeeds; [done|]. by rewrite Hau. }
  intros _ [cbs wl] _. apply succeeds_bind.
  { unfold build_trainer. apply succeeds_bind; [by apply succeeds_call|].
    intros. apply succeeds_ret. }
  intros _ trainer _. apply succeeds_bind.
  { destruct (apply_workaround_ok env trainer) as [fl ->]. by eexists _, _. }
  intros _ trainer' _.
  destruct (dispatch_fit_matching env cfg' trainer' model td vl ckpt)
    as [a ->]; [by rewrite Hd|].
  by apply succeeds_call.
Qed.

Lemma main_shape env raw :
  (exists pre t m a c,
      trace (main env raw)
      = pre ++ [construct_trainer (trainer_kwargs t); patch_fit_loop;
                trainer_fit t m a c]) \/
  (exists e, outcome (main env raw) = inl e).
Proof.
  unfold main.
  destruct (startup env raw) as [t0 [e|[[cfg model] vl]]] eqn:Hst.
  { right. rewrite (bind_err _ _ _ _ eq_refl). eauto. }
  rewrite (bind_ok _ _ _ _ eq_refl).
  destruct (pretrain_data env cfg vl) as [t1 [e|td]] eqn:Hd.
  { right. by exists e. }
  rewrite (bind_ok _ _ _ _ eq_refl). simpl.
  destruct (run_shape env cfg model vl td)
    as [(pre & t & a & c & Htr & _)|(e & Hout & _)];
    [by eapply pretrain_data_inv | |].
  - left. exists (t0 ++ t1 ++ pre), t, model, a, c.
    rewrite Htr. by rewrite <- !app_assoc.
  - right. by exists e.
Qed.

(** X17: the script adds no failure of its own to those it checks for:
    in an environment where no library call fails, a configuration that
    parses, names a registered method, has two large crops (or an excepted
    method), asks for "dali" or umap only when the import is there, and
    holds the [resume_from_checkpoint] key, runs through to the end, and
    the last call of the run is [trainer.fit]. *)
Theorem cooperative_run_completes env raw cfg0 n :
  all_calls_succeed env ->
  parse_cfg env raw = inr cfg0 ->
  format_name env cfg0 = inr n ->
  startup_conditions env cfg0 ->
  outcome (main env raw) = inr tt /\
  exists pre t m a c, trace (main env raw) = pre ++ [trainer_fit t m a c].
Proof.
  intros Hall Hp Hn (Hreg & Hcrop & Hdali & Humap & Hres).
  pose proof Hall as (Hr & _).
  assert (succeeds (main env raw)) as (tr & [] & Hmain).
  { unfold main. apply succeeds_bind.
    - unfold startup. apply succeeds_bind.
      { exists [seed_everything (seed cfg0)], (set_name cfg0 n).
        unfold ingest, lift, call. rewrite Hp. cbn [bind]. rewrite Hn.
        simpl. by rewrite Hr. }
      intros t cfg Hin.
      apply ingest_inv in Hin as (cfg0' & n' & Hp' & _ & -> & _).
      rewrite Hp in Hp'. injection Hp' as <-.
      apply succeeds_bind; [rewrite validate_ok by done; apply succeeds_ret|].
      intros _ _ _. apply succeeds_bind; [by apply model_assembly_succeeds|].
      intros _ [cfg' model] _. apply succeeds_bind; [|intros; apply succeeds_ret].
      unfold validation_loader. destruct (_ && _)%bool; [apply succeeds_ret|].
      destruct (_ && _)%bool; [apply succeeds_ret|].
      apply succeeds_bind; [by apply succeeds_call|]. intros.
      apply succeeds_ret.
    - intros t [[cfg model] vl] Hst.
      apply startup_inv in Hst as (cfg0' & n' & kw & Hp' & _ & -> & _).
      rewrite Hp in Hp'. injection Hp' as <-.
      apply succeeds_bind; [by apply pretrain_data_succeeds|].
      intros t1 td Htd%pretrain_data_inv. by apply run_succeeds. }
  rewrite Hmain. split; [done|].
  destruct (main_shape env raw) as [Hleft|Hright].
  - destruct Hleft as (pre & t & m & a & c & Htr). rewrite Hmain in Htr.
    exists (pre ++ [construct_trainer (trainer_kwargs t); patch_fit_loop]),
      t, m, a, c.
    simpl in *. rewrite Htr. by rewrite <- app_assoc.
  - destruct Hright as (e & He). rewrite Hmain in He. done.
Qed.

Lemma sample_env_cooperates : all_calls_succeed Sample.env.
Proof.
  split_and!; simpl; eauto.
  intros m ctor c Hm.
  apply lookup_insert_Some in Hm as [[_ <-]|[_ Hm]]; [eauto|].
  apply lookup_insert_Some in Hm as [[_ <-]|[_ Hm]]; [eauto|].
  apply lookup_singleton_Some in Hm as [_ <-]. eauto.
Qed.

Lemma cooperative_run_completes_witness :
  outcome (main Sample.env Sample.cfg) = inr tt /\
  exists pre t m a c,
    trace (main Sample.env Sample.cfg) = pre ++ [trainer_fit t m a c].
Proof.
  apply (cooperative_run_completes Sample.env Sample.cfg Sample.cfg "byol-acdc");
    [apply sample_env_cooperates | reflexivity | reflexivity |].
  split_and!.
  - vm_compute. by eexists.
  - by left.
  - intros H. discriminate H.
  - intros H. discriminate H.
  - by eexists.
Defined.

Lemma pretrain_data_dali_available env cfg vl t td :
  pretrain_data env cfg vl = (t, inr td) ->
  format (data cfg) = "dali" -> _dali_avaliable env = true.
Proof.
  intros H Hf. destruct (_dali_avaliable env) eqn:Hd; [done|].
  by rewrite pretrain_data_dali_unavailable in H.
Qed.

(** X18: conversely, a run that completes has passed every check of the
    script: its configuration parsed and its name template expanded, its
    method is in the registry, it has two large crops or an excepted
    method, "dali" and umap were asked for only with their imports
    available, and the [resume_from_checkpoint] key was there. *)
Theorem completed_run_passed_all_checks env raw u :
  outcome (main env raw) = inr u ->
  exists cfg0 n,
    parse_cfg env raw = inr cfg0 /\ format_name env cfg0 = inr n /\
    startup_conditions env cfg0 /\
    raises env (seed_everything (seed cfg0)) = None.
Proof.
  intros Hok. destruct (main env raw) as [tr r] eqn:Hmain.
  simpl in Hok. subst r. unfold main in Hmain.
  apply bind_inr in Hmain as (t1 & [[cfg model] vl] & t2 & Hst & H & _).
  apply bind_inr in H as (t3 & td & t4 & Hd & H & _).
  pose proof Hst as (t0 & cfgi & _ & Hin & _)%startup_inv_assembly.
  pose proof Hst as (cfg0 & n & kw & Hp & Hn & -> & Hreg & Hcrop)%startup_inv.
  exists cfg0, n. split_and!; [done | done | | ].
  - unfold run in H.
    apply bind_inr in H as (t5 & [[cfg' ckpt] rid] & t6 & Hres & H & _).
    apply bind_inr in H as (t7 & [cbs wl] & t8 & Hasm & _).
    pose proof (resolve_resume_inv _ _ _ _ _ _ Hres) as Hc.
    apply resolve_resume_cfg in Hres. simpl in Hres.
    split_and!.
    + done.
    + destruct (Z.eq_dec (num_large_crops (data cfg0)) 2); [by left|].
      right. by apply Hcrop.
    + intros Hf. by eapply pretrain_data_dali_available.
    + intros Hu. destruct (_umap_available env) eqn:Hav; [done|].
      rewrite assemble_callbacks_umap_missing in Hasm; [done| |done].
      by destruct Hc as [->| ->].
    + destruct (resume_from_checkpoint cfg0); [by eexists | done].
  - unfold ingest, lift, call in Hin. rewrite Hp in Hin. cbn [bind] in Hin.
    rewrite Hn in Hin. simpl in Hin.
    by destruct (raises env (seed_everything (seed cfg0))).
Qed.


Lemma completed_run_witness :
  exists cfg0 n,
    parse_cfg Sample.env Sample.cfg = inr cfg0 /\
    format_name Sample.env cfg0 = inr n /\
    startup_conditions Sample.env cfg0 /\
    raises Sample.env (seed_everything (seed cfg0)) = None.
Proof.
  apply (completed_run_passed_all_checks Sample.env Sample.cfg tt).
  vm_compute. reflexivity.
Defined.
